(** * Patient appointment booking: orchestrator and analysis stages

    A shallow embedding of the Python package [agents/] (the simple
    orchestrator [agent_graph_simple.py], the five agents and their base
    class) and of the session-store code of [main_simple.py].

    Conventions of the embedding:
    - Python [str] is [string]; messages are ASCII text, so [str.lower],
      [str.split], [str.title] and the regular-expression classes [\d],
      [\s], [\w] are written for ASCII.
    - A Python [dict] with a fixed set of keys is a record whose optional
      fields are [option] (a missing key is [None]).
    - The external completion call is an input of the turn: for every stage
      the environment says whether the call returns a text or raises.
    - [list(set(xs))] (whose order depends on string hashing) is modelled as
      removal of duplicates keeping the first occurrence; every statement
      below is about membership, sums or lengths, which do not depend on
      that order.
    - Float confidences are not modelled: no branch of the program reads
      them. Security severities are tenths, held in [Z]. *)

From Stdlib Require Import String Ascii List ZArith Bool Lia.
From Stdlib Require Import Sorting.Sorted Sorting.Permutation.
Import ListNotations.
Open Scope string_scope.
Open Scope Z_scope.

(** ** Strings *)
Module Str.

Definition is_upper (c : ascii) : bool :=
  let n := nat_of_ascii c in (Nat.leb 65 n && Nat.leb n 90)%bool.
Definition is_lower (c : ascii) : bool :=
  let n := nat_of_ascii c in (Nat.leb 97 n && Nat.leb n 122)%bool.
Definition is_alpha (c : ascii) : bool := is_upper c || is_lower c.
Definition is_digit (c : ascii) : bool :=
  let n := nat_of_ascii c in (Nat.leb 48 n && Nat.leb n 57)%bool.
(** [\w]: letters, digits and underscore. *)
Definition is_word (c : ascii) : bool :=
  is_alpha c || is_digit c || Ascii.eqb c "_"%char.
(** [str.isspace] and the regular-expression class [\s]. *)
Definition is_space (c : ascii) : bool :=
  let n := nat_of_ascii c in
  ((Nat.leb 9 n && Nat.leb n 13) || (Nat.leb 28 n && Nat.leb n 32))%bool.

Definition lower_char (c : ascii) : ascii :=
  if is_upper c then ascii_of_nat (nat_of_ascii c + 32) else c.
Definition upper_char (c : ascii) : ascii :=
  if is_lower c then ascii_of_nat (nat_of_ascii c - 32) else c.

(** [s.lower()] and [s.upper()]. *)
Fixpoint lower (s : string) : string :=
  match s with
  | EmptyString => EmptyString
  | String c s' => String (lower_char c) (lower s')
  end.
Fixpoint upper (s : string) : string :=
  match s with
  | EmptyString => EmptyString
  | String c s' => String (upper_char c) (upper s')
  end.

(** [s.title()]: a letter is upper-cased after a non-letter, lower-cased
    after a letter. *)
Fixpoint title_from (prev_alpha : bool) (s : string) : string :=
  match s with
  | EmptyString => EmptyString
  | String c s' =>
      String (if is_alpha c then
                (if prev_alpha then lower_char c else upper_char c)
              else c)
             (title_from (is_alpha c) s')
  end.
Definition title (s : string) : string := title_from false s.

Fixpoint prefixb (p s : string) : bool :=
  match p, s with
  | EmptyString, _ => true
  | String a p', String b s' => Ascii.eqb a b && prefixb p' s'
  | String _ _, EmptyString => false
  end.

(** Python's [p in s]. *)
Fixpoint contains (p s : string) : bool :=
  prefixb p s ||
  match s with
  | EmptyString => false
  | String _ s' => contains p s'
  end.

(** [any(k in s for k in ks)]. *)
Definition any_in (ks : list string) (s : string) : bool :=
  existsb (fun k => contains k s) ks.

(** [s[k:]] after a matched prefix of length [k]. *)
Fixpoint drop (k : nat) (s : string) : string :=
  match k, s with
  | O, _ => s
  | S k', String _ s' => drop k' s'
  | S _, EmptyString => EmptyString
  end.

(** [s.replace(old, new)] with a non-empty [old]: left to right,
    non-overlapping. *)
Fixpoint replace_fuel (fuel : nat) (old new s : string) : string :=
  match fuel with
  | O => s
  | S fuel' =>
      match s with
      | EmptyString => EmptyString
      | String c s' =>
          if prefixb old s then new ++ replace_fuel fuel' old new (drop (String.length old) s)
          else String c (replace_fuel fuel' old new s')
      end
  end.
Definition replace (old new s : string) : string :=
  replace_fuel (S (String.length s)) old new s.

(** [s.split()]: runs of whitespace separate the fields. *)
Fixpoint split_ws_acc (cur : string) (s : string) : list string :=
  match s with
  | EmptyString => if String.eqb cur "" then [] else [cur]
  | String c s' =>
      if is_space c then
        (if String.eqb cur "" then [] else [cur]) ++ split_ws_acc "" s'
      else split_ws_acc (cur ++ String c EmptyString) s'
  end.
Definition split_ws (s : string) : list string := split_ws_acc "" s.

(** [s.split(sep)] for a one-character separator. *)
Fixpoint split_on_acc (sep : ascii) (cur : string) (s : string) : list string :=
  match s with
  | EmptyString => [cur]
  | String c s' =>
      if Ascii.eqb c sep then cur :: split_on_acc sep "" s'
      else split_on_acc sep (cur ++ String c EmptyString) s'
  end.
Definition split_on (sep : ascii) (s : string) : list string :=
  split_on_acc sep "" s.

(** Lexicographic comparison of code points, as Python compares [str]. *)
Fixpoint ltb (s t : string) : bool :=
  match s, t with
  | EmptyString, EmptyString => false
  | EmptyString, String _ _ => true
  | String _ _, EmptyString => false
  | String a s', String b t' =>
      if Nat.ltb (nat_of_ascii a) (nat_of_ascii b) then true
      else if Nat.eqb (nat_of_ascii a) (nat_of_ascii b) then ltb s' t'
      else false
  end.
Definition leb (s t : string) : bool := ltb s t || String.eqb s t.

(** Maximal run of leading characters satisfying [p], and the rest. *)
Fixpoint span (p : ascii -> bool) (s : string) : string * string :=
  match s with
  | EmptyString => (EmptyString, EmptyString)
  | String c s' =>
      if p c then let (a, b) := span p s' in (String c a, b)
      else (EmptyString, s)
  end.

(** [int(d)] for a string of decimal digits. *)
Fixpoint digits_value_acc (acc : Z) (s : string) : Z :=
  match s with
  | EmptyString => acc
  | String c s' => digits_value_acc (10 * acc + (Z.of_nat (nat_of_ascii c) - 48)) s'
  end.
Definition int_of_digits (s : string) : Z := digits_value_acc 0 s.

(** Decimal rendering of a non-negative integer, zero-padded to [w]. *)
Fixpoint digits_of_nat_fuel (fuel : nat) (n : nat) (acc : string) : string :=
  match fuel with
  | O => acc
  | S f =>
      let d := String (ascii_of_nat (48 + Nat.modulo n 10)) acc in
      if Nat.ltb n 10 then d else digits_of_nat_fuel f (Nat.div n 10) d
  end.
Definition show_nat (n : nat) : string := digits_of_nat_fuel (S n) n "".
Fixpoint zeros (k : nat) : string :=
  match k with O => "" | S k' => "0" ++ zeros k' end.
Definition pad_left (w : nat) (s : string) : string :=
  zeros (w - String.length s) ++ s.
Definition show_Z_padded (w : nat) (z : Z) : string := pad_left w (show_nat (Z.to_nat z)).

(** The string with one character. *)
Definition chr (n : nat) : string := String (ascii_of_nat n) EmptyString.
Definition nl : string := chr 10.

End Str.

(** ** Regular expressions used by the agents

    Every pattern the agents search with is of one of two shapes, and each
    shape has its own matcher:
    - a sequence of literal pieces joined by [.*] (["ignore.*previous.*instructions"],
      ["my .* hurts"], a plain literal); an alternation inside a pattern
      (["(broke|hurt) my"]) is written out as one sequence per alternative.
      [.] matches any character except a newline, so a match exists iff one
      line of the text contains the pieces in order without overlap, and the
      leftmost occurrence of each piece is the best choice;
    - a digit run with a fixed left or right context (age, duration,
      severity, slot number), matched position by position as [re.search]
      does. *)
Module Re.
Import Str.

(** The text after the leftmost occurrence of [p] in [s]. *)
Fixpoint after (p s : string) : option string :=
  if prefixb p s then Some (drop (String.length p) s)
  else match s with
       | EmptyString => None
       | String _ s' => after p s'
       end.

Fixpoint pieces_in_line (ps : list string) (line : string) : bool :=
  match ps with
  | [] => true
  | p :: ps' =>
      match after p line with
      | Some rest => pieces_in_line ps' rest
      | None => false
      end
  end.

(** [re.search("p1.*p2.*...", s) is not None]. *)
Definition search_pieces (ps : list string) (s : string) : bool :=
  existsb (pieces_in_line ps) (split_on (ascii_of_nat 10) s).

(** [re.search(pattern, s)] for a pattern given by its alternatives. *)
Definition search_alts (alts : list (list string)) (s : string) : bool :=
  existsb (fun ps => search_pieces ps s) alts.

(** Skip a (possibly empty) run of [\s]. *)
Definition skip_spaces (s : string) : string := snd (span is_space s).

(** Try [m] at every position of [s], leftmost first, as [re.search]. *)
Fixpoint search_at {A} (m : string -> option A) (s : string) : option A :=
  match m s with
  | Some a => Some a
  | None =>
      match s with
      | EmptyString => None
      | String _ s' => search_at m s'
      end
  end.

(** [(\d+)] at the start of [s]: the maximal digit run (no shorter run can
    be followed by a non-digit) and the rest. *)
Definition digits_at (s : string) : option (string * string) :=
  let (d, rest) := span is_digit s in
  if String.eqb d "" then None else Some (d, rest).

(** [(\d+)\s*years?\s*old] *)
Definition age_pat1 (s : string) : option string :=
  match digits_at s with
  | Some (d, rest) =>
      let r := skip_spaces rest in
      if prefixb "year" r then
        let r1 := drop 4 r in
        let r2 := if prefixb "s" r1 then drop 1 r1 else r1 in
        if prefixb "old" (skip_spaces r2) then Some d else None
      else None
  | None => None
  end.

(** [age\s*(\d+)] *)
Definition age_pat2 (s : string) : option string :=
  if prefixb "age" s then
    match digits_at (skip_spaces (drop 3 s)) with
    | Some (d, _) => Some d
    | None => None
    end
  else None.

(** [(\d+)\s*yr] *)
Definition age_pat3 (s : string) : option string :=
  match digits_at s with
  | Some (d, rest) => if prefixb "yr" (skip_spaces rest) then Some d else None
  | None => None
  end.

(** [re.findall(r'\b(\d+)\b', s)]: the digit runs with no word character
    on either side. *)
Fixpoint bare_numbers_from (prev_word : bool) (run : string) (s : string)
  : list string :=
  match s with
  | EmptyString =>
      if (negb (String.eqb run "") && negb prev_word)%bool then [run] else []
  | String c s' =>
      if is_digit c then bare_numbers_from prev_word (run ++ String c EmptyString) s'
      else if String.eqb run "" then bare_numbers_from (is_word c) "" s'
      else (if (negb prev_word && negb (is_word c))%bool then [run] else [])
             ++ bare_numbers_from (is_word c) "" s'
  end.
Definition bare_numbers (s : string) : list string := bare_numbers_from false "" s.

End Re.

(** ** Data model

    Modelled from the spec: the pydantic models of [models/patient_models.py]
    (not part of the sources) are written from the spec's data model, with
    the fields the agents and the orchestrator construct and read.
    [Priority] and [AppointmentType] are enums whose members compare equal
    to their names. *)
Module Priority.
Inductive t := LOW | MEDIUM | HIGH | EMERGENCY.
Definition eqb (a b : t) : bool :=
  match a, b with
  | LOW, LOW | MEDIUM, MEDIUM | HIGH, HIGH | EMERGENCY, EMERGENCY => true
  | _, _ => false
  end.
End Priority.

Module AppointmentType.
Inductive t := GENERAL | EMERGENCY | FOLLOWUP | SPECIALIST.
End AppointmentType.

Module Models.

Record AppointmentSlot := {
  date : string; time : string; doctor : string; specialty : string;
  available : bool }.

Record SymptomAnalysis := {
  symptoms : list string;
  severity : Priority.t;
  urgency : bool;
  specialty_required : option string }.

Record ComorbidityRisk := {
  risk_factors : list string;
  risk_level : Priority.t;
  recommendations : list string }.

Record AppointmentBooking := {
  appointment_id : string;
  patient_id : string;
  b_date : string; b_time : string; b_doctor : string; b_specialty : string;
  appointment_type : AppointmentType.t;
  confirmed : bool }.

(** [AgentResponse]; the stage payload [data] is returned next to it, typed
    per stage. *)
Record AgentResponse := {
  agent_name : string;
  message : string;
  action_taken : option string }.

Record PatientRequest := {
  req_message : string;
  session_id : option string;
  req_patient_id : option string }.

Record AppointmentResponse := {
  r_message : string;
  agent_responses : list AgentResponse;
  symptom_analysis : option SymptomAnalysis;
  comorbidity_risk : option ComorbidityRisk;
  available_slots : list AppointmentSlot;
  booking : option AppointmentBooking;
  next_steps : list string;
  requires_emergency : bool;
  r_session_id : option string }.

(** A slot stored in the session is the plain dict [slot.dict()]; its
    string-valued keys are [date], [time], [doctor], [specialty] (the boolean
    [available] is never read back and is left out). *)
Definition SlotDict := list (string * string).

Definition slot_dict (s : AppointmentSlot) : SlotDict :=
  [("date", date s); ("time", time s); ("doctor", doctor s); ("specialty", specialty s)].

(** [d.get(k)] *)
Fixpoint lookup (k : string) (d : SlotDict) : option string :=
  match d with
  | [] => None
  | (k', v) :: d' => if String.eqb k k' then Some v else lookup k d'
  end.

(** [d.get(k, default)] *)
Definition get (k default : string) (d : SlotDict) : string :=
  match lookup k d with Some v => v | None => default end.

(** What [extracted_info] holds: the symptom keywords, whether a duration
    and a severity were found, and the (always empty) medical history. *)
Record ExtractedInfo := {
  ei_symptoms : list string;
  ei_duration : bool;
  ei_severity : bool;
  ei_medical_history : list string }.

(** One entry of [conversation_history]. *)
Record Turn := {
  t_user_message : string;
  t_assistant_response : string;
  t_agent_responses : list AgentResponse }.

(** The conversation context: the session dict of [main_simple.py], which
    [process_request] also uses (the same object) as its working context. *)
Record Ctx := {
  conversation_history : list Turn;
  ctx_symptom_analysis : option SymptomAnalysis;
  ctx_comorbidity_risk : option ComorbidityRisk;
  ctx_available_slots : list SlotDict;
  conversation_stage : option string;
  is_medical : option bool;
  request_type : option string;
  crisis_type : option (list string);
  extracted_info : option ExtractedInfo;
  urgency_indicators : option (list string);
  ctx_error : option string;
  booking_intent : option bool }.

(** The empty dict [{}]. *)
Definition empty_ctx : Ctx := {|
  conversation_history := []; ctx_symptom_analysis := None;
  ctx_comorbidity_risk := None; ctx_available_slots := [];
  conversation_stage := None; is_medical := None; request_type := None;
  crisis_type := None; extracted_info := None; urgency_indicators := None;
  ctx_error := None; booking_intent := None |}.

End Models.

(** ** The external completion call and the environment of a turn *)
Module Env.

Inductive Stage := Security | Intake | Triage | Comorbidity | Booking.

(** [_call_openai_api]: a completion text, or an exception with its text. *)
Inductive LlmResult := LlmOk (text : string) | LlmFail (reason : string).

Record t := {
  llm : Stage -> LlmResult;
  (** [datetime.now()], in days since 1970-01-01 *)
  now_days : Z;
  (** the hex digits of [uuid.uuid4()] *)
  uuid_hex : string }.

End Env.

(** ** [BaseAgent.invoke]

    The completion call is made; on success the agent's [process_response]
    gives the message, the action and the payload; any exception is caught
    and turned into an error reply whose payload is [{"error": str(e)}]. *)
Module Base.
Import Models Env.

Inductive Outcome (D : Type) := Done (d : D) | Errored (e : string).
Arguments Done {D} d.
Arguments Errored {D} e.

Definition invoke {D} (name : string) (r : LlmResult)
    (process_response : string -> string * option string * D)
  : AgentResponse * Outcome D :=
  match r with
  | LlmOk text =>
      let '(msg, act, d) := process_response text in
      ({| agent_name := name; message := msg; action_taken := act |}, Done d)
  | LlmFail reason =>
      let e := "OpenAI API call failed: " ++ reason in
      ({| agent_name := name; message := "Error processing request: " ++ e;
          action_taken := Some "error_handling" |}, Errored e)
  end.

End Base.

(** ** Security classifier: [jailbreak_agent.py] *)
Module Jailbreak.
Import Str.

Inductive SafetyLevel := SAFE | CAUTION | BLOCK.

Inductive Category := prompt_injection | data_extraction | medical_fraud | harassment.

(** [self.threat_patterns], in dict order; each pattern as its [.*]-pieces. *)
Definition threat_patterns : list (Category * list (list string)) := [
  (prompt_injection,
    [["ignore"; "previous"; "instructions"]; ["system"; "prompt"]; ["you are now"];
     ["forget"; "instructions"]; ["act as"; "different"]]);
  (data_extraction,
    [["show"; "database"]; ["list"; "patients"]; ["admin"; "access"]; ["api"; "key"];
     ["password"]]);
  (medical_fraud,
    [["fake"; "prescription"]; ["illegal"; "drugs"]; ["without"; "prescription"];
     ["forge"; "medical"]]);
  (harassment,
    [["sexual"; "content"]; ["offensive"; "language"]; ["threat"; "violence"]])].

(** [_get_threat_severity], in tenths: 0.6, 0.8, 0.9, 0.7. *)
Definition get_threat_severity (c : Category) : Z :=
  match c with
  | prompt_injection => 6
  | data_extraction => 8
  | medical_fraud => 9
  | harassment => 7
  end.

Record ThreatAnalysis := {
  detected_threats : list (Category * list string * Z);
  risk_score : Z;
  categories : list Category }.

(** The loop of [_analyze_threats]: every pattern of every category, in
    order, adding the category's severity for each match. *)
Definition analyze_step (msg : string) (a : ThreatAnalysis)
    (c : Category) (pat : list string) : ThreatAnalysis :=
  if Re.search_pieces pat msg then
    {| detected_threats := detected_threats a ++ [(c, pat, get_threat_severity c)];
       risk_score := risk_score a + get_threat_severity c;
       categories := categories a ++ [c] |}
  else a.

Definition analyze_threats (message : string) : ThreatAnalysis :=
  let message_lower := lower message in
  fold_left
    (fun a cp => fold_left (fun a' pat => analyze_step message_lower a' (fst cp) pat) (snd cp) a)
    threat_patterns
    {| detected_threats := []; risk_score := 0; categories := [] |}.

(** [_check_response_safety], the part the safety level reads. *)
Definition sensitive_patterns : list (list string) :=
  [["system"; "prompt"]; ["internal"; "instruction"]; ["api"; "key"];
   ["database"; "connection"]; ["admin"; "password"]].

Definition contains_sensitive_info (response : string) : bool :=
  existsb (fun p => Re.search_pieces p (lower response)) sensitive_patterns.

(** [_determine_safety_level]; thresholds 0.8 and 0.4 in tenths. *)
Definition determine_safety_level (ta : ThreatAnalysis) (sensitive : bool) : SafetyLevel :=
  if risk_score ta >=? 8 then BLOCK
  else if (risk_score ta >=? 4) || sensitive then CAUTION
  else SAFE.

Definition determine_security_action (lvl : SafetyLevel) (ta : ThreatAnalysis) : string :=
  match lvl with
  | BLOCK => "block_interaction"
  | CAUTION =>
      if existsb (fun c => match c with prompt_injection => true | _ => false end)
                 (categories ta)
      then "filter_response" else "monitor_closely"
  | SAFE => "allow_normal_flow"
  end.

Definition generate_safety_message (lvl : SafetyLevel) : string :=
  match lvl with
  | BLOCK => "Security violation detected. This interaction has been blocked for safety reasons."
  | CAUTION => "Potential security concern identified. Monitoring interaction closely."
  | SAFE => "Interaction appears safe. No security concerns detected."
  end.

(** The classifier as the specification describes it, for comparison with
    [analyze_threats] and [determine_safety_level]: the severities of all
    matched patterns of all categories summed, then the two thresholds, a
    sensitive-info leak in the completion text forcing at least [CAUTION]. *)
Definition claimed_risk_score (message : string) : Z :=
  fold_right Z.add 0
    (flat_map (fun cp => map (fun pat => if Re.search_pieces pat (lower message)
                                        then get_threat_severity (fst cp) else 0)
                             (snd cp))
              threat_patterns).

Definition claimed_safety_level (message llm_response : string) : SafetyLevel :=
  let score := claimed_risk_score message in
  if 8 <=? score then BLOCK
  else if (4 <=? score) || contains_sensitive_info llm_response then CAUTION
  else SAFE.

(** [process_response]; the payload is the safety level. *)
Definition process_response (llm_response user_message : string)
  : string * option string * SafetyLevel :=
  let ta := analyze_threats user_message in
  let lvl := determine_safety_level ta (contains_sensitive_info llm_response) in
  (generate_safety_message lvl, Some (determine_security_action lvl ta), lvl).

Definition name : string := "Jailbreak Agent".

End Jailbreak.

(** ** Intake classifier: [assisting_agent.py] *)
Module Assisting.
Import Str Models.

Definition medical_keywords : list string := [
  "pain"; "ache"; "hurt"; "hurts"; "fever"; "sick"; "ill"; "symptom"; "feel"; "headache";
  "nausea"; "dizzy"; "tired"; "fatigue"; "cough"; "cold"; "flu"; "infection";
  "bleeding"; "swelling"; "rash"; "itch"; "sore"; "tender"; "numb"; "weak";
  "broken"; "broke"; "injured"; "injury"; "sprained"; "twisted"; "fractured";
  "cut"; "burn"; "bruised"; "swollen"; "dislocated"; "torn"; "pulled";
  "doctor"; "appointment"; "checkup"; "consultation"; "medical"; "health";
  "physician"; "specialist"; "clinic"; "hospital"; "medicine"; "medication";
  "prescription"; "treatment"; "therapy"; "surgery"; "procedure"; "urgent care";
  "head"; "chest"; "stomach"; "back"; "neck"; "arm"; "leg"; "knee"; "ankle";
  "shoulder"; "wrist"; "finger"; "toe"; "eye"; "ear"; "throat"; "heart";
  "lung"; "kidney"; "liver"; "brain"; "bone"; "muscle"; "joint";
  "diabetes"; "hypertension"; "asthma"; "allergy"; "depression"; "anxiety";
  "cancer"; "arthritis"; "migraine"; "chronic"; "acute"; "emergency"].

(** [injury_patterns], each alternative written out. *)
Definition injury_patterns : list (list (list string)) := [
  [["my "; " hurts"]; ["my "; " is broken"]; ["my "; " is injured"]; ["my "; " broke"];
   ["my "; " hurt"]];
  [["broke my"]; ["hurt my"]; ["injured my"]; ["sprained my"]; ["twisted my"]];
  [["pain in "]];
  [["can't move my"]; ["can't feel my"]; ["can't use my"]];
  [["something wrong with my"]];
  [["problem with my"]]].

Definition appointment_phrases : list string := [
  "book appointment"; "schedule appointment"; "see a doctor"; "medical help";
  "health issue"; "not feeling well"; "need to see"; "medical concern";
  "need medical attention"; "visit doctor"; "consult doctor"].

Definition is_medical_request (message : string) : bool :=
  let message_lower := lower message in
  any_in medical_keywords message_lower
  || existsb (fun alts => Re.search_alts alts message_lower) injury_patterns
  || any_in appointment_phrases message_lower.

Definition classify_non_medical_request (message : string) : string :=
  let message_lower := lower message in
  if any_in ["movie"; "ticket"; "cinema"; "theater"; "film"] message_lower then "entertainment"
  else if any_in ["restaurant"; "food"; "dinner"; "lunch"; "table"] message_lower then "dining"
  else if any_in ["travel"; "flight"; "hotel"; "vacation"; "trip"] message_lower then "travel"
  else if any_in ["shopping"; "buy"; "purchase"; "store"] message_lower then "shopping"
  else if any_in ["weather"; "temperature"; "forecast"] message_lower then "weather"
  else if any_in ["time"; "date"; "calendar"; "schedule"] message_lower then "general_info"
  else "other".

Definition type_response (request_type : string) : string :=
  if String.eqb request_type "entertainment" then "I understand you're looking to book movie tickets, but I'm specifically designed to help with medical appointments and healthcare needs."
  else if String.eqb request_type "dining" then "I see you're interested in restaurant reservations, but I specialize in medical appointment booking and healthcare assistance."
  else if String.eqb request_type "travel" then "I notice you're asking about travel arrangements, but my expertise is in medical appointments and healthcare services."
  else if String.eqb request_type "shopping" then "I understand you're looking to make a purchase, but I'm designed specifically for medical appointment booking."
  else if String.eqb request_type "weather" then "I see you're asking about weather, but I focus on medical appointments and healthcare needs."
  else if String.eqb request_type "general_info" then "I understand you're looking for general information, but I specialize in medical appointments and healthcare."
  else "I appreciate your question, but I'm specifically designed to help with medical appointments and healthcare needs.".

Definition generate_polite_redirect (request_type : string) : string :=
  "😊 " ++ type_response request_type ++ "

I'm here to help you with:
• Scheduling medical appointments
• Discussing health symptoms and concerns
• Finding appropriate medical specialists
• Providing guidance on medical urgency
• Booking consultations with doctors

If you have any health concerns or need to see a healthcare provider, I'd be happy to assist you! Please let me know about any symptoms you're experiencing or what type of medical appointment you need.".

Definition detect_crisis_indicators (message : string) : list string :=
  let message_lower := lower message in
  (if any_in ["kill myself"; "end my life"; "want to die"; "suicide"; "suicidal";
              "don't want to live"; "life isn't worth"; "better off dead";
              "thinking of ending"; "hurt myself"; "harm myself"] message_lower
   then ["suicidal_ideation"] else [])
  ++ (if any_in ["cut myself"; "hurt myself"; "self harm"; "self-harm"; "cutting";
                 "burning myself"; "hitting myself"] message_lower
      then ["self_harm"] else [])
  ++ (if any_in ["can't go on"; "hopeless"; "worthless"; "no point"; "give up";
                 "can't take it"; "everything is dark"; "no way out"] message_lower
      then ["severe_depression"] else []).

Definition generate_crisis_response (crisis_indicators : list string) : string :=
  if existsb (String.eqb "suicidal_ideation") crisis_indicators then
"🤗 I'm really concerned about you and want you to know that you're not alone. Your life has value, and there are people who want to help.

**Immediate Support:**
• 🆘 **Crisis Text Line**: Text HOME to 741741
• 📞 **National Suicide Prevention Lifeline**: 988 or 1-800-273-8255
• 🚨 **Emergency Services**: Call 911 if you're in immediate danger

**Please consider:**
• Reaching out to a trusted friend, family member, or counselor
• Going to your nearest emergency room
• Calling a crisis helpline to talk with someone right now

I can also help you find mental health professionals in your area who specialize in crisis intervention and ongoing support. Would you like me to help you schedule an urgent appointment with a mental health provider?

You matter, and there is help available. Please don't hesitate to reach out for immediate support."
  else if existsb (String.eqb "self_harm") crisis_indicators then
"💙 I'm concerned about what you're going through. Self-harm can be a way of coping with difficult emotions, but there are healthier alternatives and people who can help.

**Immediate Resources:**
• 📞 **Crisis Text Line**: Text HOME to 741741
• 🆘 **Self-Injury Outreach & Support**: sioutreach.org
• 📞 **National Suicide Prevention Lifeline**: 988

**Healthy Coping Alternatives:**
• Hold ice cubes in your hands
• Draw on your skin with a red marker
• Exercise intensely for a few minutes
• Talk to someone you trust

I can help you find a mental health professional who specializes in self-harm and can provide proper support. Would you like me to schedule an urgent appointment with a counselor or therapist?

Your feelings are valid, and you deserve support and care."
  else
"🤗 I hear that you're going through a really difficult time, and I want you to know that what you're feeling is valid. Depression can make everything seem overwhelming, but you don't have to face this alone.

**Support Resources:**
• 📞 **National Suicide Prevention Lifeline**: 988
• 💬 **Crisis Text Line**: Text HOME to 741741
• 🧠 **NAMI HelpLine**: 1-800-950-6264

**Remember:**
• These feelings can change with proper support and treatment
• You are not a burden to others
• Help is available and recovery is possible

I can help you schedule an appointment with a mental health professional, such as a psychiatrist or therapist, who can provide proper assessment and treatment for depression. Would you like me to help you find mental health services in your area?

Taking the step to reach out shows incredible strength. Please consider speaking with a professional who can provide the support you deserve.".

Definition symptom_keywords : list string := [
  "pain"; "ache"; "fever"; "headache"; "nausea"; "vomiting"; "diarrhea";
  "constipation"; "cough"; "shortness of breath"; "chest pain"; "dizziness";
  "fatigue"; "weakness"; "rash"; "swelling"; "bleeding"; "infection"].

(** Whether some alternative of [re.search] with one of the patterns
    below matches: only the truth of the captured text is read. *)
Definition found (m : string -> bool) (s : string) : bool :=
  match Re.search_at (fun t => if m t then Some tt else None) s with
  | Some _ => true | None => false
  end.

Definition starts_with_any (ws : list string) (s : string) : bool :=
  existsb (fun w => prefixb w s) ws.

(** [(\d+)\s*(day|days|week|weeks|month|months)] *)
Definition duration_pat1 (s : string) : bool :=
  match Re.digits_at s with
  | Some (_, rest) => starts_with_any ["day"; "week"; "month"] (Re.skip_spaces rest)
  | None => false
  end.

(** [since\s+(\w+)] *)
Definition duration_pat2 (s : string) : bool :=
  if prefixb "since" s then
    let r := drop 5 s in
    let (sp, rest) := span is_space r in
    match sp, rest with
    | String _ _, String c _ => is_word c
    | _, _ => false
    end
  else false.

(** [for\s+(\d+)\s*(hour|hours|day|days)] *)
Definition duration_pat3 (s : string) : bool :=
  if prefixb "for" s then
    let (sp, rest) := span is_space (drop 3 s) in
    match sp with
    | EmptyString => false
    | String _ _ =>
        match Re.digits_at rest with
        | Some (_, r) => starts_with_any ["hour"; "day"] (Re.skip_spaces r)
        | None => false
        end
    end
  else false.

(** [(\d+)/10] *)
Definition severity_pat1 (s : string) : bool :=
  match Re.digits_at s with
  | Some (_, rest) => prefixb "/10" rest
  | None => false
  end.

(** [\s+ w] at the start: at least one whitespace, then [w]. *)
Definition spaces_then (w s : string) : option string :=
  let (sp, rest) := span is_space s in
  match sp with
  | EmptyString => None
  | String _ _ => if prefixb w rest then Some (drop (String.length w) rest) else None
  end.

(** [(\d+)\s+out\s+of\s+10] *)
Definition severity_pat2 (s : string) : bool :=
  match Re.digits_at s with
  | Some (_, r0) =>
      match spaces_then "out" r0 with
      | Some r1 =>
          match spaces_then "of" r1 with
          | Some r2 => match spaces_then "10" r2 with Some _ => true | None => false end
          | None => false
          end
      | None => false
      end
  | None => false
  end.

Definition extract_patient_info (user_message : string) : ExtractedInfo :=
  let user_lower := lower user_message in
  {| ei_symptoms := filter (fun k => contains k user_lower) symptom_keywords;
     ei_duration := found duration_pat1 user_lower || found duration_pat2 user_lower
                    || found duration_pat3 user_lower;
     ei_severity := found severity_pat1 user_lower || found severity_pat2 user_lower
                    || any_in ["severe"; "mild"; "moderate"; "extreme"; "unbearable"] user_lower;
     ei_medical_history := [] |}.

Definition detect_emergency_keywords (response : string) : bool :=
  any_in ["emergency room"; "call 911"; "immediate medical attention"; "urgent care";
          "seek immediate help"] (lower response).

Definition determine_action (info : ExtractedInfo) (llm_response : string) : string :=
  if detect_emergency_keywords llm_response then "escalate_to_emergency"
  else match ei_symptoms info with
       | _ :: _ => "forward_to_triage"
       | [] => if contains "appointment" (lower llm_response) then "initiate_booking"
               else "continue_conversation"
       end.

Definition get_conversation_stage (info : ExtractedInfo) : string :=
  match ei_symptoms info with
  | [] => "initial_contact"
  | _ => if (negb (ei_duration info) && negb (ei_severity info))%bool
         then "gathering_details" else "information_complete"
  end.

Definition urgent_keywords : list string := [
  "emergency"; "urgent"; "severe"; "can't breathe"; "chest pain";
  "unconscious"; "bleeding heavily"; "suicide"; "overdose";
  "heart attack"; "stroke"; "allergic reaction"].

Definition detect_urgency_indicators (message : string) : list string :=
  filter (fun k => contains k (lower message)) urgent_keywords.

(** The three payloads of [process_response]. *)
Inductive AssistData :=
  | NonMedical (request_type : string)
  | CrisisData (crisis_type : list string)
  | MedicalData (info : ExtractedInfo) (stage : string) (urgency : list string).

Definition process_response (llm_response user_message : string)
  : string * option string * AssistData :=
  if negb (is_medical_request user_message) then
    let rt := classify_non_medical_request user_message in
    (generate_polite_redirect rt, Some "non_medical_redirect", NonMedical rt)
  else
    let ci := detect_crisis_indicators user_message in
    match ci with
    | _ :: _ => (generate_crisis_response ci, Some "crisis_intervention", CrisisData ci)
    | [] =>
        let info := extract_patient_info user_message in
        (llm_response, Some (determine_action info llm_response),
         MedicalData info (get_conversation_stage info) (detect_urgency_indicators user_message))
    end.

Definition name : string := "Assisting Agent".

End Assisting.

(** [list(set(xs))]: duplicates removed (first occurrence kept). *)
Fixpoint dedup (xs : list string) : list string :=
  match xs with
  | [] => []
  | x :: xs' => x :: filter (fun y => negb (String.eqb x y)) (dedup xs')
  end.

(** ** Triage classifier: [triage_agent.py] *)
Module Triage.
Import Str Models.

Definition emergency_symptoms : list string := [
  "chest pain"; "difficulty breathing"; "can't breathe"; "heart attack";
  "stroke"; "unconscious"; "severe bleeding"; "allergic reaction";
  "suicide"; "overdose"; "severe head injury"].

Definition high_priority_symptoms : list string := [
  "severe pain"; "high fever"; "persistent vomiting"; "severe headache";
  "vision loss"; "difficulty swallowing"; "severe dizziness"].

Definition medium_priority_symptoms : list string := [
  "moderate pain"; "fever"; "headache"; "nausea"; "diarrhea";
  "rash"; "joint pain"; "muscle ache"].

Definition specialty_mapping : list (string * string) := [
  ("heart", "cardiology"); ("chest", "cardiology"); ("breathing", "pulmonology");
  ("lung", "pulmonology"); ("skin", "dermatology"); ("rash", "dermatology");
  ("bone", "orthopedics"); ("joint", "orthopedics"); ("headache", "neurology");
  ("vision", "ophthalmology"); ("eye", "ophthalmology"); ("ear", "otolaryngology");
  ("throat", "otolaryngology")].

Definition symptom_keywords : list string := [
  "pain"; "ache"; "fever"; "headache"; "nausea"; "vomiting"; "diarrhea";
  "constipation"; "cough"; "shortness of breath"; "chest pain"; "dizziness";
  "fatigue"; "weakness"; "rash"; "swelling"; "bleeding"; "infection";
  "sore throat"; "runny nose"; "congestion"; "chills"; "sweating"].

(** [_extract_symptoms]: keywords of the message, then the symptoms of the
    context's [extracted_info]. *)
Definition extract_symptoms (message : string) (context : Ctx) : list string :=
  let message_lower := lower message in
  let from_message := filter (fun k => contains k message_lower) symptom_keywords in
  let from_context :=
    match extracted_info context with
    | Some ei => ei_symptoms ei
    | None => []
    end in
  dedup (from_message ++ from_context).

Definition assess_priority (message : string) : Priority.t :=
  let message_lower := lower message in
  if any_in emergency_symptoms message_lower then Priority.EMERGENCY
  else if any_in high_priority_symptoms message_lower then Priority.HIGH
  else if any_in ["severe"; "extreme"; "unbearable"; "worst"; "excruciating";
                  "can't"; "unable"; "impossible"] message_lower then Priority.HIGH
  else if any_in medium_priority_symptoms message_lower then Priority.MEDIUM
  else Priority.LOW.

Definition determine_specialty (symptoms : list string) (message : string) : string :=
  let message_lower := lower message in
  match find (fun kv => contains (fst kv) message_lower) specialty_mapping with
  | Some (_, sp) => sp
  | None =>
      let has ws := existsb (fun s => existsb (String.eqb s) ws) symptoms in
      if has ["chest pain"; "heart"; "cardiac"] then "cardiology"
      else if has ["breathing"; "lung"; "respiratory"] then "pulmonology"
      else if has ["headache"; "neurological"; "seizure"] then "neurology"
      else "general_practice"
  end.

Definition emergency_keywords : list string := [
  "emergency"; "911"; "ambulance"; "life threatening";
  "can't breathe"; "heart attack"; "stroke"; "unconscious";
  "severe bleeding"; "overdose"; "poisoning"].

Definition check_emergency_indicators (message : string) : bool :=
  let message_lower := lower message in
  any_in emergency_keywords message_lower
  || (contains "chest pain" message_lower
      && any_in ["breathing"; "shortness"; "dizzy"] message_lower).

Definition determine_triage_action (priority : Priority.t) (emergency : bool) : string :=
  if (Priority.eqb priority Priority.EMERGENCY || emergency)%bool then "escalate_to_emergency"
  else match priority with
       | Priority.HIGH => "schedule_urgent_appointment"
       | Priority.MEDIUM => "schedule_routine_appointment"
       | _ => "provide_self_care_guidance"
       end.

Definition priority_text (p : Priority.t) : string :=
  match p with
  | Priority.EMERGENCY => "🚨 EMERGENCY PRIORITY"
  | Priority.HIGH => "⚠️ HIGH PRIORITY"
  | Priority.MEDIUM => "📋 MEDIUM PRIORITY"
  | Priority.LOW => "📝 LOW PRIORITY"
  end.

Fixpoint join (sep : string) (xs : list string) : string :=
  match xs with
  | [] => ""
  | [x] => x
  | x :: xs' => x ++ sep ++ join sep xs'
  end.

Definition generate_triage_message (sa : SymptomAnalysis) (llm_response : string) : string :=
  priority_text (severity sa) ++ nl ++ nl
  ++ "Triage Assessment: " ++ llm_response ++ nl ++ nl
  ++ match symptoms sa with
     | [] => ""
     | ss => "Identified Symptoms: " ++ join ", " ss ++ nl
     end
  ++ match specialty_required sa with
     | Some sp => if String.eqb sp "" then ""
                  else "Recommended Specialty: " ++ title sp ++ nl
     | None => ""
     end
  ++ (if urgency sa then nl ++ "⚠️ This appears to require urgent medical attention." else "").

(** [process_response]; the payload is the symptom analysis and the
    [emergency_indicators] flag. *)
Definition process_response (llm_response user_message : string) (context : Ctx)
  : string * option string * (SymptomAnalysis * bool) :=
  let syms := extract_symptoms user_message context in
  let pr := assess_priority user_message in
  let sp := determine_specialty syms user_message in
  let em := check_emergency_indicators user_message in
  let sa := {| symptoms := syms; severity := pr; urgency := em;
               specialty_required := Some sp |} in
  (generate_triage_message sa llm_response, Some (determine_triage_action pr em), (sa, em)).

Definition name : string := "Triage Agent".

End Triage.

(** ** Comorbidity analyzer: [comorbidity_agent.py]

    The payload fields [interaction_risks], [monitoring_requirements] and
    [specialist_referrals] are not read by the orchestrator: [process_response]
    leaves them out, and their helpers are modelled on their own at the end
    of the module. *)
Module Comorbidity.
Import Str Models.

Definition high_risk_conditions : list string := [
  "diabetes"; "heart disease"; "hypertension"; "cancer"; "kidney disease";
  "liver disease"; "lung disease"; "copd"; "asthma"; "stroke history"].

Definition immunocompromising_conditions : list string := [
  "hiv"; "aids"; "chemotherapy"; "immunosuppressant"; "organ transplant";
  "autoimmune"; "lupus"; "rheumatoid arthritis"; "crohns"; "ulcerative colitis"].

Definition cardiovascular_risks : list string := [
  "high blood pressure"; "hypertension"; "heart attack"; "cardiac";
  "coronary artery disease"; "atrial fibrillation"; "heart failure"].

Definition respiratory_risks : list string := [
  "asthma"; "copd"; "emphysema"; "lung disease"; "pulmonary";
  "breathing problems"; "oxygen"; "inhaler"].

(** The age patterns, tried in order; the first that matches decides. *)
Definition find_age (message_lower : string) : option Z :=
  match Re.search_at Re.age_pat1 message_lower with
  | Some d => Some (int_of_digits d)
  | None =>
      match Re.search_at Re.age_pat2 message_lower with
      | Some d => Some (int_of_digits d)
      | None =>
          match Re.search_at Re.age_pat3 message_lower with
          | Some d => Some (int_of_digits d)
          | None => None
          end
      end
  end.

(** [f"{n}"] for an integer. *)
Definition show_Z (z : Z) : string := show_nat (Z.to_nat z).

(** [_extract_risk_factors]; [medical_history] is the list carried by the
    context's [extracted_info]. *)
Definition extract_risk_factors (message : string) (medical_history : list string)
  : list string :=
  let message_lower := lower message in
  let hits (l : list string) (f : string -> string) :=
    map f (filter (fun c => contains c message_lower) l) in
  dedup
    ((match find_age message_lower with
      | Some age => if 65 <=? age then ["elderly (age " ++ show_Z age ++ ")"] else []
      | None => []
      end)
     ++ hits high_risk_conditions (fun c => c)
     ++ hits immunocompromising_conditions (fun c => "immunocompromised (" ++ c ++ ")")
     ++ hits cardiovascular_risks (fun c => "cardiovascular (" ++ c ++ ")")
     ++ hits respiratory_risks (fun c => "respiratory (" ++ c ++ ")")
     ++ (if any_in ["pregnant"; "pregnancy"; "expecting"] message_lower then ["pregnancy"] else [])
     ++ (if any_in ["obese"; "obesity"; "overweight"; "bmi"] message_lower then ["obesity"] else [])
     ++ medical_history).

(** The points one factor adds in [_assess_risk_level]. *)
Definition factor_points (factor : string) : Z :=
  if contains "elderly" factor then 2
  else if contains "immunocompromised" factor then 3
  else if contains "cardiovascular" factor then 2
  else if contains "respiratory" factor then 2
  else if existsb (String.eqb factor) ["diabetes"; "cancer"; "kidney disease"] then 2
  else if String.eqb factor "pregnancy" then 1
  else 1.

Definition risk_score (risk_factors : list string) : Z :=
  fold_left (fun acc f => acc + factor_points f) risk_factors 0
  + (if (3 <=? Z.of_nat (length risk_factors)) then 2 else 0).

Definition assess_risk_level (risk_factors : list string) : Priority.t :=
  let s := risk_score risk_factors in
  if 6 <=? s then Priority.HIGH
  else if 3 <=? s then Priority.MEDIUM
  else if 1 <=? s then Priority.LOW
  else Priority.LOW.

Definition generate_recommendations (risk_factors : list string) (risk_level : Priority.t)
  : list string :=
  let any_has w := existsb (contains w) risk_factors in
  (match risk_level with
   | Priority.HIGH | Priority.EMERGENCY =>
       ["Close monitoring by healthcare provider recommended";
        "Consider expedited appointment scheduling";
        "Monitor for symptom progression closely"]
   | _ => []
   end)
  ++ (if any_has "cardiovascular" then
        ["Monitor blood pressure and heart rate"; "Consider cardiology consultation"] else [])
  ++ (if any_has "respiratory" then
        ["Monitor oxygen saturation if available"; "Have rescue medications readily available"] else [])
  ++ (if any_has "immunocompromised" then
        ["Take extra precautions to prevent infections";
         "Consider infectious disease consultation if fever present"] else [])
  ++ (if any_has "diabetes" then
        ["Monitor blood glucose levels closely"; "Adjust medications as directed by physician"] else [])
  ++ (if existsb (String.eqb "pregnancy") risk_factors then
        ["Consult with obstetrician regarding symptoms";
         "Avoid medications not approved for pregnancy"] else [])
  ++ (if Nat.leb 2 (length risk_factors) then
        ["Review all current medications with pharmacist"; "Coordinate care between specialists"]
      else []).

Definition determine_comorbidity_action (risk_level : Priority.t) (risk_factors : list string)
  : string :=
  match risk_level with
  | Priority.HIGH => "escalate_to_specialist"
  | _ =>
      if Nat.leb 3 (length risk_factors) then "coordinate_multidisciplinary_care"
      else match risk_level with
           | Priority.MEDIUM => "enhanced_monitoring"
           | _ => "standard_care_protocol"
           end
  end.

Definition risk_text (p : Priority.t) : string :=
  match p with
  | Priority.HIGH => "ðŸ”´ HIGH RISK"
  | Priority.MEDIUM => "ðŸŸ¡ MODERATE RISK"
  | Priority.LOW => "ðŸŸ¢ LOW RISK"
  | Priority.EMERGENCY => "ðŸŸ¢ ASSESSED"
  end.

Definition generate_comorbidity_message (cr : ComorbidityRisk) (llm_response : string) : string :=
  risk_text (risk_level cr) ++ nl ++ nl
  ++ "Comorbidity Analysis: " ++ llm_response ++ nl ++ nl
  ++ match risk_factors cr with
     | [] => ""
     | fs => "Identified Risk Factors:" ++ nl
             ++ fold_left (fun acc f => acc ++ "â€¢ " ++ title f ++ nl) fs "" ++ nl
     end
  ++ match recommendations cr with
     | [] => ""
     | rs => "Recommendations:" ++ nl
             ++ fold_left (fun acc r => acc ++ "â€¢ " ++ r ++ nl) rs ""
     end.

(** [process_response]; [medical_history] comes from the context. The
    payload is the comorbidity risk. *)
Definition process_response (llm_response user_message : string) (medical_history : list string)
  : string * option string * ComorbidityRisk :=
  let rf := extract_risk_factors user_message medical_history in
  let lvl := assess_risk_level rf in
  let cr := {| risk_factors := rf; risk_level := lvl;
               recommendations := generate_recommendations rf lvl |} in
  (generate_comorbidity_message cr llm_response,
   Some (determine_comorbidity_action lvl rf), cr).

Definition name : string := "Comorbidity Agent".

Definition high_interaction_drugs : list string := [
  "warfarin"; "blood thinner"; "insulin"; "metformin"; "lithium";
  "digoxin"; "phenytoin"; "theophylline"].

(** One warning of [_check_drug_interactions]: drug, risk, recommendation. *)
Record Interaction := { ia_drug : string; ia_risk : string; ia_recommendation : string }.

Definition any_factor_has (w : string) (risk_factors : list string) : bool :=
  existsb (fun factor => contains w factor) risk_factors.

(** [_check_drug_interactions] *)
Definition check_drug_interactions (message : string) (risk_factors : list string)
  : list Interaction :=
  let message_lower := lower message in
  let mentioned_drugs := filter (fun drug => contains drug message_lower) high_interaction_drugs in
  flat_map (fun drug =>
      app (if contains "warfarin" drug && any_factor_has "diabetes" risk_factors then
         [{| ia_drug := drug; ia_risk := "Blood sugar medications may affect warfarin effectiveness";
             ia_recommendation := "Monitor INR levels closely" |}]
       else [])
          (if contains "insulin" drug && any_factor_has "kidney" risk_factors then
            [{| ia_drug := drug; ia_risk := "Kidney disease may affect insulin clearance";
                ia_recommendation := "Adjust insulin dosing with physician guidance" |}]
          else []))
    mentioned_drugs.

(** [_get_monitoring_requirements]; ["diabetes" in risk_factors] is list membership. *)
Definition get_monitoring_requirements (risk_factors : list string) : list string :=
  ((if any_factor_has "cardiovascular" risk_factors
    then ["Blood pressure"; "Heart rate"; "ECG if indicated"] else [])
   ++ (if any_factor_has "respiratory" risk_factors
       then ["Oxygen saturation"; "Respiratory rate"; "Peak flow if available"] else [])
   ++ (if existsb (String.eqb "diabetes") risk_factors then ["Blood glucose levels"] else [])
   ++ (if any_factor_has "kidney" risk_factors
       then ["Fluid balance"; "Electrolytes"; "Creatinine levels"] else []))%list.

(** [_get_specialist_referrals] *)
Definition get_specialist_referrals (risk_factors : list string) : list string :=
  ((if any_factor_has "cardiovascular" risk_factors then ["Cardiology"] else [])
   ++ (if any_factor_has "respiratory" risk_factors then ["Pulmonology"] else [])
   ++ (if existsb (String.eqb "diabetes") risk_factors then ["Endocrinology"] else [])
   ++ (if any_factor_has "kidney" risk_factors then ["Nephrology"] else [])
   ++ (if any_factor_has "immunocompromised" risk_factors then ["Infectious Disease"] else [])
   ++ (if existsb (String.eqb "pregnancy") risk_factors then ["Obstetrics"] else []))%list.

End Comorbidity.

(** ** Calendar arithmetic of [datetime]

    A date is a day number counted from 1970-01-01 (a Thursday). *)
Module Cal.
Import Str.

(** [date.weekday()]: Monday is 0. *)
Definition weekday (d : Z) : Z := (d + 3) mod 7.

(** Year, month and day of a day number (proleptic Gregorian calendar). *)
Definition civil_from_days (d : Z) : Z * Z * Z :=
  let z := d + 719468 in
  let era := z / 146097 in
  let doe := z - era * 146097 in
  let yoe := (doe - doe / 1460 + doe / 36524 - doe / 146096) / 365 in
  let y := yoe + era * 400 in
  let doy := doe - (365 * yoe + yoe / 4 - yoe / 100) in
  let mp := (5 * doy + 2) / 153 in
  let dd := doy - (153 * mp + 2) / 5 + 1 in
  let m := if mp <? 10 then mp + 3 else mp - 9 in
  (if m <=? 2 then y + 1 else y, m, dd).

(** [date.strftime("%Y-%m-%d")] *)
Definition strftime_ymd (d : Z) : string :=
  let '(y, m, dd) := civil_from_days d in
  show_Z_padded 4 y ++ "-" ++ show_Z_padded 2 m ++ "-" ++ show_Z_padded 2 dd.

End Cal.

(** ** Slot engine: [appointment_booker.py] *)
Module Booker.
Import Str Models.

(** [self.available_doctors]: the doctor names per specialty. *)
Definition available_doctors : list (string * list string) := [
  ("general_practice", ["Dr. Sarah Johnson"; "Dr. Michael Chen"; "Dr. Emily Rodriguez"]);
  ("cardiology", ["Dr. Robert Heart"; "Dr. Lisa Cardiac"]);
  ("pulmonology", ["Dr. David Lung"]);
  ("neurology", ["Dr. Amanda Brain"]);
  ("emergency", ["Dr. Emergency Smith"; "Dr. Urgent Care"])].

(** The [availability] text of a doctor: only whether it holds ["24/7"] is read. *)
Definition available_24_7 (name : string) : bool :=
  String.eqb name "Dr. Emergency Smith" || String.eqb name "Dr. Urgent Care".

Definition roster (specialty : string) : list string :=
  match find (fun kv => String.eqb (fst kv) specialty) available_doctors with
  | Some (_, ds) => ds
  | None => ["Dr. Sarah Johnson"; "Dr. Michael Chen"; "Dr. Emily Rodriguez"]
  end.

Definition has_roster (specialty : string) : bool :=
  existsb (fun kv => String.eqb (fst kv) specialty) available_doctors.

Record Requirements := {
  rq_specialty : string;
  rq_priority : Priority.t;
  rq_preferred_date : option string;
  rq_preferred_time : option string;
  rq_appointment_type : AppointmentType.t;
  rq_patient_id : string }.

(** What the booker reads from its context: [is_medical], the state's
    symptom analysis, and the symptoms of [extracted_info]. *)
Definition is_valid_medical_request (message : string) (is_med : option bool)
    (sa : option SymptomAnalysis) (ei_syms : list string) : bool :=
  match is_med with
  | Some false => false
  | _ =>
      match sa, ei_syms with
      | Some _, _ | _, _ :: _ => true
      | None, [] =>
          match is_med with
          | Some true => true
          | _ =>
              let message_lower := lower message in
              let has_medical_keyword := any_in [
                "doctor"; "physician"; "medical"; "health"; "appointment"; "consultation";
                "checkup"; "specialist"; "clinic"; "hospital"; "nurse"; "therapist";
                "pain"; "ache"; "hurt"; "sick"; "ill"; "broken"; "broke"; "injured"; "injury";
                "symptom"; "fever"; "headache"; "nausea"; "dizzy"; "tired"; "fatigue";
                "cough"; "cold"; "flu"; "infection"; "bleeding"; "swelling"; "rash";
                "leg"; "arm"; "back"; "neck"; "head"; "chest"; "stomach"; "knee"; "ankle";
                "shoulder"; "wrist"; "finger"; "toe"; "eye"; "ear"; "throat";
                "treatment"; "medicine"; "prescription"; "therapy"; "surgery"; "procedure";
                "diagnosis"; "emergency"; "urgent"; "chronic"; "acute"] message_lower in
              let has_injury_pattern := Re.search_alts [
                ["my "; " hurts"]; ["my "; " is broken"]; ["my "; " is injured"]; ["broke my"];
                ["hurt my"]; ["pain in"]; ["injured my"]; ["twisted my"]; ["sprained my"]]
                message_lower in
              let has_non_medical_keyword := any_in [
                "movie"; "ticket"; "cinema"; "theater"; "film"; "restaurant"; "food"; "dinner";
                "travel"; "flight"; "hotel"; "shopping"; "weather"; "entertainment"; "concert";
                "show"; "game"; "sports"; "vacation"] message_lower in
              ((has_medical_keyword || has_injury_pattern) && negb has_non_medical_keyword)%bool
          end
      end
  end.

Definition first_hit (ks : list string) (s : string) : option string :=
  find (fun k => contains k s) ks.

Definition extract_booking_requirements (message : string) (sa : option SymptomAnalysis)
    (uuid_hex : string) : Requirements :=
  let message_lower := lower message in
  let '(sp, pr, ty) :=
    match sa with
    | None => ("general_practice", Priority.LOW, AppointmentType.GENERAL)
    | Some a =>
        let sp := match specialty_required a with
                  | Some s => if String.eqb s "" then "general_practice" else s
                  | None => "general_practice"
                  end in
        if urgency a then (sp, Priority.EMERGENCY, AppointmentType.EMERGENCY)
        else (sp, severity a, AppointmentType.GENERAL)
    end in
  let '(pr, ty) :=
    if any_in ["emergency"; "urgent"; "asap"] message_lower
    then (Priority.EMERGENCY, AppointmentType.EMERGENCY)
    else if any_in ["followup"; "follow up"; "check up"] message_lower
    then (pr, AppointmentType.FOLLOWUP)
    else if any_in ["specialist"; "referral"] message_lower
    then (pr, AppointmentType.SPECIALIST)
    else (pr, ty) in
  {| rq_specialty := sp; rq_priority := pr;
     rq_preferred_date := first_hit ["today"; "tomorrow"; "this week"; "next week";
                            "monday"; "tuesday"; "wednesday"; "thursday"; "friday"] message_lower;
     rq_preferred_time := first_hit ["morning"; "afternoon"; "evening"; "9am"; "10am"; "11am";
                            "1pm"; "2pm"; "3pm"; "4pm"; "5pm"] message_lower;
     rq_appointment_type := ty;
     rq_patient_id := substring 0 8 uuid_hex |}.

Definition emergency_times : list string := [
  "8:00 AM"; "8:30 AM"; "9:00 AM"; "9:30 AM"; "10:00 AM";
  "10:30 AM"; "11:00 AM"; "11:30 AM"; "2:00 PM"; "2:30 PM"].
Definition regular_times : list string := [
  "9:00 AM"; "10:00 AM"; "11:00 AM"; "1:00 PM"; "2:00 PM"; "3:00 PM"; "4:00 PM"].

Definition generate_slots_for_day (day : Z) (doctor_name specialty : string) (emergency : bool)
  : list AppointmentSlot :=
  map (fun t => {| date := Cal.strftime_ymd day; time := t; doctor := doctor_name;
                   specialty := title (replace "_" " " specialty); available := true |})
      (if emergency then emergency_times else regular_times).

(** [for i in range(n): date = base + i; for doctor in doctors: ...] *)
Definition slots_over_days (base : Z) (n : nat) (doctors : list string)
    (keep : nat -> string -> bool) (gen : Z -> string -> list AppointmentSlot)
  : list AppointmentSlot :=
  flat_map (fun i => flat_map (fun d => if keep i d then gen (base + Z.of_nat i) d else [])
                              doctors)
           (seq 0 n).

Definition generated_slots (base : Z) (specialty : string) (priority : Priority.t)
  : list AppointmentSlot :=
  let doctors := roster specialty in
  match priority with
  | Priority.EMERGENCY =>
      slots_over_days base 2 doctors
        (fun i d => available_24_7 d || Nat.eqb i 0)
        (fun day d => generate_slots_for_day day d specialty true)
  | Priority.HIGH =>
      slots_over_days base 3 doctors (fun _ _ => true)
        (fun day d => generate_slots_for_day day d specialty false)
  | Priority.MEDIUM =>
      slots_over_days base 7 doctors (fun i _ => Cal.weekday (base + Z.of_nat i) <? 5)
        (fun day d => generate_slots_for_day day d specialty false)
  | Priority.LOW =>
      slots_over_days base 14 doctors (fun i _ => Cal.weekday (base + Z.of_nat i) <? 5)
        (fun day d => generate_slots_for_day day d specialty false)
  end.

Definition filter_by_date_preference (today : Z) (slots : list AppointmentSlot) (pref : string)
  : list AppointmentSlot :=
  if String.eqb pref "today" then
    filter (fun s => String.eqb (date s) (Cal.strftime_ymd today)) slots
  else if String.eqb pref "tomorrow" then
    filter (fun s => String.eqb (date s) (Cal.strftime_ymd (today + 1))) slots
  else if String.eqb pref "this week" then
    filter (fun s => leb (date s) (Cal.strftime_ymd (today + 7))) slots
  else slots.

(** [int(slot.time.split(":")[0])] *)
Definition hour_of (t : string) : Z :=
  match split_on ":"%char t with
  | h :: _ => int_of_digits h
  | [] => 0
  end.

Definition filter_by_time_preference (slots : list AppointmentSlot) (pref : string)
  : list AppointmentSlot :=
  if String.eqb pref "morning" then filter (fun s => contains "AM" (time s)) slots
  else if String.eqb pref "afternoon" then
    filter (fun s => (contains "PM" (time s) && (hour_of (time s) <? 5))%bool) slots
  else if String.eqb pref "evening" then
    filter (fun s => (contains "PM" (time s) && (5 <=? hour_of (time s)))%bool) slots
  else slots.

(** The sort key [(x.date, x.time)], compared as a tuple of strings. *)
Definition key_lt (a b : AppointmentSlot) : bool :=
  ltb (date a) (date b) || (String.eqb (date a) (date b) && ltb (time a) (time b)).

(** [list.sort] is stable: an element goes after every element whose key
    is not greater. *)
Fixpoint insert (x : AppointmentSlot) (l : list AppointmentSlot) : list AppointmentSlot :=
  match l with
  | [] => [x]
  | y :: l' => if key_lt x y then x :: l else y :: insert x l'
  end.
(** The order [sort_slots] produces: no slot's key is below its predecessor's. *)
Definition slot_le (a b : AppointmentSlot) : Prop := key_lt b a = false.

Definition sort_slots (l : list AppointmentSlot) : list AppointmentSlot :=
  fold_left (fun acc x => insert x acc) l [].

(** The generated slots after the date and time preference filters. *)
Definition candidate_slots (today : Z) (rq : Requirements) : list AppointmentSlot :=
  let slots := generated_slots today (rq_specialty rq) (rq_priority rq) in
  let slots := match rq_preferred_date rq with
               | Some p => filter_by_date_preference today slots p
               | None => slots end in
  match rq_preferred_time rq with
  | Some p => filter_by_time_preference slots p
  | None => slots
  end.

Definition find_available_slots (today : Z) (rq : Requirements) : list AppointmentSlot :=
  firstn 10 (sort_slots (candidate_slots today rq)).

Definition generate_booking_if_requested (message : string) (slots : list AppointmentSlot)
    (rq : Requirements) (uuid_hex : string) : option AppointmentBooking :=
  match slots with
  | s :: _ =>
      if any_in ["book"; "schedule"; "confirm"; "reserve"; "appointment"] (lower message) then
        Some {| appointment_id := "APT-" ++ upper (substring 0 8 uuid_hex);
                patient_id := rq_patient_id rq;
                b_date := date s; b_time := time s; b_doctor := doctor s;
                b_specialty := specialty s;
                appointment_type := rq_appointment_type rq; confirmed := true |}
      else None
  | [] => None
  end.

Definition determine_booking_action (b : option AppointmentBooking) (slots : list AppointmentSlot)
  : string :=
  match b, slots with
  | Some _, _ => "appointment_booked"
  | None, _ :: _ => "slots_provided"
  | None, [] => "no_slots_available"
  end.

(** Modelled from the spec: [AppointmentType.value] (the models file is not
    among the sources) is taken to be the lower-case member name. *)
Definition appointment_type_value (t : AppointmentType.t) : string :=
  match t with
  | AppointmentType.GENERAL => "general"
  | AppointmentType.EMERGENCY => "emergency"
  | AppointmentType.FOLLOWUP => "followup"
  | AppointmentType.SPECIALIST => "specialist"
  end.

Definition generate_booking_message (slots : list AppointmentSlot)
    (b : option AppointmentBooking) (llm_response : string) : string :=
  "üìÖ APPOINTMENT SCHEDULING" ++ nl ++ nl ++ llm_response ++ nl ++ nl
  ++ match b with
     | Some bk =>
         "‚úÖ APPOINTMENT CONFIRMED" ++ nl
         ++ "Appointment ID: " ++ appointment_id bk ++ nl
         ++ "Date: " ++ b_date bk ++ nl
         ++ "Time: " ++ b_time bk ++ nl
         ++ "Doctor: " ++ b_doctor bk ++ nl
         ++ "Specialty: " ++ b_specialty bk ++ nl
         ++ "Type: " ++ title (appointment_type_value (appointment_type bk)) ++ nl ++ nl
         ++ "Please arrive 15 minutes early for check-in." ++ nl
     | None =>
         match slots with
         | _ :: _ =>
             "üìã AVAILABLE APPOINTMENTS" ++ " (" ++ show_nat (length slots) ++ " found):" ++ nl ++ nl
             ++ fold_left (fun acc p =>
                  acc ++ show_nat (fst p) ++ ". " ++ date (snd p) ++ " at " ++ time (snd p) ++ nl
                  ++ "   Doctor: " ++ doctor (snd p) ++ nl
                  ++ "   Specialty: " ++ specialty (snd p) ++ nl ++ nl)
                  (combine (seq 1 5) (firstn 5 slots)) ""
             ++ (if Nat.ltb 5 (length slots)
                 then "...and " ++ show_nat (length slots - 5) ++ " more slots available." ++ nl
                 else "")
             ++ "Please let me know which slot you'd prefer to book." ++ nl
         | [] =>
             "‚ùå No available appointments found for your requirements." ++ nl
             ++ "Please contact our office directly at (555) 123-4567 for assistance." ++ nl
         end
     end.

(** The payload the orchestrator reads: [available_slots] and [booking]. *)
Record BookerData := { bd_available_slots : list AppointmentSlot;
                       bd_booking : option AppointmentBooking }.

Definition process_response (today : Z) (uuid_hex : string) (llm_response user_message : string)
    (is_med : option bool) (sa : option SymptomAnalysis) (ei_syms : list string)
  : string * option string * BookerData :=
  if negb (is_valid_medical_request user_message is_med sa ei_syms) then
    ("I can only help with medical appointments. Please specify your health concerns or the type of medical specialist you need to see.",
     Some "invalid_medical_request",
     {| bd_available_slots := []; bd_booking := None |})
  else
    let rq := extract_booking_requirements user_message sa uuid_hex in
    let slots := find_available_slots today rq in
    let b := generate_booking_if_requested user_message slots rq uuid_hex in
    (generate_booking_message slots b llm_response, Some (determine_booking_action b slots),
     {| bd_available_slots := slots; bd_booking := b |}).

Definition name : string := "Appointment Booker".

End Booker.

(** ** Orchestrator: [agent_graph_simple.py] *)
Module Graph.
Import Str Models Env Base.

(** The exceptions that reach the turn boundary: a missing key of a stored
    slot dict ([KeyError]) and the unbound local name of
    [_handle_slot_booking]'s clarification branch ([UnboundLocalError]). *)
Inductive Exc := KeyError (key : string) | UnboundLocalError (var : string).

(** [str(e)]. The [UnboundLocalError] text is the one of Python 3.11 and
    later (earlier versions say "local variable ... referenced before
    assignment"). *)
Definition exc_str (e : Exc) : string :=
  match e with
  | KeyError k => "'" ++ k ++ "'"
  | UnboundLocalError v =>
      "cannot access local variable '" ++ v ++ "' where it is not associated with a value"
  end.

Inductive Result (A : Type) := Ok (a : A) | Raise (e : Exc).
Arguments Ok {A} a.
Arguments Raise {A} e.

Definition rbind {A B} (r : Result A) (f : A -> Result B) : Result B :=
  match r with Ok a => f a | Raise e => Raise e end.
Notation "x <- r ;; k" := (rbind r (fun x => k)) (at level 61, r at next level, right associativity).

(** [slot[key]] *)
Definition getitem (key : string) (d : SlotDict) : Result string :=
  match lookup key d with Some v => Ok v | None => Raise (KeyError key) end.

(** The workflow state dict of [process_request]. *)
Record State := {
  conversation_context : Ctx;
  st_agent_responses : list AgentResponse;
  security_status : option Jailbreak.SafetyLevel;   (* [None] is ["unknown"] *)
  st_symptom_analysis : option SymptomAnalysis;     (* [None] is [{}] *)
  st_comorbidity_risk : option ComorbidityRisk;
  appointment_data : Booker.BookerData;            (* [{}] reads as no slots, no booking *)
  st_requires_emergency : bool;
  st_next_steps : list string;
  final_message : string }.

Definition no_appointment_data : Booker.BookerData :=
  {| Booker.bd_available_slots := []; Booker.bd_booking := None |}.

Definition set_ctx (c : Ctx) (s : State) : State :=
  {| conversation_context := c; st_agent_responses := st_agent_responses s;
     security_status := security_status s; st_symptom_analysis := st_symptom_analysis s;
     st_comorbidity_risk := st_comorbidity_risk s; appointment_data := appointment_data s;
     st_requires_emergency := st_requires_emergency s; st_next_steps := st_next_steps s;
     final_message := final_message s |}.

Definition append_response (r : AgentResponse) (s : State) : State :=
  {| conversation_context := conversation_context s;
     st_agent_responses := st_agent_responses s ++ [r];
     security_status := security_status s; st_symptom_analysis := st_symptom_analysis s;
     st_comorbidity_risk := st_comorbidity_risk s; appointment_data := appointment_data s;
     st_requires_emergency := st_requires_emergency s; st_next_steps := st_next_steps s;
     final_message := final_message s |}.

(** [session_context.get("available_slots", [])] and
    [session_context.get("symptom_analysis")]. *)
Definition sess_slots (sess : option Ctx) : list SlotDict :=
  match sess with Some c => ctx_available_slots c | None => [] end.
Definition sess_sa (sess : option Ctx) : option SymptomAnalysis :=
  match sess with Some c => ctx_symptom_analysis c | None => None end.

(** ** Slot resolution from the previously shown slots *)

Definition booking_keywords : list string :=
  ["book"; "schedule"; "confirm"; "reserve"; "choose"; "select"; "pick"].

Definition doctor_names : list string :=
  ["michael"; "chen"; "sarah"; "johnson"; "emily"; "rodriguez"].

(** Whether one stored slot is referenced by the message (doctor-name word,
    time, or date). *)
Definition slot_referenced (message_lower : string) (slot : SlotDict) : bool :=
  any_in (split_ws (lower (get "doctor" "" slot))) message_lower
  || contains (lower (get "time" "" slot)) message_lower
  || contains (get "date" "" slot) message_lower.

Definition is_booking_from_previous_slots (req : PatientRequest) (sess : option Ctx) : bool :=
  match sess with
  | None => false
  | Some c =>
      match ctx_available_slots c with
      | [] => false
      | available_slots =>
          let message_lower := lower (req_message req) in
          let has_booking_intent := any_in booking_keywords message_lower in
          let slot_references := existsb (slot_referenced message_lower) available_slots in
          let slot_numbers := Re.bare_numbers message_lower in
          (negb (Nat.eqb (length slot_numbers) 0) && has_booking_intent)
          || (has_booking_intent
              && (slot_references || any_in doctor_names message_lower
                  || contains "appointment" message_lower))%bool
      end
  end.

(** A selected slot counts only if it is a non-empty dict ([if not selected_slot]). *)
Definition truthy (o : option SlotDict) : option SlotDict :=
  match o with Some (_ :: _) => o | _ => None end.

Definition or_else (o : option SlotDict) (k : unit -> option SlotDict) : option SlotDict :=
  match truthy o with Some s => Some s | None => truthy (k tt) end.

(** (a) a doctor-name word, after dropping ["dr. "] *)
Definition select_by_doctor (message_lower : string) (slots : list SlotDict) : option SlotDict :=
  find (fun slot =>
          any_in (split_ws (replace "dr. " "" (lower (get "doctor" "" slot)))) message_lower)
       slots.

(** (b) the first bare number, as a 1-based index *)
Definition select_by_number (message_lower : string) (slots : list SlotDict) : option SlotDict :=
  match Re.bare_numbers message_lower with
  | n :: _ =>
      let slot_index := int_of_digits n - 1 in
      if ((0 <=? slot_index) && (slot_index <? Z.of_nat (length slots)))%bool
      then nth_error slots (Z.to_nat slot_index) else None
  | [] => None
  end.

(** (c) the time, spaces removed on both sides *)
Definition select_by_time (message_lower : string) (slots : list SlotDict) : option SlotDict :=
  find (fun slot => contains (replace " " "" (lower (get "time" "" slot)))
                             (replace " " "" message_lower))
       slots.

(** (d) the first slot, when the message has booking language *)
Definition select_default (message_lower : string) (slots : list SlotDict) : option SlotDict :=
  match slots with
  | s0 :: _ => if any_in ["book"; "schedule"; "confirm"; "yes"] message_lower then Some s0 else None
  | [] => None
  end.

Definition select_slot (message_lower : string) (slots : list SlotDict) : option SlotDict :=
  or_else (or_else (or_else (truthy (select_by_doctor message_lower slots))
                            (fun _ => select_by_number message_lower slots))
                   (fun _ => select_by_time message_lower slots))
          (fun _ => select_default message_lower slots).

Definition booking_message (bk : AppointmentBooking) : string :=
  "âœ… **APPOINTMENT CONFIRMED**

ðŸŽ¯ **Appointment Details:**
â€¢ **ID**: " ++ appointment_id bk ++ "
â€¢ **Date**: " ++ b_date bk ++ "
â€¢ **Time**: " ++ b_time bk ++ "
â€¢ **Doctor**: " ++ b_doctor bk ++ "
â€¢ **Specialty**: " ++ b_specialty bk ++ "

ðŸ“‹ **Next Steps:**
â€¢ You'll receive a confirmation email shortly
â€¢ Please arrive 15 minutes early for check-in
â€¢ Bring your insurance card and ID
â€¢ Prepare any questions you'd like to discuss

Thank you for choosing our medical services! If you need to reschedule, please call us at least 24 hours in advance.".

(** The clarification lines [f"{i}. {slot['date']} at {slot['time']} with {slot['doctor']}\n"]. *)
Fixpoint clarification_lines (i : nat) (slots : list SlotDict) : Result string :=
  match slots with
  | [] => Ok ""
  | slot :: rest =>
      d <- getitem "date" slot ;;
      t <- getitem "time" slot ;;
      doc <- getitem "doctor" slot ;;
      tl <- clarification_lines (S i) rest ;;
      Ok (show_nat i ++ ". " ++ d ++ " at " ++ t ++ " with " ++ doc ++ nl ++ tl)
  end.

(** [_handle_slot_booking]. The [from models.patient_models import ...,
    AgentResponse] of the booking branch makes [AgentResponse] a local name
    of the whole function, so the clarification branch, once its message is
    formatted (which reads [slot['date']], [slot['time']] and
    [slot['doctor']] of every stored slot), raises [UnboundLocalError] at
    [AgentResponse(...)] and builds no response. *)
Definition handle_slot_booking (env : Env.t) (req : PatientRequest) (available_slots : list SlotDict)
  : Result AppointmentResponse :=
  let message_lower := lower (req_message req) in
  match select_slot message_lower available_slots with
  | Some selected_slot =>
      let appointment_id := "APT-" ++ upper (substring 0 8 (uuid_hex env)) in
      let pid := match req_patient_id req with
                 | Some p => if String.eqb p "" then substring 0 8 (uuid_hex env) else p
                 | None => substring 0 8 (uuid_hex env)
                 end in
      d <- getitem "date" selected_slot ;;
      t <- getitem "time" selected_slot ;;
      doc <- getitem "doctor" selected_slot ;;
      sp <- getitem "specialty" selected_slot ;;
      let bk := {| appointment_id := appointment_id; patient_id := pid;
                   b_date := d; b_time := t; b_doctor := doc; b_specialty := sp;
                   appointment_type := AppointmentType.GENERAL; confirmed := true |} in
      Ok {| r_message := booking_message bk;
            agent_responses := [{| agent_name := "Appointment Booker";
                                   message := "Successfully booked appointment with " ++ doc;
                                   action_taken := Some "slot_booking_confirmed" |}];
            symptom_analysis := None; comorbidity_risk := None;
            available_slots := []; booking := Some bk;
            next_steps := ["Arrive 15 minutes early"; "Bring insurance card and ID";
                           "Prepare questions for your doctor"];
            requires_emergency := false; r_session_id := session_id req |}
  | None =>
      lines <- clarification_lines 1 available_slots ;;
      Raise (UnboundLocalError "AgentResponse")
  end.


(** ** The stages, as steps on the workflow state

    [M] threads the state and may raise; the conversation context lives in
    the state, so its updates survive an exception (the dict is mutated in
    place). *)
Definition M (A : Type) := State -> State * Result A.
Definition mret {A} (a : A) : M A := fun s => (s, Ok a).
Definition mbind {A B} (m : M A) (f : A -> M B) : M B :=
  fun s => let (s', r) := m s in
           match r with Ok a => f a s' | Raise e => (s', Raise e) end.
Definition modify (f : State -> State) : M unit := fun s => (f s, Ok tt).
Definition gets {A} (f : State -> A) : M A := fun s => (s, Ok (f s)).
Definition lift {A} (r : Result A) : M A := fun s => (s, r).
Notation "x <-- m ;;; k" := (mbind m (fun x => k)) (at level 61, m at next level, right associativity).
Notation "m ;;; k" := (mbind m (fun _ => k)) (at level 61, right associativity).

(** [state["conversation_context"].update(assistance_response["data"])] *)
Definition update_with_assistance (c : Ctx) (out : Outcome Assisting.AssistData) : Ctx :=
  match out with
  | Done (Assisting.NonMedical rt) =>
      {| conversation_history := conversation_history c;
         ctx_symptom_analysis := ctx_symptom_analysis c;
         ctx_comorbidity_risk := ctx_comorbidity_risk c;
         ctx_available_slots := ctx_available_slots c;
         conversation_stage := Some "redirect_to_medical";
         is_medical := Some false; request_type := Some rt;
         crisis_type := crisis_type c; extracted_info := extracted_info c;
         urgency_indicators := urgency_indicators c; ctx_error := ctx_error c;
         booking_intent := booking_intent c |}
  | Done (Assisting.CrisisData ct) =>
      {| conversation_history := conversation_history c;
         ctx_symptom_analysis := ctx_symptom_analysis c;
         ctx_comorbidity_risk := ctx_comorbidity_risk c;
         ctx_available_slots := ctx_available_slots c;
         conversation_stage := Some "crisis_support";
         is_medical := Some true; request_type := request_type c;
         crisis_type := Some ct; extracted_info := extracted_info c;
         urgency_indicators := urgency_indicators c; ctx_error := ctx_error c;
         booking_intent := booking_intent c |}
  | Done (Assisting.MedicalData info stage urg) =>
      {| conversation_history := conversation_history c;
         ctx_symptom_analysis := ctx_symptom_analysis c;
         ctx_comorbidity_risk := ctx_comorbidity_risk c;
         ctx_available_slots := ctx_available_slots c;
         conversation_stage := Some stage;
         is_medical := Some true; request_type := request_type c;
         crisis_type := crisis_type c; extracted_info := Some info;
         urgency_indicators := Some urg; ctx_error := ctx_error c;
         booking_intent := booking_intent c |}
  | Errored e =>
      {| conversation_history := conversation_history c;
         ctx_symptom_analysis := ctx_symptom_analysis c;
         ctx_comorbidity_risk := ctx_comorbidity_risk c;
         ctx_available_slots := ctx_available_slots c;
         conversation_stage := conversation_stage c;
         is_medical := is_medical c; request_type := request_type c;
         crisis_type := crisis_type c; extracted_info := extracted_info c;
         urgency_indicators := urgency_indicators c; ctx_error := Some e;
         booking_intent := booking_intent c |}
  end.

Definition ei_symptoms_of (c : Ctx) : list string :=
  match extracted_info c with Some ei => ei_symptoms ei | None => [] end.

(** The replies of the security and intake agents to a request. *)
Definition security_reply (env : Env.t) (req : PatientRequest) :=
  invoke Jailbreak.name (llm env Security)
         (fun t => Jailbreak.process_response t (req_message req)).
Definition intake_reply (env : Env.t) (req : PatientRequest) :=
  invoke Assisting.name (llm env Intake)
         (fun t => Assisting.process_response t (req_message req)).

(** The reply [invoke] gives when the completion call fails. *)
Definition failure_entry (name reason : string) : AgentResponse :=
  {| agent_name := name; message := "Error processing request: OpenAI API call failed: " ++ reason;
     action_taken := Some "error_handling" |}.

(** [_security_check]: a failed call leaves [safety_level] at its default ["SAFE"]. *)
Definition security_check (env : Env.t) (req : PatientRequest) : M unit :=
  let '(resp, out) := security_reply env req in
  modify (fun s =>
    let s := append_response resp s in
    {| conversation_context := conversation_context s;
       st_agent_responses := st_agent_responses s;
       security_status := Some (match out with Done l => l | Errored _ => Jailbreak.SAFE end);
       st_symptom_analysis := st_symptom_analysis s;
       st_comorbidity_risk := st_comorbidity_risk s; appointment_data := appointment_data s;
       st_requires_emergency := st_requires_emergency s; st_next_steps := st_next_steps s;
       final_message := final_message s |}).

(** [_initial_assistance] *)
Definition initial_assistance (env : Env.t) (req : PatientRequest) : M unit :=
  let '(resp, out) := intake_reply env req in
  modify (fun s => let s := append_response resp s in
                   set_ctx (update_with_assistance (conversation_context s) out) s).

(** [_triage_assessment] *)
Definition triage_assessment (env : Env.t) (req : PatientRequest) : M unit :=
  c <-- gets conversation_context ;;;
  let '(resp, out) := invoke Triage.name (llm env Env.Triage)
                        (fun t => Triage.process_response t (req_message req) c) in
  modify (fun s =>
    let s := append_response resp s in
    {| conversation_context := conversation_context s;
       st_agent_responses := st_agent_responses s;
       security_status := security_status s;
       st_symptom_analysis := match out with Done (sa, _) => Some sa | Errored _ => None end;
       st_comorbidity_risk := st_comorbidity_risk s; appointment_data := appointment_data s;
       st_requires_emergency := match out with Done (_, em) => em | Errored _ => false end;
       st_next_steps := st_next_steps s; final_message := final_message s |}).

(** [_comorbidity_analysis]: the context merged with the symptom analysis;
    the analyzer reads [extracted_info.medical_history] from it. *)
Definition comorbidity_analysis (env : Env.t) (req : PatientRequest) : M unit :=
  c <-- gets conversation_context ;;;
  let mh := match extracted_info c with Some ei => ei_medical_history ei | None => [] end in
  let '(resp, out) := invoke Comorbidity.name (llm env Env.Comorbidity)
                        (fun t => Comorbidity.process_response t (req_message req) mh) in
  modify (fun s =>
    let s := append_response resp s in
    {| conversation_context := conversation_context s;
       st_agent_responses := st_agent_responses s;
       security_status := security_status s; st_symptom_analysis := st_symptom_analysis s;
       st_comorbidity_risk := match out with Done cr => Some cr | Errored _ => None end;
       appointment_data := appointment_data s;
       st_requires_emergency := st_requires_emergency s;
       st_next_steps := st_next_steps s; final_message := final_message s |}).

(** [_appointment_booking]: the context with the state's symptom analysis. *)
Definition appointment_booking (env : Env.t) (req : PatientRequest) : M unit :=
  c <-- gets conversation_context ;;;
  sa <-- gets st_symptom_analysis ;;;
  let '(resp, out) := invoke Booker.name (llm env Env.Booking)
                        (fun t => Booker.process_response (now_days env) (uuid_hex env) t
                                    (req_message req) (is_medical c) sa (ei_symptoms_of c)) in
  modify (fun s =>
    let s := append_response resp s in
    {| conversation_context := conversation_context s;
       st_agent_responses := st_agent_responses s;
       security_status := security_status s; st_symptom_analysis := st_symptom_analysis s;
       st_comorbidity_risk := st_comorbidity_risk s;
       appointment_data := match out with Done d => d | Errored _ => no_appointment_data end;
       st_requires_emergency := st_requires_emergency s;
       st_next_steps := st_next_steps s; final_message := final_message s |}).

Definition emergency_message : string :=
  "ðŸš¨ EMERGENCY PROTOCOL ACTIVATED ðŸš¨

Based on your symptoms, you may require immediate medical attention.

IMMEDIATE ACTIONS:
â€¢ Call 911 if experiencing severe symptoms
â€¢ Go to the nearest Emergency Room
â€¢ Do not drive yourself - call an ambulance or have someone drive you
â€¢ Bring a list of current medications
â€¢ Have your insurance information ready

If this is not a life-threatening emergency, consider:
â€¢ Urgent Care Center for same-day treatment
â€¢ Telehealth consultation with a physician
â€¢ Contact your primary care provider's emergency line

Your safety is our top priority. When in doubt, seek immediate medical care.".

Definition emergency_next_steps : list string := [
  "Call 911 if experiencing severe symptoms";
  "Go to nearest Emergency Room";
  "Contact emergency services";
  "Do not delay seeking immediate care"].

Definition emergency_entry : AgentResponse :=
  {| agent_name := "Emergency Protocol"; message := emergency_message;
     action_taken := Some "emergency_routing" |}.

(** [_emergency_route] *)
Definition emergency_route : M unit :=
  modify (fun s =>
    let s := append_response emergency_entry s in
    {| conversation_context := conversation_context s;
       st_agent_responses := st_agent_responses s;
       security_status := security_status s; st_symptom_analysis := st_symptom_analysis s;
       st_comorbidity_risk := st_comorbidity_risk s; appointment_data := appointment_data s;
       st_requires_emergency := true;
       st_next_steps := emergency_next_steps; final_message := final_message s |}).


(** ** Routing predicates *)

Definition should_route_to_emergency (s : State) : bool :=
  let c := conversation_context s in
  negb (Nat.eqb (length (match urgency_indicators c with Some l => l | None => [] end)) 0)
  || negb (Nat.eqb (length (match crisis_type c with Some l => l | None => [] end)) 0).

Definition has_symptoms (s : State) : bool :=
  let c := conversation_context s in
  match is_medical c with
  | Some false => false
  | _ => negb (Nat.eqb (length (ei_symptoms_of c)) 0)
  end.

Definition is_booking_request_with_context (s : State) : bool :=
  let c := conversation_context s in
  let has_previous_slots := negb (Nat.eqb (length (ctx_available_slots c)) 0) in
  let booking_intent := match booking_intent c with Some b => b | None => false end in
  existsb (fun r => String.eqb (agent_name r) Assisting.name
                    && match action_taken r with
                       | Some a => String.eqb a "initiate_booking" | None => false end)
          (st_agent_responses s)
  || (has_previous_slots && booking_intent).

Definition is_non_medical_request (s : State) : bool :=
  match is_medical (conversation_context s) with Some false => true | _ => false end.

Definition needs_comorbidity_analysis (s : State) : bool :=
  match st_symptom_analysis s with
  | Some sa =>
      match severity sa with Priority.HIGH | Priority.MEDIUM => true | _ => false end
      || Nat.leb 2 (length (symptoms sa))
  | None => false
  end.

(** ** Finalisation and the responses *)

Definition generate_next_steps (s : State) : list string :=
  let sev := match st_symptom_analysis s with Some sa => severity sa | None => Priority.LOW end in
  (match sev with
   | Priority.HIGH => ["Schedule appointment within 24-48 hours"; "Monitor symptoms closely"]
   | Priority.MEDIUM => ["Schedule appointment within 1 week"; "Track symptom progression"]
   | _ => ["Schedule routine appointment"; "Continue monitoring symptoms"]
   end)
  ++ (match Booker.bd_available_slots (appointment_data s) with
      | _ :: _ => ["Choose preferred appointment slot"; "Confirm appointment booking"]
      | [] => []
      end)
  ++ (match st_comorbidity_risk s with
      | Some cr => firstn 2 (recommendations cr)
      | None => []
      end).

Definition generate_final_message (s : State) : string :=
  if st_requires_emergency s then
    "Emergency care recommended. Please seek immediate medical attention."
  else match find (fun r => String.eqb (agent_name r) Booker.name) (st_agent_responses s) with
       | Some r => message r
       | None => "Thank you for using our appointment booking system. Our agents have assessed your request and provided recommendations above."
       end.

Definition set_next_steps (l : list string) (s : State) : State :=
  {| conversation_context := conversation_context s;
     st_agent_responses := st_agent_responses s;
     security_status := security_status s; st_symptom_analysis := st_symptom_analysis s;
     st_comorbidity_risk := st_comorbidity_risk s; appointment_data := appointment_data s;
     st_requires_emergency := st_requires_emergency s; st_next_steps := l;
     final_message := final_message s |}.

Definition set_final_message (m : string) (s : State) : State :=
  {| conversation_context := conversation_context s;
     st_agent_responses := st_agent_responses s;
     security_status := security_status s; st_symptom_analysis := st_symptom_analysis s;
     st_comorbidity_risk := st_comorbidity_risk s; appointment_data := appointment_data s;
     st_requires_emergency := st_requires_emergency s; st_next_steps := st_next_steps s;
     final_message := m |}.

(** [_finalize_response] *)
Definition finalize_response : M unit :=
  modify (fun s => if st_requires_emergency s then s
                   else set_next_steps (generate_next_steps s) s) ;;;
  modify (fun s => set_final_message (generate_final_message s) s).

Definition create_response (req : PatientRequest) (s : State) : AppointmentResponse :=
  {| r_message := final_message s;
     agent_responses := st_agent_responses s;
     symptom_analysis := st_symptom_analysis s;
     comorbidity_risk := st_comorbidity_risk s;
     available_slots := Booker.bd_available_slots (appointment_data s);
     booking := Booker.bd_booking (appointment_data s);
     next_steps := st_next_steps s;
     requires_emergency := st_requires_emergency s;
     r_session_id := session_id req |}.

Definition create_blocked_response (req : PatientRequest) (s : State) : AppointmentResponse :=
  {| r_message := "Your request has been blocked for security reasons. Please contact support if you believe this is an error.";
     agent_responses := st_agent_responses s;
     symptom_analysis := None; comorbidity_risk := None;
     available_slots := []; booking := None;
     next_steps := ["Contact support for assistance"];
     requires_emergency := false; r_session_id := session_id req |}.

Definition create_error_response (error_message : string) : AppointmentResponse :=
  {| r_message := "An error occurred while processing your request: " ++ error_message;
     agent_responses := [];
     symptom_analysis := None; comorbidity_risk := None;
     available_slots := []; booking := None;
     next_steps := ["Please try again or contact support"];
     requires_emergency := false; r_session_id := None |}.

(** ** [process_request] *)

(** The initial workflow state; the working context is the session dict
    itself ([session_context or {}]). The copy of [conversation_history],
    [conversation_stage] and [available_slots] into it writes back the
    values it already holds, save a missing stage that becomes ["initial"]. *)
Definition initial_state (sess : option Ctx) : State :=
  let c := match sess with
           | Some c =>
               match conversation_history c with
               | [] => c
               | _ :: _ =>
                   {| conversation_history := conversation_history c;
                      ctx_symptom_analysis := ctx_symptom_analysis c;
                      ctx_comorbidity_risk := ctx_comorbidity_risk c;
                      ctx_available_slots := ctx_available_slots c;
                      conversation_stage :=
                        Some (match conversation_stage c with Some st => st | None => "initial" end);
                      is_medical := is_medical c; request_type := request_type c;
                      crisis_type := crisis_type c; extracted_info := extracted_info c;
                      urgency_indicators := urgency_indicators c; ctx_error := ctx_error c;
                      booking_intent := booking_intent c |}
               end
           | None => empty_ctx
           end in
  {| conversation_context := c;
     st_agent_responses := [];
     security_status := None;
     st_symptom_analysis := match sess with Some c => ctx_symptom_analysis c | None => None end;
     st_comorbidity_risk := match sess with Some c => ctx_comorbidity_risk c | None => None end;
     appointment_data := no_appointment_data;
     st_requires_emergency := false;
     st_next_steps := [];
     final_message := "" |}.

(** Steps 7 and 8: booking, finalisation, the response. *)
Definition book_and_respond (env : Env.t) (req : PatientRequest) : M AppointmentResponse :=
  appointment_booking env req ;;; finalize_response ;;; gets (create_response req).

(** Steps 4 to 8: triage, the emergency check after it, comorbidity, booking. *)
Definition triage_and_book (env : Env.t) (req : PatientRequest) : M AppointmentResponse :=
  run_triage <-- gets (fun s => has_symptoms s
                                || match st_symptom_analysis s with None => true | Some _ => false end) ;;;
  if run_triage then
    triage_assessment env req ;;;
    em <-- gets st_requires_emergency ;;;
    if em then emergency_route ;;; gets (create_response req) else
    need <-- gets needs_comorbidity_analysis ;;;
    (if need then comorbidity_analysis env req else mret tt) ;;;
    book_and_respond env req
  else book_and_respond env req.

(** Everything after step 2 (initial assistance). *)
Definition after_intake (env : Env.t) (req : PatientRequest) : M AppointmentResponse :=
  non_med <-- gets is_non_medical_request ;;;
  if non_med then finalize_response ;;; gets (create_response req) else
  direct <-- gets is_booking_request_with_context ;;;
  if direct then book_and_respond env req else
  emerg <-- gets should_route_to_emergency ;;;
  if emerg then emergency_route ;;; gets (create_response req) else
  triage_and_book env req.

(** The body of the [try] block of [process_request]. *)
Definition process_body (env : Env.t) (req : PatientRequest) (sess : option Ctx)
  : M AppointmentResponse :=
  if is_booking_from_previous_slots req sess then
    lift (handle_slot_booking env req (sess_slots sess))
  else
    security_check env req ;;;
    st <-- gets security_status ;;;
    match st with
    | Some Jailbreak.BLOCK => gets (create_blocked_response req)
    | _ => initial_assistance env req ;;; after_intake env req
    end.

(** [process_request]: the response, and the session dict as the turn
    leaves it (it is the working context, mutated in place). *)
Definition process_request (env : Env.t) (req : PatientRequest) (sess : option Ctx)
  : AppointmentResponse * Ctx :=
  let (s, r) := process_body env req sess (initial_state sess) in
  match r with
  | Ok resp => (resp, conversation_context s)
  | Raise e => (create_error_response (exc_str e), conversation_context s)
  end.

End Graph.

(** * [main_simple.py]: the session store and the chat endpoint *)

Module Session.
Import Models.

(** [session_storage], as an association list. *)
Definition Store := list (string * Ctx).

Fixpoint find_session (sid : string) (st : Store) : option Ctx :=
  match st with
  | [] => None
  | (k, c) :: rest => if String.eqb k sid then Some c else find_session sid rest
  end.

Fixpoint put_session (sid : string) (c : Ctx) (st : Store) : Store :=
  match st with
  | [] => [(sid, c)]
  | (k, c0) :: rest => if String.eqb k sid then (k, c) :: rest else (k, c0) :: put_session sid c rest
  end.

Definition initial_session : Ctx :=
  {| conversation_history := []; ctx_symptom_analysis := None; ctx_comorbidity_risk := None;
     ctx_available_slots := []; conversation_stage := Some "initial";
     is_medical := None; request_type := None; crisis_type := None; extracted_info := None;
     urgency_indicators := None; ctx_error := None; booking_intent := None |}.

(** [get_session_context]: the stored dict, created on first use. *)
Definition get_session_context (sid : string) (st : Store) : Ctx * Store :=
  match find_session sid st with
  | Some c => (c, st)
  | None => (initial_session, put_session sid initial_session st)
  end.

Definition keep_last_10 (h : list Turn) : list Turn :=
  if Nat.ltb 10 (length h) then skipn (length h - 10) h else h.

(** [update_session_context], applied to the session dict. *)
Definition update_context (c : Ctx) (response : AppointmentResponse) (request : PatientRequest) : Ctx :=
  let hist := app (conversation_history c)
              [{| t_user_message := req_message request;
                     t_assistant_response := r_message response;
                     t_agent_responses := agent_responses response |}] in
  {| conversation_history := keep_last_10 hist;
     ctx_symptom_analysis :=
       match symptom_analysis response with Some sa => Some sa | None => ctx_symptom_analysis c end;
     ctx_comorbidity_risk :=
       match comorbidity_risk response with Some cr => Some cr | None => ctx_comorbidity_risk c end;
     ctx_available_slots :=
       match available_slots response with
       | [] => ctx_available_slots c
       | l => map slot_dict l
       end;
     conversation_stage :=
       match available_slots response, booking response with
       | _ :: _, _ => Some "slots_provided"
       | [], Some _ => Some "booking_confirmed"
       | [], None => if requires_emergency response then Some "emergency" else conversation_stage c
       end;
     is_medical := is_medical c; request_type := request_type c; crisis_type := crisis_type c;
     extracted_info := extracted_info c; urgency_indicators := urgency_indicators c;
     ctx_error := ctx_error c; booking_intent := booking_intent c |}.

(** [chat_with_agents]: the response and the store after the turn. *)
(** [request.session_id or "default_session"] *)
Definition session_key (request : PatientRequest) : string :=
  match session_id request with
  | Some s => if String.eqb s "" then "default_session" else s
  | None => "default_session"
  end.

Definition chat_with_agents (env : Env.t) (st : Store) (request : PatientRequest)
  : AppointmentResponse * Store :=
  let sid := session_key request in
  let (session_context, st1) := get_session_context sid st in
  let request_with_context := {| req_message := req_message request; session_id := Some sid;
                                 req_patient_id := req_patient_id request |} in
  let (result, ctx') := Graph.process_request env request_with_context (Some session_context) in
  (result, put_session sid (update_context ctx' result request) st1).

(** [clear_session]: [del session_storage[session_id]] and the reply message. *)
Fixpoint remove_session (sid : string) (st : Store) : Store :=
  match st with
  | [] => []
  | (k, c) :: rest => if String.eqb k sid then rest else (k, c) :: remove_session sid rest
  end.

Definition clear_session (sid : string) (st : Store) : string * Store :=
  match find_session sid st with
  | Some _ => ("Session " ++ sid ++ " cleared", remove_session sid st)
  | None => ("Session not found", st)
  end.

(** [get_session_info]; [None] is the ["Session not found"] error. *)
Record SessionInfo := {
  si_session_id : string;
  si_conversation_stage : option string;
  si_has_symptoms : bool;
  si_has_available_slots : bool;
  si_conversation_length : nat }.

Definition get_session_info (sid : string) (st : Store) : option SessionInfo :=
  match find_session sid st with
  | Some c =>
      Some {| si_session_id := sid;
              si_conversation_stage := conversation_stage c;
              si_has_symptoms := match ctx_symptom_analysis c with Some _ => true | None => false end;
              si_has_available_slots := match ctx_available_slots c with [] => false | _ => true end;
              si_conversation_length := length (conversation_history c) |}
  | None => None
  end.

End Session.

(** * Stage bookkeeping used by the proofs *)
Module Steps.
Import Models Graph.

(** A step that succeeds and only appends to the agent responses. *)
Definition grows (m : M unit) : Prop :=
  forall s, exists s' tl, m s = (s', Ok tt)
                          /\ st_agent_responses s' = app (st_agent_responses s) tl.

(** A computation that returns a response whose agent responses extend the
    ones in the state it starts from. *)
Definition yields (m : M AppointmentResponse) : Prop :=
  forall s, exists s' resp tl, m s = (s', Ok resp)
                               /\ agent_responses resp = app (st_agent_responses s) tl.

End Steps.

(** * Concrete turns *)
Module Scenarios.
Import Models Env.

(** Every completion call answers with a neutral text. *)
Definition env_ok : Env.t :=
  {| llm := fun _ => LlmOk "I understand. Let me look into this for you.";
     now_days := 20000; uuid_hex := "3f2a9c1b7d4e4f0a9b8c7d6e5f4a3b2c" |}.

(** Every completion call fails. *)
Definition env_fail : Env.t :=
  {| llm := fun _ => LlmFail "timeout";
     now_days := 20000; uuid_hex := "3f2a9c1b7d4e4f0a9b8c7d6e5f4a3b2c" |}.

Definition request (m : string) : PatientRequest :=
  {| req_message := m; session_id := None; req_patient_id := None |}.

Definition request_in (sid m : string) : PatientRequest :=
  {| req_message := m; session_id := Some sid; req_patient_id := None |}.

Definition chen_slot : SlotDict :=
  [("doctor", "Dr. Michael Chen"); ("date", "2025-08-01"); ("time", "9:00 AM");
   ("specialty", "General Practice")].

Definition johnson_slot : SlotDict :=
  [("doctor", "Dr. Sarah Johnson"); ("date", "2025-08-01"); ("time", "10:00 AM");
   ("specialty", "General Practice")].

(** A stored slot without its [date]. *)
Definition dateless_slot : SlotDict :=
  [("doctor", "Dr. Michael Chen"); ("time", "9:00 AM"); ("specialty", "General Practice")].

(** A session dict that has shown [slots]. *)
Definition session_with (slots : list SlotDict) : Ctx :=
  {| conversation_history := []; ctx_symptom_analysis := None; ctx_comorbidity_risk := None;
     ctx_available_slots := slots; conversation_stage := Some "slots_provided";
     is_medical := None; request_type := None; crisis_type := None; extracted_info := None;
     urgency_indicators := None; ctx_error := None; booking_intent := None |}.

Definition earlier_analysis : SymptomAnalysis :=
  {| symptoms := ["headache"]; severity := Priority.MEDIUM; urgency := false;
     specialty_required := Some "neurology" |}.

(** A session dict that holds the symptom analysis of an earlier turn. *)
Definition session_after_triage : Ctx :=
  {| conversation_history := []; ctx_symptom_analysis := Some earlier_analysis;
     ctx_comorbidity_risk := None; ctx_available_slots := [];
     conversation_stage := Some "initial"; is_medical := Some true; request_type := None;
     crisis_type := None; extracted_info := None; urgency_indicators := None;
     ctx_error := None; booking_intent := None |}.

Definition low_gp_requirements : Booker.Requirements :=
  {| Booker.rq_specialty := "general_practice"; Booker.rq_priority := Priority.LOW;
     Booker.rq_preferred_date := None; Booker.rq_preferred_time := None;
     Booker.rq_appointment_type := AppointmentType.GENERAL;
     Booker.rq_patient_id := "3f2a9c1b" |}.

Definition store_with_chen : Session.Store := [("s1", session_with [chen_slot])].

End Scenarios.

(** * Proofs *)

Import Models Env Base Graph Steps Scenarios.

(** ** The monad *)

Lemma bind_ok {A B} (m : M A) (f : A -> M B) s s' a :
  m s = (s', Ok a) -> mbind m f s = f a s'.
Proof. intros E. unfold mbind. rewrite E. reflexivity. Qed.

Lemma gets_bind {A B} (g : State -> A) (f : A -> M B) s : mbind (gets g) f s = f (g s) s.
Proof. reflexivity. Qed.

(** ** Every stage after intake succeeds and only appends agent responses *)

Lemma finalize_fields s : exists s', finalize_response s = (s', Ok tt) /\
  st_agent_responses s' = st_agent_responses s /\ appointment_data s' = appointment_data s /\
  st_symptom_analysis s' = st_symptom_analysis s /\ st_comorbidity_risk s' = st_comorbidity_risk s /\
  st_requires_emergency s' = st_requires_emergency s /\ conversation_context s' = conversation_context s.
Proof.
  unfold finalize_response, mbind, modify. eexists; split; [reflexivity|].
  destruct (st_requires_emergency s) eqn:E; cbn; rewrite ?E; repeat split.
Qed.

Lemma yields_seq (m : M unit) (k : M AppointmentResponse) : grows m -> yields k -> yields (m ;;; k).
Proof.
  intros Hm Hk s. destruct (Hm s) as [s1 [tl1 [E1 R1]]].
  destruct (Hk s1) as [s2 [resp [tl2 [E2 R2]]]].
  exists s2, resp, (app tl1 tl2). rewrite (bind_ok _ _ _ _ _ E1). split; [exact E2|].
  rewrite R2, R1. rewrite <- app_assoc. reflexivity.
Qed.

Lemma yields_gets {A} (g : State -> A) (k : A -> M AppointmentResponse) :
  (forall a, yields (k a)) -> yields (x <-- gets g ;;; k x).
Proof. intros H s. rewrite gets_bind. apply H. Qed.

Lemma yields_create req : yields (gets (create_response req)).
Proof.
  intros s. exists s, (create_response req s), []. split; [reflexivity|].
  cbn. symmetry. apply app_nil_r.
Qed.

Lemma grows_mret : grows (mret tt).
Proof. intros s. exists s, []. split; [reflexivity|]. symmetry. apply app_nil_r. Qed.

Lemma grows_finalize : grows finalize_response.
Proof.
  intros s. destruct (finalize_fields s) as [s' [E [R _]]]. exists s', []. split; [exact E|].
  rewrite R. symmetry. apply app_nil_r.
Qed.

Lemma grows_emergency : grows emergency_route.
Proof. intros s. eexists; eexists. split; reflexivity. Qed.

Lemma grows_booking env req : grows (appointment_booking env req).
Proof.
  intros s. unfold appointment_booking. rewrite !gets_bind.
  destruct (invoke _ _ _) as [r o]. eexists; exists [r]. split; reflexivity.
Qed.

Lemma grows_triage env req : grows (triage_assessment env req).
Proof.
  intros s. unfold triage_assessment. rewrite !gets_bind.
  destruct (invoke _ _ _) as [r o]. eexists; exists [r]. split; reflexivity.
Qed.

Lemma grows_comorbidity env req : grows (comorbidity_analysis env req).
Proof.
  intros s. unfold comorbidity_analysis. rewrite !gets_bind.
  destruct (invoke _ _ _) as [r o]. eexists; exists [r]. split; reflexivity.
Qed.

Lemma yields_book env req : yields (book_and_respond env req).
Proof.
  unfold book_and_respond. apply yields_seq; [apply grows_booking|].
  apply yields_seq; [apply grows_finalize|apply yields_create].
Qed.

Lemma yields_after_intake env req : yields (after_intake env req).
Proof.
  unfold after_intake. apply yields_gets. intros [|].
  { apply yields_seq; [apply grows_finalize|apply yields_create]. }
  apply yields_gets. intros [|]; [apply yields_book|].
  apply yields_gets. intros [|].
  { apply yields_seq; [apply grows_emergency|apply yields_create]. }
  unfold triage_and_book. apply yields_gets. intros [|]; [|apply yields_book].
  apply yields_seq; [apply grows_triage|]. apply yields_gets. intros [|].
  { apply yields_seq; [apply grows_emergency|apply yields_create]. }
  apply yields_gets. intros need. apply yields_seq; [|apply yields_book].
  destruct need; [apply grows_comorbidity|apply grows_mret].
Qed.

(** ** Security and intake *)

Lemma security_reply_name env req : agent_name (fst (security_reply env req)) = Jailbreak.name.
Proof. unfold security_reply, invoke. destruct (llm env Security); reflexivity. Qed.

(** Below the [BLOCK] score the security stage never blocks, whatever the
    completion text or its failure. *)
Lemma security_below_block env req :
  Jailbreak.risk_score (Jailbreak.analyze_threats (req_message req)) < 8 ->
  forall s, exists lvl, security_check env req s =
    ({| conversation_context := conversation_context s;
        st_agent_responses := app (st_agent_responses s) [fst (security_reply env req)];
        security_status := Some lvl;
        st_symptom_analysis := st_symptom_analysis s;
        st_comorbidity_risk := st_comorbidity_risk s; appointment_data := appointment_data s;
        st_requires_emergency := st_requires_emergency s; st_next_steps := st_next_steps s;
        final_message := final_message s |}, Ok tt) /\ lvl <> Jailbreak.BLOCK.
Proof.
  intros H s. unfold security_check, security_reply, invoke, modify.
  destruct (llm env Security) as [t|r].
  - unfold Jailbreak.process_response, Jailbreak.determine_safety_level.
    remember (Jailbreak.analyze_threats (req_message req)) as ta.
    cbv beta iota zeta.
    destruct (Jailbreak.risk_score ta >=? 8) eqn:E. { apply Z.geb_le in E. lia. }
    eexists; split; [reflexivity|].
    destruct (_ || _)%bool; discriminate.
  - cbv beta iota zeta. eexists; split; [reflexivity|discriminate].
Qed.

(** The state a turn that is neither a slot resolution nor blocked reaches
    after the intake stage. *)
Lemma process_body_unblocked env req sess :
  is_booking_from_previous_slots req sess = false ->
  Jailbreak.risk_score (Jailbreak.analyze_threats (req_message req)) < 8 ->
  exists s2, process_body env req sess (initial_state sess) = after_intake env req s2 /\
    appointment_data s2 = no_appointment_data /\
    st_symptom_analysis s2 = sess_sa sess /\
    st_requires_emergency s2 = false /\
    conversation_context s2 = update_with_assistance (conversation_context (initial_state sess))
                                (snd (intake_reply env req)) /\
    st_agent_responses s2 = [fst (security_reply env req); fst (intake_reply env req)].
Proof.
  intros H1 H2. unfold process_body. rewrite H1.
  destruct (security_below_block env req H2 (initial_state sess)) as [lvl [E Hl]].
  rewrite (bind_ok _ _ _ _ _ E), gets_bind. cbn [security_status].
  destruct lvl; try congruence;
  unfold initial_assistance, modify, mbind at 1;
  destruct (intake_reply env req) as [r1 o1];
  cbv beta iota; eexists; repeat split; destruct sess; reflexivity.
Qed.

(** The security stage blocks only when its completion call succeeds and
    the message scores at least 8: with a score below 8, or with a failed
    call (whose error data has no [safety_level], read as ["SAFE"]), it
    never blocks. *)
Lemma security_not_blocked env req :
  Jailbreak.risk_score (Jailbreak.analyze_threats (req_message req)) < 8
  \/ (exists r, llm env Security = LlmFail r) ->
  forall s, exists lvl, security_check env req s =
    ({| conversation_context := conversation_context s;
        st_agent_responses := app (st_agent_responses s) [fst (security_reply env req)];
        security_status := Some lvl;
        st_symptom_analysis := st_symptom_analysis s;
        st_comorbidity_risk := st_comorbidity_risk s; appointment_data := appointment_data s;
        st_requires_emergency := st_requires_emergency s; st_next_steps := st_next_steps s;
        final_message := final_message s |}, Ok tt) /\ lvl <> Jailbreak.BLOCK.
Proof.
  intros H s. unfold security_check, security_reply, invoke, modify.
  destruct (llm env Security) as [t|r] eqn:El.
  - destruct H as [H|[r Hr]]; [|discriminate Hr].
    unfold Jailbreak.process_response, Jailbreak.determine_safety_level.
    remember (Jailbreak.analyze_threats (req_message req)) as ta.
    cbv beta iota zeta.
    destruct (Jailbreak.risk_score ta >=? 8) eqn:E. { apply Z.geb_le in E. lia. }
    eexists; split; [reflexivity|].
    destruct (_ || _)%bool; discriminate.
  - cbv beta iota zeta. eexists; split; [reflexivity|discriminate].
Qed.

Lemma process_body_not_blocked env req sess :
  is_booking_from_previous_slots req sess = false ->
  Jailbreak.risk_score (Jailbreak.analyze_threats (req_message req)) < 8
  \/ (exists r, llm env Security = LlmFail r) ->
  exists s2, process_body env req sess (initial_state sess) = after_intake env req s2 /\
    appointment_data s2 = no_appointment_data /\
    st_symptom_analysis s2 = sess_sa sess /\
    st_requires_emergency s2 = false /\
    conversation_context s2 = update_with_assistance (conversation_context (initial_state sess))
                                (snd (intake_reply env req)) /\
    st_agent_responses s2 = [fst (security_reply env req); fst (intake_reply env req)].
Proof.
  intros H1 H2. unfold process_body. rewrite H1.
  destruct (security_not_blocked env req H2 (initial_state sess)) as [lvl [E Hl]].
  rewrite (bind_ok _ _ _ _ _ E), gets_bind. cbn [security_status].
  destruct lvl; try congruence;
  unfold initial_assistance, modify, mbind at 1;
  destruct (intake_reply env req) as [r1 o1];
  cbv beta iota; eexists; repeat split; destruct sess; reflexivity.
Qed.

Lemma intake_medical env req t :
  llm env Intake = LlmOk t ->
  Assisting.is_medical_request (req_message req) = true ->
  Assisting.detect_crisis_indicators (req_message req) = [] ->
  let info := Assisting.extract_patient_info (req_message req) in
  intake_reply env req =
  ({| agent_name := Assisting.name; message := t;
      action_taken := Some (Assisting.determine_action info t) |},
   Done (Assisting.MedicalData info (Assisting.get_conversation_stage info)
           (Assisting.detect_urgency_indicators (req_message req)))).
Proof.
  intros H1 H2 H3 info. unfold intake_reply, invoke. rewrite H1.
  unfold Assisting.process_response. rewrite H2, H3. reflexivity.
Qed.

Lemma intake_crisis env req t :
  llm env Intake = LlmOk t ->
  Assisting.is_medical_request (req_message req) = true ->
  Assisting.detect_crisis_indicators (req_message req) <> [] ->
  exists msg, intake_reply env req =
  ({| agent_name := Assisting.name; message := msg; action_taken := Some "crisis_intervention" |},
   Done (Assisting.CrisisData (Assisting.detect_crisis_indicators (req_message req)))).
Proof.
  intros H1 H2 H3. unfold intake_reply, invoke. rewrite H1.
  unfold Assisting.process_response. rewrite H2.
  destruct (Assisting.detect_crisis_indicators (req_message req)); [congruence|].
  eexists; reflexivity.
Qed.

Lemma update_booking_intent c o :
  booking_intent (update_with_assistance c o) = booking_intent c.
Proof. destruct o as [[]|]; reflexivity. Qed.

Lemma booking_intent_initial sess :
  booking_intent (conversation_context (initial_state sess))
  = match sess with Some c => booking_intent c | None => None end.
Proof.
  unfold initial_state. destruct sess as [c|]; [|reflexivity].
  destruct (conversation_history c); reflexivity.
Qed.

(** With only the security and intake replies, a turn is a direct booking
    only through an [initiate_booking] intake action or a [booking_intent]
    flag. *)
Lemma not_direct env req s a :
  st_agent_responses s = [fst (security_reply env req); a] ->
  action_taken a <> Some "initiate_booking" ->
  booking_intent (conversation_context s) <> Some true ->
  is_booking_request_with_context s = false.
Proof.
  intros Hr Ha Hb. unfold is_booking_request_with_context. rewrite Hr.
  cbn [existsb]. rewrite security_reply_name.
  destruct (action_taken a) as [x|].
  - assert (String.eqb x "initiate_booking" = false)
      by (apply String.eqb_neq; congruence).
    rewrite H, andb_false_r. cbn.
    destruct (booking_intent (conversation_context s)) as [[|]|]; try congruence;
    rewrite andb_false_r; reflexivity.
  - rewrite andb_false_r. cbn.
    destruct (booking_intent (conversation_context s)) as [[|]|]; try congruence;
    rewrite andb_false_r; reflexivity.
Qed.

Lemma triage_flags env req s t' :
  llm env Env.Triage = LlmOk t' ->
  exists s3, triage_assessment env req s = (s3, Ok tt)
  /\ st_requires_emergency s3 = Triage.check_emergency_indicators (req_message req).
Proof.
  intros H. unfold triage_assessment, mbind, gets, modify, invoke. rewrite H.
  unfold Triage.process_response. cbv beta iota zeta.
  eexists; split; reflexivity.
Qed.

Lemma emergency_tail req s : exists s',
  mbind emergency_route (fun _ => gets (create_response req)) s = (s', Ok (create_response req s'))
  /\ st_requires_emergency s' = true
  /\ st_agent_responses s' = app (st_agent_responses s) [emergency_entry]
  /\ st_next_steps s' = emergency_next_steps.
Proof. eexists; repeat split. Qed.

(** ** C1: the emergency route *)

(** C1 (amended): a turn that does not resolve a stored slot, scores below
    the [BLOCK] threshold, is classified medical by intake (whose completion
    call succeeds), and runs under a session without a [booking_intent] flag
    is routed to emergency when intake reports a crisis type, or when intake
    does not choose [initiate_booking] and either reports an urgency keyword
    or triage (its call succeeding, and run because of reported symptoms or
    a session without a symptom analysis) raises its emergency flag. The
    response then has [requires_emergency = true], its last agent response is
    the "Emergency Protocol" entry carrying the fixed protocol text, and its
    next steps are the four emergency steps. *)
Theorem emergency_turn_routes env req sess t :
  is_booking_from_previous_slots req sess = false ->
  Jailbreak.risk_score (Jailbreak.analyze_threats (req_message req)) < 8 ->
  llm env Intake = LlmOk t ->
  Assisting.is_medical_request (req_message req) = true ->
  (forall c, sess = Some c -> booking_intent c <> Some true) ->
  Assisting.detect_crisis_indicators (req_message req) <> []
  \/ (Assisting.determine_action (Assisting.extract_patient_info (req_message req)) t
         <> "initiate_booking"
      /\ (Assisting.detect_urgency_indicators (req_message req) <> []
          \/ (Triage.check_emergency_indicators (req_message req) = true
              /\ (exists t', llm env Env.Triage = LlmOk t')
              /\ (ei_symptoms (Assisting.extract_patient_info (req_message req)) <> []
                  \/ sess_sa sess = None)))) ->
  let resp := fst (process_request env req sess) in
  requires_emergency resp = true
  /\ (exists pre, agent_responses resp = app pre [emergency_entry])
  /\ message emergency_entry = emergency_message
  /\ next_steps resp = emergency_next_steps.
Proof.
  intros H1 H2 H3 H4 H6 H5 resp. subst resp.
  destruct (process_body_unblocked env req sess H1 H2)
    as [s2 [E [Ha [Hs [_ [Hc Hr]]]]]].
  unfold process_request. rewrite E.
  assert (Hbi : booking_intent (conversation_context s2) <> Some true).
  { rewrite Hc, update_booking_intent, booking_intent_initial.
    destruct sess as [c|]; [apply H6; reflexivity|discriminate]. }
  unfold after_intake.
  destruct (Assisting.detect_crisis_indicators (req_message req)) as [|ci cis] eqn:Hci.
  - (* intake's medical branch *)
    destruct H5 as [H5|[Hact H5]]; [congruence|].
    pose proof (intake_medical env req t H3 H4 Hci) as Hi. cbv zeta in Hi.
    rewrite Hi in Hc, Hr. cbv beta iota delta [update_with_assistance snd] in Hc.
    rewrite gets_bind.
    assert (Hn : is_non_medical_request s2 = false)
      by (unfold is_non_medical_request; rewrite Hc; reflexivity).
    rewrite Hn, gets_bind.
    rewrite (not_direct env req s2 _ Hr) by (cbn; congruence || assumption).
    rewrite gets_bind.
    destruct (should_route_to_emergency s2) eqn:Hem.
    + destruct (emergency_tail req s2) as [s' [F [G1 [G2 G3]]]]. rewrite F. cbn [fst].
      cbn [create_response requires_emergency agent_responses next_steps].
      rewrite G1, G2, G3. repeat split; [eexists; reflexivity].
    + destruct H5 as [H5|[Htr [[t' Ht'] Hsym]]].
      { unfold should_route_to_emergency in Hem. rewrite Hc in Hem.
        cbn [urgency_indicators] in Hem.
        destruct (Assisting.detect_urgency_indicators (req_message req)); [congruence|].
        cbn [length Nat.eqb negb orb] in Hem. discriminate. }
      unfold triage_and_book. rewrite gets_bind.
      assert (Hrun : (has_symptoms s2 || match st_symptom_analysis s2 with
                                         | Some _ => false | None => true end)%bool = true).
      { destruct Hsym as [Hsym|Hsym].
        - unfold has_symptoms, ei_symptoms_of. rewrite Hc. cbn [is_medical extracted_info].
          destruct (ei_symptoms (Assisting.extract_patient_info (req_message req)));
            [congruence|].
          reflexivity.
        - rewrite Hs, Hsym. apply orb_true_r. }
      rewrite Hrun.
      destruct (triage_flags env req s2 t' Ht') as [s3 [T1 T2]].
      rewrite (bind_ok _ _ _ _ _ T1), gets_bind, T2, Htr.
      destruct (emergency_tail req s3) as [s' [F [G1 [G2 G3]]]]. rewrite F. cbn [fst].
      cbn [create_response requires_emergency agent_responses next_steps].
      rewrite G1, G2, G3. repeat split; [eexists; reflexivity].
  - (* intake's crisis branch *)
    assert (Hne : Assisting.detect_crisis_indicators (req_message req) <> [])
      by (rewrite Hci; discriminate).
    destruct (intake_crisis env req t H3 H4 Hne) as [msg Hi].
    rewrite Hi in Hc, Hr. cbv beta iota delta [update_with_assistance snd] in Hc.
    rewrite gets_bind.
    assert (Hn : is_non_medical_request s2 = false)
      by (unfold is_non_medical_request; rewrite Hc; reflexivity).
    rewrite Hn, gets_bind.
    rewrite (not_direct env req s2 _ Hr) by (cbn; congruence || assumption).
    rewrite gets_bind.
    assert (Hem : should_route_to_emergency s2 = true).
    { unfold should_route_to_emergency. rewrite Hc. cbn [crisis_type]. rewrite Hci.
      cbn [length Nat.eqb negb]. apply orb_true_r. }
    rewrite Hem.
    destruct (emergency_tail req s2) as [s' [F [G1 [G2 G3]]]]. rewrite F. cbn [fst].
    cbn [create_response requires_emergency agent_responses next_steps].
    rewrite G1, G2, G3. repeat split; [eexists; reflexivity].
Qed.

(** C1 witness: "I have severe chest pain and can't breathe" with no session
    meets every hypothesis (through the urgency keywords). *)
Lemma emergency_turn_routes_witness :
  let req := request "I have severe chest pain and can't breathe" in
  is_booking_from_previous_slots req None = false
  /\ Jailbreak.risk_score (Jailbreak.analyze_threats (req_message req)) < 8
  /\ Assisting.is_medical_request (req_message req) = true
  /\ requires_emergency (fst (process_request env_ok req None)) = true.
Proof.
  cbv zeta. split; [vm_compute; reflexivity|]. split; [vm_compute; reflexivity|].
  split; [vm_compute; reflexivity|].
  apply (emergency_turn_routes env_ok (request "I have severe chest pain and can't breathe")
           None "I understand. Let me look into this for you.").
  - vm_compute; reflexivity.
  - vm_compute; reflexivity.
  - reflexivity.
  - vm_compute; reflexivity.
  - intros c Hc; discriminate.
  - right. split; [vm_compute; discriminate|]. left. vm_compute; discriminate.
Defined.

(** C1 counterexample: on the emergency route the response message is empty,
    so it does not hold the protocol text; and "i can't breathe" is classified
    non-medical, so the turn ends with [requires_emergency = false]. *)
Lemma emergency_turn_counterexample :
  let r1 := fst (process_request env_ok (request "I have severe chest pain and can't breathe") None) in
  let r2 := fst (process_request env_ok (request "i can't breathe") None) in
  requires_emergency r1 = true /\ r_message r1 = ""
  /\ Str.contains "EMERGENCY PROTOCOL ACTIVATED" (r_message r1) = false
  /\ Str.contains "can't breathe" (Str.lower (req_message (request "i can't breathe"))) = true
  /\ requires_emergency r2 = false.
Proof. vm_compute. repeat split. Qed.

(** ** C2: a failed completion call *)

(** C2 (amended): a failed completion call is absorbed by the stage that
    made it. When the security stage's call fails on a turn that is not a
    slot resolution, the first agent response is that stage's error reply
    ("Error processing request: OpenAI API call failed: " and the reason,
    action [error_handling]), the turn is not blocked (the level defaults to
    [SAFE]) and goes on to intake, whose reply comes second, and the response
    is never the generic error response. *)
Theorem security_failure_absorbed env req sess reason :
  is_booking_from_previous_slots req sess = false ->
  llm env Security = LlmFail reason ->
  let resp := fst (process_request env req sess) in
  (exists rest, agent_responses resp
                = failure_entry Jailbreak.name reason :: fst (intake_reply env req) :: rest)
  /\ forall e, resp <> create_error_response e.
Proof.
  intros H1 H2 resp. subst resp. unfold process_request, process_body. rewrite H1.
  assert (Hs : exists s1, security_check env req (initial_state sess) = (s1, Ok tt)
    /\ security_status s1 = Some Jailbreak.SAFE
    /\ st_agent_responses s1 = [failure_entry Jailbreak.name reason]).
  { unfold security_check, security_reply, invoke, modify. rewrite H2.
    eexists; repeat split. }
  destruct Hs as [s1 [E1 [S1 R1]]].
  rewrite (bind_ok _ _ _ _ _ E1), gets_bind, S1.
  assert (Hi : exists s2, initial_assistance env req s1 = (s2, Ok tt)
    /\ st_agent_responses s2 = app (st_agent_responses s1) [fst (intake_reply env req)]).
  { unfold initial_assistance, modify.
    destruct (intake_reply env req) as [r o]. eexists; split; reflexivity. }
  destruct Hi as [s2 [E2 R2]].
  rewrite (bind_ok _ _ _ _ _ E2).
  destruct (yields_after_intake env req s2) as [s3 [resp [tl [E3 R3]]]].
  rewrite E3. cbn [fst]. rewrite R2, R1 in R3. cbn in R3.
  split.
  - exists tl. exact R3.
  - intros e He. rewrite He in R3. discriminate.
Qed.

(** C2 witness: a headache report while the completion service times out. *)
Lemma security_failure_absorbed_witness :
  is_booking_from_previous_slots (request "I have a headache") None = false
  /\ llm env_fail Security = LlmFail "timeout"
  /\ forall e, fst (process_request env_fail (request "I have a headache") None)
               <> create_error_response e.
Proof.
  split; [vm_compute; reflexivity|]. split; [reflexivity|].
  apply (security_failure_absorbed env_fail (request "I have a headache") None "timeout");
    [vm_compute; reflexivity|reflexivity].
Defined.

(** C2 counterexample: with every completion call failing, "I have a
    headache" gets no generic error response: each of the four stages that
    ran reports its own failure, the turn is not blocked, and the message is
    the booking stage's error reply. *)
Lemma security_failure_counterexample :
  let resp := fst (process_request env_fail (request "I have a headache") None) in
  map agent_name (agent_responses resp)
    = [Jailbreak.name; Assisting.name; Triage.name; Booker.name]
  /\ agent_responses resp
     = map (fun n => failure_entry n "timeout")
           [Jailbreak.name; Assisting.name; Triage.name; Booker.name]
  /\ r_message resp = "Error processing request: OpenAI API call failed: timeout"
  /\ forall e, resp <> create_error_response e.
Proof.
  cbv zeta. split; [vm_compute; reflexivity|]. split; [vm_compute; reflexivity|].
  split; [vm_compute; reflexivity|].
  intros e H. apply (f_equal agent_responses) in H. vm_compute in H. discriminate.
Qed.

(** ** C3: when slot resolution fires *)

(** C3 (amended): slot resolution fires exactly when the session holds a
    non-empty [available_slots] list, the lowercased message contains one of
    book, schedule, confirm, reserve, choose, select, pick, and in addition
    it contains a bare number, or references a stored slot (a word of its
    doctor's name, its time or its date), or names a known doctor
    (michael, chen, sarah, johnson, emily, rodriguez), or contains
    "appointment". When it fires, the turn's response is the slot-resolution
    response (or the error response, should that raise), with no other stage
    run. *)
Theorem slot_resolution_trigger env req sess :
  let ml := Str.lower (req_message req) in
  (is_booking_from_previous_slots req sess = true <->
     sess_slots sess <> []
     /\ Str.any_in booking_keywords ml = true
     /\ (Re.bare_numbers ml <> []
         \/ existsb (slot_referenced ml) (sess_slots sess) = true
         \/ Str.any_in doctor_names ml = true
         \/ Str.contains "appointment" ml = true))
  /\ (is_booking_from_previous_slots req sess = true ->
      fst (process_request env req sess)
      = match handle_slot_booking env req (sess_slots sess) with
        | Ok r => r
        | Raise e => create_error_response (exc_str e)
        end).
Proof.
  intros ml. split.
  - unfold is_booking_from_previous_slots, sess_slots.
    destruct sess as [c|]; [|split; [discriminate|intros [H _]; congruence]].
    destruct (ctx_available_slots c) as [|x xs];
      [split; [discriminate|intros [H _]; congruence]|].
    fold ml.
    destruct (Re.bare_numbers ml) as [|n ns];
    destruct (Str.any_in booking_keywords ml);
    destruct (existsb (slot_referenced ml) (x :: xs));
    destruct (Str.any_in doctor_names ml);
    destruct (Str.contains "appointment" ml);
    cbn; firstorder congruence.
  - intros H. unfold process_request, process_body. rewrite H. unfold lift.
    destruct (handle_slot_booking env req (sess_slots sess)); reflexivity.
Qed.

(** C3 counterexample: with a Dr. Michael Chen slot on record, the message
    "chen" names a known doctor but has no booking keyword, and slot
    resolution does not fire; "book it" has the keyword alone and does not
    fire either. *)
Lemma slot_resolution_trigger_counterexample :
  sess_slots (Some (session_with [chen_slot])) <> []
  /\ Str.any_in doctor_names (Str.lower "chen") = true
  /\ is_booking_from_previous_slots (request "chen") (Some (session_with [chen_slot])) = false
  /\ Str.any_in booking_keywords (Str.lower "book it") = true
  /\ is_booking_from_previous_slots (request "book it") (Some (session_with [chen_slot])) = false.
Proof. split; [discriminate|]. vm_compute. repeat split. Qed.

(** ** C4: slot disambiguation *)

(** On the slot path the turn's response is the slot-resolution result, and
    the session dict is left as it came in. *)
Lemma slot_path_request env req sess :
  is_booking_from_previous_slots req sess = true ->
  process_request env req sess
  = (match handle_slot_booking env req (sess_slots sess) with
     | Ok r => r
     | Raise e => create_error_response (exc_str e)
     end, conversation_context (initial_state sess)).
Proof.
  intros H. unfold process_request, process_body. rewrite H. unfold lift.
  destruct (handle_slot_booking env req (sess_slots sess)); reflexivity.
Qed.

Lemma find_all_false {A} (f : A -> bool) (l : list A) :
  Forall (fun x => f x = false) l -> find f l = None.
Proof. induction 1 as [|x l Hx _ IH]; cbn; [reflexivity|]. rewrite Hx. exact IH. Qed.

Lemma nonempty_found (f : SlotDict -> bool) slots s :
  Forall (fun slot => slot <> []) slots -> find f slots = Some s -> s <> [].
Proof.
  intros Hf E. apply find_some in E as [Hin _].
  rewrite Forall_forall in Hf. exact (Hf s Hin).
Qed.

Lemma number_in_range ml slots n rest :
  Re.bare_numbers ml = n :: rest ->
  1 <= Str.int_of_digits n <= Z.of_nat (length slots) ->
  select_by_number ml slots = nth_error slots (Z.to_nat (Str.int_of_digits n - 1)).
Proof.
  intros E R. unfold select_by_number. rewrite E.
  replace ((0 <=? Str.int_of_digits n - 1)
           && (Str.int_of_digits n - 1 <? Z.of_nat (length slots)))%bool with true
    by (symmetry; apply andb_true_iff; split; [apply Z.leb_le|apply Z.ltb_lt]; lia).
  reflexivity.
Qed.

Lemma number_out_of_range ml slots :
  (forall n rest, Re.bare_numbers ml = n :: rest ->
     ~ (1 <= Str.int_of_digits n <= Z.of_nat (length slots))) ->
  select_by_number ml slots = None.
Proof.
  intros H. unfold select_by_number.
  destruct (Re.bare_numbers ml) as [|n rest]; [reflexivity|].
  specialize (H n rest eq_refl).
  destruct ((0 <=? Str.int_of_digits n - 1)
            && (Str.int_of_digits n - 1 <? Z.of_nat (length slots)))%bool eqn:C; [|reflexivity].
  exfalso. apply H. apply andb_true_iff in C as [C1 C2].
  apply Z.leb_le in C1. apply Z.ltb_lt in C2. lia.
Qed.

(** C4 (amended): slot selection tries, in order, (a) the first slot one of
    whose doctor-name words (after dropping "dr. ") occurs in the lowercased
    message, (b) the first bare integer of the message as a 1-based index,
    when in range, (c) the first slot whose time, spaces removed and
    lowercased, occurs in the message with its spaces removed (so "10:00am"
    matches "10:00 AM"), and (d) the first slot when the message contains
    book, schedule, confirm or yes, and no slot otherwise. The stored slots
    are non-empty dicts ([if not selected_slot] would skip an empty one).
    In particular: (1) with any non-empty slot list of non-empty slots none
    of whose doctor-name words occurs in "book option 1", that message
    selects the slot at index 0; (2) with the single Dr. Michael Chen slot
    on record and message "book with Chen", the turn returns a booking with
    confirmed = true for exactly that slot's doctor, date and time. *)
Theorem slot_disambiguation :
  (forall ml slots s,
     Forall (fun slot => slot <> []) slots ->
     select_by_doctor ml slots = Some s ->
     select_slot ml slots = Some s)
  /\ (forall ml slots n rest,
        Forall (fun slot => slot <> []) slots ->
        select_by_doctor ml slots = None ->
        Re.bare_numbers ml = n :: rest ->
        1 <= Str.int_of_digits n <= Z.of_nat (length slots) ->
        select_slot ml slots = nth_error slots (Z.to_nat (Str.int_of_digits n - 1)))
  /\ (forall ml slots s,
        Forall (fun slot => slot <> []) slots ->
        select_by_doctor ml slots = None ->
        (forall n rest, Re.bare_numbers ml = n :: rest ->
           ~ (1 <= Str.int_of_digits n <= Z.of_nat (length slots))) ->
        select_by_time ml slots = Some s ->
        select_slot ml slots = Some s)
  /\ (forall ml slots,
        Forall (fun slot => slot <> []) slots ->
        select_by_doctor ml slots = None ->
        (forall n rest, Re.bare_numbers ml = n :: rest ->
           ~ (1 <= Str.int_of_digits n <= Z.of_nat (length slots))) ->
        select_by_time ml slots = None ->
        select_slot ml slots
        = match slots with
          | s0 :: _ => if Str.any_in ["book"; "schedule"; "confirm"; "yes"] ml
                       then Some s0 else None
          | [] => None
          end)
  /\ (forall (s0 : SlotDict) rest,
        s0 <> [] ->
        Forall (fun slot => Str.any_in (Str.split_ws (Str.replace "dr. " ""
                               (Str.lower (get "doctor" "" slot)))) "book option 1" = false)
               (s0 :: rest) ->
        select_slot (Str.lower "book option 1") (s0 :: rest) = Some s0)
  /\ (forall env, exists bk,
        booking (fst (process_request env (request "book with Chen")
                                      (Some (session_with [chen_slot])))) = Some bk
        /\ confirmed bk = true /\ b_doctor bk = "Dr. Michael Chen"
        /\ b_date bk = "2025-08-01" /\ b_time bk = "9:00 AM").
Proof.
  split; [|split; [|split; [|split; [|split]]]].
  - intros ml slots s Hf Hd.
    pose proof (nonempty_found _ _ _ Hf Hd) as Hs.
    unfold select_slot. rewrite Hd. destruct s as [|p s']; [congruence|]. reflexivity.
  - intros ml slots n rest Hf Hd E R.
    pose proof (number_in_range ml slots n rest E R) as Hb.
    destruct (nth_error slots (Z.to_nat (Str.int_of_digits n - 1))) as [x|] eqn:Ex.
    + pose proof (nth_error_In _ _ Ex) as Hin. rewrite Forall_forall in Hf.
      destruct x as [|p x']; [exfalso; exact (Hf [] Hin eq_refl)|].
      assert (Hb' : select_by_number ml slots = Some (p :: x'))
        by (rewrite Hb; first [exact Ex | reflexivity]).
      unfold select_slot. rewrite Hd, Hb'. reflexivity.
    + apply nth_error_None in Ex. lia.
  - intros ml slots s Hf Hd Hn Ht.
    pose proof (nonempty_found _ _ _ Hf Ht) as Hs.
    unfold select_slot. rewrite Hd, (number_out_of_range ml slots Hn), Ht.
    destruct s as [|p s']; [congruence|]. reflexivity.
  - intros ml slots Hf Hd Hn Ht.
    unfold select_slot. rewrite Hd, (number_out_of_range ml slots Hn), Ht.
    unfold select_default. destruct slots as [|s0 rest]; [reflexivity|].
    inversion Hf as [|? ? Hs0 _]; subst.
    destruct (Str.any_in _ ml); [|reflexivity].
    destruct s0 as [|p s0']; [congruence|]. reflexivity.
  - intros s0 rest Hs0 Hd.
    replace (Str.lower "book option 1") with "book option 1" by (vm_compute; reflexivity).
    unfold select_slot, select_by_doctor. rewrite (find_all_false _ _ Hd).
    unfold or_else at 3. cbn [truthy].
    assert (Hn : select_by_number "book option 1" (s0 :: rest) = Some s0).
    { unfold select_by_number. vm_compute (Re.bare_numbers _).
      vm_compute (Str.int_of_digits "1" - 1).
      replace ((0 <=? 0) && (0 <? Z.of_nat (length (s0 :: rest))))%bool with true
        by (symmetry; apply andb_true_iff; split; [reflexivity|apply Z.ltb_lt; cbn [length]; lia]).
      reflexivity. }
    rewrite Hn. destruct s0 as [|p s0']; [congruence|]. reflexivity.
  - intros env. rewrite slot_path_request by (vm_compute; reflexivity).
    unfold handle_slot_booking.
    replace (select_slot (Str.lower (req_message (request "book with Chen")))
                         (sess_slots (Some (session_with [chen_slot]))))
      with (Some chen_slot) by (vm_compute; reflexivity).
    cbn. eexists. repeat split.
Qed.

(** C4 counterexample: with a Dr. Michael Chen 9:00 AM slot listed before a
    Dr. Sarah Johnson 10:00 AM slot, "book 10:00am" matches no doctor word,
    its bare number 10 is out of range, and no time occurs verbatim; the
    claimed order would fall back to the first slot, but the code's
    space-insensitive time match books the Johnson slot. *)
Lemma slot_disambiguation_counterexample :
  select_by_doctor (Str.lower "book 10:00am") [chen_slot; johnson_slot] = None
  /\ Re.bare_numbers (Str.lower "book 10:00am") = ["10"]
  /\ existsb (fun slot => Str.contains (get "time" "" slot) (Str.lower "book 10:00am"))
             [chen_slot; johnson_slot] = false
  /\ select_slot (Str.lower "book 10:00am") [chen_slot; johnson_slot] = Some johnson_slot.
Proof. vm_compute. repeat split. Qed.

(** ** C5: non-medical messages *)

(** C5 (amended): for a message that is not a slot resolution, is not
    blocked by the security stage (its risk score is below 8 tenths, or its
    completion call fails and the level defaults to SAFE), and that the
    intake stage, its completion call succeeding, classifies as non-medical,
    only the security and intake agents reply (triage, comorbidity and slot
    stages do not run), the response lists no available slots and no
    booking, and its symptom_analysis is the one the session context
    carried in (absent when there is none). *)
Theorem non_medical_turn env req sess t
  (H1 : is_booking_from_previous_slots req sess = false)
  (H2 : Jailbreak.risk_score (Jailbreak.analyze_threats (req_message req)) < 8
        \/ (exists r, llm env Security = LlmFail r))
  (H3 : llm env Intake = LlmOk t)
  (H4 : Assisting.is_medical_request (req_message req) = false) :
  let resp := fst (process_request env req sess) in
  map agent_name (agent_responses resp) = [Jailbreak.name; Assisting.name]
  /\ available_slots resp = [] /\ booking resp = None
  /\ symptom_analysis resp = sess_sa sess.
Proof.
  intros resp. subst resp.
  destruct (process_body_not_blocked env req sess H1 H2) as [s2 [E [Ha [Hs [_ [Hc Hr]]]]]].
  unfold process_request. rewrite E.
  assert (Hn : is_non_medical_request s2 = true).
  { unfold is_non_medical_request. rewrite Hc. unfold intake_reply, invoke. rewrite H3.
    unfold Assisting.process_response. rewrite H4. reflexivity. }
  unfold after_intake. rewrite gets_bind, Hn.
  destruct (finalize_fields s2) as [s3 [F [G1 [G2 [G3 _]]]]].
  rewrite (bind_ok _ _ _ _ _ F). unfold gets.
  cbn [fst create_response agent_responses available_slots booking symptom_analysis].
  rewrite G1, G2, G3, Hr, Ha, Hs.
  split; [|split; [reflexivity|split; [reflexivity|reflexivity]]].
  cbn [map]. rewrite security_reply_name.
  unfold intake_reply, invoke. rewrite H3.
  destruct (Assisting.process_response t (req_message req)) as [[? ?] ?]; reflexivity.
Qed.

Lemma non_medical_turn_witness :
  is_booking_from_previous_slots (request "book a movie ticket") (Some session_after_triage) = false
  /\ (Jailbreak.risk_score (Jailbreak.analyze_threats "book a movie ticket") < 8
      \/ (exists r, llm env_ok Security = LlmFail r))
  /\ llm env_ok Intake = LlmOk "I understand. Let me look into this for you."
  /\ Assisting.is_medical_request "book a movie ticket" = false
  /\ symptom_analysis (fst (process_request env_ok (request "book a movie ticket")
                                            (Some session_after_triage)))
     = sess_sa (Some session_after_triage).
Proof.
  assert (H1 : is_booking_from_previous_slots (request "book a movie ticket")
                 (Some session_after_triage) = false) by (vm_compute; reflexivity).
  assert (H2 : Jailbreak.risk_score (Jailbreak.analyze_threats "book a movie ticket") < 8
               \/ (exists r, llm env_ok Security = LlmFail r))
    by (left; vm_compute; reflexivity).
  assert (H3 : llm env_ok Intake = LlmOk "I understand. Let me look into this for you.")
    by reflexivity.
  assert (H4 : Assisting.is_medical_request "book a movie ticket" = false)
    by (vm_compute; reflexivity).
  split; [exact H1|split; [exact H2|split; [exact H3|split; [exact H4|]]]].
  exact (proj2 (proj2 (proj2 (non_medical_turn env_ok (request "book a movie ticket")
                                (Some session_after_triage) _ H1 H2 H3 H4)))).
Defined.

(** C5 counterexample: "book a movie ticket" is non-medical, yet when the
    session carried the symptom analysis of an earlier triage, the response
    returns that analysis rather than an empty one. *)
Lemma non_medical_turn_counterexample :
  Assisting.is_medical_request "book a movie ticket" = false
  /\ symptom_analysis (fst (process_request env_ok (request "book a movie ticket")
                                            (Some session_after_triage)))
     = Some earlier_analysis.
Proof. vm_compute. split; reflexivity. Qed.

(** ** C6: the security classifier *)

Lemma sum_app (l1 l2 : list Z) :
  fold_right Z.add 0 (app l1 l2) = fold_right Z.add 0 l1 + fold_right Z.add 0 l2.
Proof. induction l1 as [|x l1 IH]; cbn; [reflexivity|]. rewrite IH. lia. Qed.

Lemma analyze_patterns_score msg c pats a :
  Jailbreak.risk_score (fold_left (fun a' pat => Jailbreak.analyze_step msg a' c pat) pats a)
  = Jailbreak.risk_score a
    + fold_right Z.add 0 (map (fun pat => if Re.search_pieces pat msg
                                          then Jailbreak.get_threat_severity c else 0) pats).
Proof.
  revert a. induction pats as [|p pats IH]; intros a; cbn [fold_left map fold_right].
  - lia.
  - rewrite IH. unfold Jailbreak.analyze_step.
    destruct (Re.search_pieces p msg); cbn [Jailbreak.risk_score]; lia.
Qed.

Lemma analyze_categories_score msg cps a :
  Jailbreak.risk_score
    (fold_left (fun a cp => fold_left (fun a' pat => Jailbreak.analyze_step msg a' (fst cp) pat)
                                      (snd cp) a) cps a)
  = Jailbreak.risk_score a
    + fold_right Z.add 0
        (flat_map (fun cp => map (fun pat => if Re.search_pieces pat msg
                                             then Jailbreak.get_threat_severity (fst cp) else 0)
                                 (snd cp)) cps).
Proof.
  revert a. induction cps as [|cp cps IH]; intros a; cbn [fold_left flat_map].
  - cbn. lia.
  - rewrite IH, analyze_patterns_score, sum_app. lia.
Qed.

(** C6: the risk score of a message is the sum, over every pattern of the
    four categories, of the category severity (in tenths: prompt_injection 6,
    data_extraction 8, medical_fraud 9, harassment 7) for each pattern found
    in the lowercased message; the safety level [process_response] returns
    is BLOCK when that sum is at least 8 (0.8), else CAUTION when it is at
    least 4 (0.4) or the completion text leaks sensitive information, else
    SAFE. *)
Theorem safety_level_from_summed_severity (message llm_response : string) :
  Jailbreak.risk_score (Jailbreak.analyze_threats message) = Jailbreak.claimed_risk_score message
  /\ (let '(_, _, lvl) := Jailbreak.process_response llm_response message in lvl)
     = Jailbreak.claimed_safety_level message llm_response.
Proof.
  assert (Hs : Jailbreak.risk_score (Jailbreak.analyze_threats message)
               = Jailbreak.claimed_risk_score message).
  { unfold Jailbreak.analyze_threats. rewrite analyze_categories_score. reflexivity. }
  split; [exact Hs|].
  unfold Jailbreak.process_response, Jailbreak.determine_safety_level,
         Jailbreak.claimed_safety_level.
  rewrite Hs, !Z.geb_leb. reflexivity.
Qed.

(** ** C7: comorbidity scoring *)

(** C7: for "I am 70 years old with diabetes and asthma" and no medical
    history from the context, the extracted risk factors include
    "elderly (age 70)", "diabetes" and "respiratory (asthma)", the additive
    risk score is at least 6, and the risk level, also the one the
    comorbidity agent reports whatever its completion text, is HIGH. *)
Theorem comorbidity_elderly_diabetes_asthma :
  let rf := Comorbidity.extract_risk_factors "I am 70 years old with diabetes and asthma" [] in
  In "elderly (age 70)" rf /\ In "diabetes" rf /\ In "respiratory (asthma)" rf
  /\ 6 <= Comorbidity.risk_score rf
  /\ Comorbidity.assess_risk_level rf = Priority.HIGH
  /\ (forall llm_response,
        let '(_, _, cr) := Comorbidity.process_response llm_response
                             "I am 70 years old with diabetes and asthma" [] in
        risk_factors cr = rf /\ risk_level cr = Priority.HIGH).
Proof.
  intros rf.
  assert (Hrf : rf = ["elderly (age 70)"; "diabetes"; "asthma"; "respiratory (asthma)"])
    by (subst rf; vm_compute; reflexivity).
  rewrite Hrf. split; [cbn; tauto|]. split; [cbn; tauto|]. split; [cbn; tauto|].
  split; [vm_compute; discriminate|]. split; [vm_compute; reflexivity|].
  intros llm_response. unfold Comorbidity.process_response. cbv zeta.
  fold rf. rewrite Hrf. split; [reflexivity|vm_compute; reflexivity].
Qed.

(** ** C8: low-priority general-practice slots *)

Section LowPrioritySlots.
Import Booker.

Lemma ltb_irrefl s : Str.ltb s s = false.
Proof.
  induction s as [|a s IH]; cbn -[Nat.ltb Nat.eqb]; [reflexivity|].
  rewrite Nat.ltb_irrefl, Nat.eqb_refl. exact IH.
Qed.

Lemma ltb_asym s t : Str.ltb s t = true -> Str.ltb t s = false.
Proof.
  revert t. induction s as [|a s IH]; intros [|b t]; cbn -[Nat.ltb Nat.eqb];
    try discriminate; [reflexivity|].
  destruct (Nat.ltb (nat_of_ascii a) (nat_of_ascii b)) eqn:E1.
  - intros _. apply Nat.ltb_lt in E1.
    replace (Nat.ltb (nat_of_ascii b) (nat_of_ascii a)) with false
      by (symmetry; apply Nat.ltb_ge; lia).
    replace (Nat.eqb (nat_of_ascii b) (nat_of_ascii a)) with false
      by (symmetry; apply Nat.eqb_neq; lia).
    reflexivity.
  - destruct (Nat.eqb (nat_of_ascii a) (nat_of_ascii b)) eqn:E2; [|discriminate].
    intros H. apply Nat.eqb_eq in E2. rewrite E2, Nat.ltb_irrefl, Nat.eqb_refl.
    apply IH. exact H.
Qed.

Lemma key_lt_asym a b : key_lt a b = true -> key_lt b a = false.
Proof.
  unfold key_lt. intros H.
  destruct (Str.ltb (date a) (date b)) eqn:E1.
  - rewrite (ltb_asym _ _ E1). cbn.
    destruct (String.eqb (date b) (date a)) eqn:E2; [|reflexivity].
    apply String.eqb_eq in E2. rewrite E2, ltb_irrefl in E1. discriminate.
  - cbn in H. apply andb_true_iff in H as [E2 E3]. apply String.eqb_eq in E2.
    rewrite E2, ltb_irrefl, String.eqb_refl. cbn. apply ltb_asym. exact E3.
Qed.

Lemma insert_perm x l : Permutation (insert x l) (x :: l).
Proof.
  induction l as [|y l IH]; cbn; [reflexivity|].
  destruct (key_lt x y); [reflexivity|].
  rewrite IH. apply perm_swap.
Qed.

Lemma sort_slots_perm l : Permutation (sort_slots l) l.
Proof.
  unfold sort_slots.
  assert (G : forall acc, Permutation (fold_left (fun acc x => insert x acc) l acc) (app l acc)).
  { induction l as [|x l IH]; intros acc; cbn; [reflexivity|].
    rewrite IH, insert_perm. symmetry. apply Permutation_middle. }
  rewrite G, app_nil_r. reflexivity.
Qed.

Lemma insert_hd y x l : slot_le y x -> HdRel slot_le y l -> HdRel slot_le y (insert x l).
Proof.
  intros Hyx Hl. destruct l as [|z l]; cbn; [constructor; exact Hyx|].
  destruct (key_lt x z); constructor; [exact Hyx|]. inversion Hl; assumption.
Qed.

Lemma insert_sorted x l : Sorted slot_le l -> Sorted slot_le (insert x l).
Proof.
  induction l as [|y l IH]; intros H; cbn; [repeat constructor|].
  destruct (key_lt x y) eqn:E.
  - constructor; [exact H|]. constructor. apply key_lt_asym. exact E.
  - inversion H as [|? ? Hs Hh]; subst.
    constructor; [apply IH; exact Hs|]. apply insert_hd; [exact E|exact Hh].
Qed.

Lemma sort_slots_sorted l : Sorted slot_le (sort_slots l).
Proof.
  unfold sort_slots.
  assert (G : forall acc, Sorted slot_le acc ->
              Sorted slot_le (fold_left (fun acc x => insert x acc) l acc)).
  { induction l as [|x l IH]; intros acc Ha; cbn; [exact Ha|].
    apply IH, insert_sorted, Ha. }
  apply G. constructor.
Qed.

Lemma date_preference_incl today l p : incl (filter_by_date_preference today l p) l.
Proof.
  intros x Hx. unfold filter_by_date_preference in Hx.
  repeat match type of Hx with
         | context [if ?b then _ else _] => destruct b
         end; try exact Hx; apply filter_In in Hx; tauto.
Qed.

Lemma time_preference_incl l p : incl (filter_by_time_preference l p) l.
Proof.
  intros x Hx. unfold filter_by_time_preference in Hx.
  repeat match type of Hx with
         | context [if String.eqb ?a ?b then _ else _] => destruct (String.eqb a b)
         end; try exact Hx; apply filter_In in Hx; tauto.
Qed.

Lemma candidate_incl today rq :
  incl (candidate_slots today rq) (generated_slots today (rq_specialty rq) (rq_priority rq)).
Proof.
  unfold candidate_slots. intros x Hx.
  destruct (rq_preferred_time rq) as [tp|]; [apply time_preference_incl in Hx|];
  (destruct (rq_preferred_date rq) as [dp|]; [apply date_preference_incl in Hx|]); exact Hx.
Qed.

(** C8: with specialty general_practice and priority LOW, the generated
    slots are, for each of the 14 days from today whose weekday is Monday
    to Friday, for each of the three general-practice doctors, the 7
    regular hourly times; every returned slot lies on such a weekday, at a
    regular time, with such a doctor; at most 10 slots are returned, and
    they are the first ones of the candidates (the generated slots after the
    date and time preference filters) sorted ascending by the pair
    (date, time) of strings. *)
Theorem low_priority_gp_slots today rq
  (Hsp : rq_specialty rq = "general_practice") (Hpr : rq_priority rq = Priority.LOW) :
  let res := find_available_slots today rq in
  generated_slots today (rq_specialty rq) (rq_priority rq)
  = flat_map (fun i =>
       if Cal.weekday (today + Z.of_nat i) <? 5 then
         flat_map (fun d =>
           map (fun t => {| date := Cal.strftime_ymd (today + Z.of_nat i); time := t;
                            doctor := d; specialty := "General Practice"; available := true |})
               regular_times)
           ["Dr. Sarah Johnson"; "Dr. Michael Chen"; "Dr. Emily Rodriguez"]
       else []) (seq 0 14)
  /\ length regular_times = 7%nat
  /\ (forall s, In s res ->
        exists i, (i < 14)%nat /\ Cal.weekday (today + Z.of_nat i) < 5
        /\ date s = Cal.strftime_ymd (today + Z.of_nat i)
        /\ In (time s) regular_times
        /\ In (doctor s) ["Dr. Sarah Johnson"; "Dr. Michael Chen"; "Dr. Emily Rodriguez"])
  /\ (length res <= 10)%nat
  /\ (exists rest, app res rest = sort_slots (candidate_slots today rq))
  /\ Sorted slot_le (sort_slots (candidate_slots today rq))
  /\ Permutation (sort_slots (candidate_slots today rq)) (candidate_slots today rq).
Proof.
  intros res.
  assert (Hgen : generated_slots today (rq_specialty rq) (rq_priority rq)
  = flat_map (fun i =>
       if Cal.weekday (today + Z.of_nat i) <? 5 then
         flat_map (fun d =>
           map (fun t => {| date := Cal.strftime_ymd (today + Z.of_nat i); time := t;
                            doctor := d; specialty := "General Practice"; available := true |})
               regular_times)
           ["Dr. Sarah Johnson"; "Dr. Michael Chen"; "Dr. Emily Rodriguez"]
       else []) (seq 0 14)).
  { rewrite Hsp, Hpr. unfold generated_slots, slots_over_days.
    replace (roster "general_practice")
      with ["Dr. Sarah Johnson"; "Dr. Michael Chen"; "Dr. Emily Rodriguez"]
      by (vm_compute; reflexivity).
    apply flat_map_ext. intros i.
    destruct (Cal.weekday (today + Z.of_nat i) <? 5); [|reflexivity].
    unfold generate_slots_for_day.
    replace (Str.title (Str.replace "_" " " "general_practice")) with "General Practice"
      by (vm_compute; reflexivity).
    reflexivity. }
  split; [exact Hgen|]. split; [reflexivity|].
  split; [|split; [apply firstn_le_length|split;
           [exists (skipn 10 (sort_slots (candidate_slots today rq))); apply firstn_skipn|
            split; [apply sort_slots_sorted|apply sort_slots_perm]]]].
  intros s Hs. subst res. unfold find_available_slots in Hs.
  assert (H1 : In s (sort_slots (candidate_slots today rq))).
  { rewrite <- (firstn_skipn 10 (sort_slots (candidate_slots today rq))).
    apply in_or_app. left. exact Hs. }
  apply (Permutation_in _ (sort_slots_perm _)), candidate_incl in H1.
  rewrite Hgen in H1. apply in_flat_map in H1 as [i [Hi H1]].
  apply in_seq in Hi.
  destruct (Cal.weekday (today + Z.of_nat i) <? 5) eqn:Ew; [|destruct H1].
  apply Z.ltb_lt in Ew.
  apply in_flat_map in H1 as [d [Hd H1]]. apply in_map_iff in H1 as [t [Et Ht]].
  subst s. exists i. cbn [date time doctor]. repeat split; try assumption. lia.
Qed.

Lemma low_priority_gp_slots_witness :
  rq_specialty low_gp_requirements = "general_practice"
  /\ rq_priority low_gp_requirements = Priority.LOW
  /\ (length (find_available_slots 20000 low_gp_requirements) <= 10)%nat.
Proof.
  assert (Hsp : rq_specialty low_gp_requirements = "general_practice") by reflexivity.
  assert (Hpr : rq_priority low_gp_requirements = Priority.LOW) by reflexivity.
  split; [exact Hsp|split; [exact Hpr|]].
  exact (proj1 (proj2 (proj2 (proj2 (low_priority_gp_slots 20000 low_gp_requirements Hsp Hpr))))).
Defined.

End LowPrioritySlots.

(** ** C9: exceptions at the turn boundary *)

(** C9: when the body of [process_request] raises, whatever it had
    accumulated, the turn returns the generic error response: its message
    is "An error occurred while processing your request: " followed by the
    exception text, it lists no agent responses, no available slots and no
    booking, and requires_emergency is false. *)
Theorem stage_exception_error_response env req sess s e
  (H : process_body env req sess (initial_state sess) = (s, Raise e)) :
  let resp := fst (process_request env req sess) in
  resp = create_error_response (exc_str e)
  /\ r_message resp = "An error occurred while processing your request: " ++ exc_str e
  /\ agent_responses resp = [] /\ available_slots resp = [] /\ booking resp = None
  /\ requires_emergency resp = false.
Proof.
  intros resp. subst resp. unfold process_request. rewrite H. cbn [fst].
  split; [reflexivity|]. repeat split.
Qed.

(** A stored slot that lost its [date] makes the slot resolution raise
    [KeyError 'date']. *)
Lemma stage_exception_error_response_witness :
  process_body env_ok (request "book with Chen") (Some (session_with [dateless_slot]))
    (initial_state (Some (session_with [dateless_slot])))
  = (fst (process_body env_ok (request "book with Chen") (Some (session_with [dateless_slot]))
            (initial_state (Some (session_with [dateless_slot])))), Raise (KeyError "date"))
  /\ r_message (fst (process_request env_ok (request "book with Chen")
                                     (Some (session_with [dateless_slot]))))
     = "An error occurred while processing your request: 'date'".
Proof.
  assert (H : process_body env_ok (request "book with Chen") (Some (session_with [dateless_slot]))
                (initial_state (Some (session_with [dateless_slot])))
              = (fst (process_body env_ok (request "book with Chen")
                        (Some (session_with [dateless_slot]))
                        (initial_state (Some (session_with [dateless_slot])))),
                 Raise (KeyError "date")))
    by (vm_compute; reflexivity).
  split; [exact H|].
  exact (proj1 (proj2 (stage_exception_error_response env_ok (request "book with Chen")
                         (Some (session_with [dateless_slot])) _ _ H))).
Defined.

(** ** C10: the session keeps the shown slots after a booking *)

Section StaleSlots.
Import Session.

Lemma find_put sid c st : find_session sid (put_session sid c st) = Some c.
Proof.
  induction st as [|[k c0] st IH]; cbn; [rewrite String.eqb_refl; reflexivity|].
  destruct (String.eqb k sid) eqn:E; cbn; rewrite E; [reflexivity|exact IH].
Qed.

(** Slot resolution reads the request's message and the session's slots only. *)
Lemma slot_trigger_inputs req req' c c' :
  req_message req' = req_message req -> ctx_available_slots c' = ctx_available_slots c ->
  is_booking_from_previous_slots req' (Some c') = is_booking_from_previous_slots req (Some c).
Proof. intros Hm Hs. unfold is_booking_from_previous_slots. rewrite Hm, Hs. reflexivity. Qed.

(** A booking out of slot resolution: the selected slot, its fields. *)
Lemma slot_booking_made env req slots r bk :
  handle_slot_booking env req slots = Ok r -> booking r = Some bk ->
  available_slots r = [] /\ confirmed bk = true
  /\ exists slot sp, select_slot (Str.lower (req_message req)) slots = Some slot
     /\ getitem "date" slot = Ok (b_date bk) /\ getitem "time" slot = Ok (b_time bk)
     /\ getitem "doctor" slot = Ok (b_doctor bk) /\ getitem "specialty" slot = Ok sp.
Proof.
  unfold handle_slot_booking.
  destruct (select_slot (Str.lower (req_message req)) slots) as [slot|] eqn:Es.
  - destruct (getitem "date" slot) as [d|] eqn:E1; cbn; [|discriminate].
    destruct (getitem "time" slot) as [t|] eqn:E2; cbn; [|discriminate].
    destruct (getitem "doctor" slot) as [doc|] eqn:E3; cbn; [|discriminate].
    destruct (getitem "specialty" slot) as [sp|] eqn:E4; cbn; [|discriminate].
    intros H Hb. injection H as <-. cbn in Hb. injection Hb as <-. cbn.
    split; [reflexivity|split; [reflexivity|]]. exists slot, sp. repeat split; assumption.
  - destruct (clarification_lines 1 slots); cbn; discriminate.
Qed.

(** C10: when a session's turn books through slot resolution, the store
    afterwards still holds the session's previously shown slots (the
    booking response lists none, and the update only overwrites the slots
    with a non-empty list) with stage "booking_confirmed"; so slot
    resolution fires on a later message exactly as it did before, and
    sending the same message again in that session, whatever the
    completion texts, books the same doctor, date and time again with
    confirmed = true. *)
Theorem stale_slots_rebook env st req c resp st' bk
  (Hf : find_session (session_key req) st = Some c)
  (Hb : is_booking_from_previous_slots req (Some c) = true)
  (Hc : chat_with_agents env st req = (resp, st'))
  (Hk : booking resp = Some bk) :
  exists c', find_session (session_key req) st' = Some c'
  /\ ctx_available_slots c' = ctx_available_slots c
  /\ conversation_stage c' = Some "booking_confirmed"
  /\ (forall req', is_booking_from_previous_slots req' (Some c')
                   = is_booking_from_previous_slots req' (Some c))
  /\ (forall env' req', session_key req' = session_key req -> req_message req' = req_message req ->
        exists bk', booking (fst (chat_with_agents env' st' req')) = Some bk'
        /\ b_doctor bk' = b_doctor bk /\ b_date bk' = b_date bk /\ b_time bk' = b_time bk
        /\ confirmed bk' = true).
Proof.
  unfold chat_with_agents, get_session_context in Hc. rewrite Hf in Hc.
  set (rwc := {| req_message := req_message req; session_id := Some (session_key req);
                 req_patient_id := req_patient_id req |}) in Hc.
  assert (Hb' : is_booking_from_previous_slots rwc (Some c) = true)
    by (rewrite (slot_trigger_inputs req rwc c c eq_refl eq_refl); exact Hb).
  rewrite (slot_path_request env rwc (Some c) Hb') in Hc.
  destruct (handle_slot_booking env rwc (sess_slots (Some c))) as [r|e] eqn:Eh;
    [|injection Hc as <- _; discriminate].
  injection Hc as <- <-.
  destruct (slot_booking_made env rwc _ r bk Eh Hk)
    as [Hav [Hconf [slot [sp [Hsel [Hd [Ht [Hdoc Hsp]]]]]]]].
  match goal with
  | |- exists c', find_session _ (put_session _ (update_context ?ic _ _) _) = _ /\ _ =>
      assert (Hic : ctx_available_slots ic = ctx_available_slots c)
        by (destruct (conversation_history c); reflexivity);
      set (c1 := update_context ic r req);
      assert (Hslots : ctx_available_slots c1 = ctx_available_slots c)
        by (subst c1; unfold update_context; cbn [ctx_available_slots]; rewrite Hav, Hic;
            reflexivity);
      exists c1
  end.
  split; [apply find_put|].
  split; [exact Hslots|].
  split; [subst c1; unfold update_context; cbn [conversation_stage]; rewrite Hav, Hk;
          reflexivity|].
  split; [intros req'; apply slot_trigger_inputs; [reflexivity|exact Hslots]|].
  intros env' req' Hkey Hmsg.
  unfold chat_with_agents, get_session_context. rewrite Hkey, find_put.
  set (rwc' := {| req_message := req_message req'; session_id := Some (session_key req);
                  req_patient_id := req_patient_id req' |}).
  rewrite (slot_path_request env' rwc').
  2: { rewrite (slot_trigger_inputs req rwc' c _); [exact Hb|exact Hmsg|exact Hslots]. }
  unfold handle_slot_booking. cbn [sess_slots]. rewrite Hslots.
  replace (Str.lower (req_message rwc')) with (Str.lower (req_message rwc))
    by (cbn [req_message rwc rwc']; rewrite Hmsg; reflexivity).
  cbn [sess_slots] in Hsel. rewrite Hsel, Hd, Ht, Hdoc, Hsp. cbn.
  eexists. repeat split.
Qed.

Lemma stale_slots_rebook_witness :
  exists c', find_session "s1"
               (snd (chat_with_agents env_ok store_with_chen (request_in "s1" "book with Chen")))
             = Some c'
  /\ ctx_available_slots c' = [chen_slot].
Proof.
  assert (Hf : find_session (session_key (request_in "s1" "book with Chen")) store_with_chen
               = Some (session_with [chen_slot])) by (vm_compute; reflexivity).
  assert (Hb : is_booking_from_previous_slots (request_in "s1" "book with Chen")
                 (Some (session_with [chen_slot])) = true) by (vm_compute; reflexivity).
  assert (Hc := surjective_pairing
                  (chat_with_agents env_ok store_with_chen (request_in "s1" "book with Chen"))).
  destruct (booking (fst (chat_with_agents env_ok store_with_chen
                            (request_in "s1" "book with Chen")))) as [bk|] eqn:Hk;
    [|vm_compute in Hk; discriminate].
  destruct (stale_slots_rebook env_ok store_with_chen (request_in "s1" "book with Chen")
              (session_with [chen_slot]) _ _ bk Hf Hb Hc Hk) as [c' [H1 [H2 _]]].
  exists c'. split; [exact H1|]. rewrite H2. reflexivity.
Defined.

End StaleSlots.

(** * Further properties of the code *)

(** ** The session store of [main_simple.py] *)
Section SessionStore.
Import Session.

Lemma find_put_other sid k c st : k <> sid ->
  find_session k (put_session sid c st) = find_session k st.
Proof.
  intros Hne. induction st as [|[k0 c0] st IH]; cbn.
  - destruct (String.eqb sid k) eqn:E; [apply String.eqb_eq in E; congruence|reflexivity].
  - destruct (String.eqb k0 sid) eqn:E; cbn.
    + apply String.eqb_eq in E; subst k0.
      destruct (String.eqb sid k) eqn:E2; [apply String.eqb_eq in E2; congruence|reflexivity].
    + destruct (String.eqb k0 k); [reflexivity|exact IH].
Qed.

Lemma get_session_context_other sid k st : k <> sid ->
  find_session k (snd (get_session_context sid st)) = find_session k st.
Proof.
  intros Hne. unfold get_session_context.
  destruct (find_session sid st); [reflexivity|]. apply find_put_other, Hne.
Qed.

Lemma keep_last_10_length h : (length (keep_last_10 h) <= 10)%nat.
Proof.
  unfold keep_last_10. destruct (Nat.ltb 10 (length h)) eqn:E.
  - rewrite length_skipn. lia.
  - apply Nat.ltb_ge in E. exact E.
Qed.

Lemma keep_last_10_snoc hist t : exists pre, keep_last_10 (app hist [t]) = app pre [t].
Proof.
  unfold keep_last_10. destruct (Nat.ltb 10 (length (app hist [t]))) eqn:E.
  - rewrite length_app in *. cbn [length] in *. apply Nat.ltb_lt in E.
    rewrite skipn_app. replace (length hist + 1 - 10 - length hist)%nat with 0%nat by lia.
    eexists; reflexivity.
  - eexists; reflexivity.
Qed.

Lemma in_keys_put sid c st k :
  In k (map fst (put_session sid c st)) <-> k = sid \/ In k (map fst st).
Proof.
  induction st as [|[k0 c0] st IH]; cbn; [firstorder congruence|].
  destruct (String.eqb k0 sid) eqn:E; cbn.
  - apply String.eqb_eq in E; subst k0. firstorder congruence.
  - rewrite IH. tauto.
Qed.

Lemma nodup_put sid c st : NoDup (map fst st) -> NoDup (map fst (put_session sid c st)).
Proof.
  induction st as [|[k0 c0] st IH]; cbn; intros H.
  - constructor; [intros []|constructor].
  - inversion H as [|? ? Hn Hd]; subst.
    destruct (String.eqb k0 sid) eqn:E; cbn; constructor; auto.
    rewrite in_keys_put. intros [Heq|Hin]; [|contradiction].
    subst k0. rewrite String.eqb_refl in E. discriminate.
Qed.

Lemma find_not_in sid st : ~ In sid (map fst st) -> find_session sid st = None.
Proof.
  induction st as [|[k c] st IH]; cbn; intros H; [reflexivity|].
  destruct (String.eqb k sid) eqn:E; [apply String.eqb_eq in E; tauto|].
  apply IH. tauto.
Qed.

Lemma remove_keys_incl sid st : incl (map fst (remove_session sid st)) (map fst st).
Proof.
  induction st as [|[k c] st IH]; cbn; [apply incl_refl|].
  destruct (String.eqb k sid); cbn.
  - intros x Hx. right. exact Hx.
  - apply incl_cons; [left; reflexivity|]. intros x Hx. right. apply IH, Hx.
Qed.

Lemma nodup_remove sid st : NoDup (map fst st) -> NoDup (map fst (remove_session sid st)).
Proof.
  induction st as [|[k c] st IH]; cbn; intros H; [constructor|].
  inversion H as [|? ? Hn Hd]; subst.
  destruct (String.eqb k sid); cbn; [exact Hd|].
  constructor; [|apply IH, Hd]. intros Hin. apply Hn, (remove_keys_incl sid st), Hin.
Qed.

Lemma find_remove_same sid st : NoDup (map fst st) -> find_session sid (remove_session sid st) = None.
Proof.
  induction st as [|[k c] st IH]; cbn; intros H; [reflexivity|].
  inversion H as [|? ? Hn Hd]; subst.
  destruct (String.eqb k sid) eqn:E; cbn.
  - apply String.eqb_eq in E; subst k. apply find_not_in, Hn.
  - rewrite E. apply IH, Hd.
Qed.

Lemma find_remove_other sid k st : k <> sid ->
  find_session k (remove_session sid st) = find_session k st.
Proof.
  intros Hne. induction st as [|[k0 c] st IH]; cbn; [reflexivity|].
  destruct (String.eqb k0 sid) eqn:E; cbn.
  - apply String.eqb_eq in E; subst k0.
    destruct (String.eqb sid k) eqn:E2; [apply String.eqb_eq in E2; congruence|reflexivity].
  - destruct (String.eqb k0 k); [reflexivity|exact IH].
Qed.

(** X1: after a chat turn the session's stored history holds at most ten
    turns and ends with the turn just made: this request's message, the
    response's message and its agent responses. *)
Theorem chat_history_bounded env st req :
  let '(resp, st') := chat_with_agents env st req in
  exists c, find_session (session_key req) st' = Some c
  /\ (length (conversation_history c) <= 10)%nat
  /\ exists pre, conversation_history c
       = app pre [{| t_user_message := req_message req; t_assistant_response := r_message resp;
                     t_agent_responses := agent_responses resp |}].
Proof.
  unfold chat_with_agents.
  destruct (get_session_context (session_key req) st) as [sc st1].
  destruct (Graph.process_request _ _ _) as [result ctx'].
  exists (update_context ctx' result req). split; [apply find_put|].
  unfold update_context; cbn [conversation_history].
  split; [apply keep_last_10_length|apply keep_last_10_snoc].
Qed.

(** X2: after a chat turn [get_session_info] finds the session, reports a
    conversation length from 1 to 10, reports symptoms when the response
    carried a symptom analysis, and reports available slots with stage
    "slots_provided" when the response listed slots. *)
Theorem session_info_after_chat env st req :
  let '(resp, st') := chat_with_agents env st req in
  exists info, get_session_info (session_key req) st' = Some info
  /\ (1 <= si_conversation_length info <= 10)%nat
  /\ (symptom_analysis resp <> None -> si_has_symptoms info = true)
  /\ match available_slots resp with
     | [] => True
     | _ :: _ => si_has_available_slots info = true
                 /\ si_conversation_stage info = Some "slots_provided"
     end.
Proof.
  unfold chat_with_agents.
  destruct (get_session_context (session_key req) st) as [sc st1].
  destruct (Graph.process_request _ _ _) as [result ctx'].
  unfold get_session_info. rewrite find_put. eexists; split; [reflexivity|].
  unfold update_context; cbn [si_conversation_length si_has_symptoms si_has_available_slots
    si_conversation_stage conversation_history ctx_symptom_analysis ctx_available_slots
    conversation_stage].
  split.
  - split; [|apply keep_last_10_length].
    destruct (keep_last_10_snoc (conversation_history ctx')
      {| t_user_message := req_message req; t_assistant_response := r_message result;
         t_agent_responses := agent_responses result |}) as [pre Hp].
    rewrite Hp, length_app. cbn. lia.
  - split; [destruct (symptom_analysis result); [reflexivity|congruence]|].
    destruct (available_slots result); [exact I|]. split; reflexivity.
Qed.

(** X3: a chat turn changes no other session of the store. *)
Theorem chat_other_sessions env st req k :
  k <> session_key req ->
  find_session k (snd (chat_with_agents env st req)) = find_session k st.
Proof.
  intros Hne. unfold chat_with_agents.
  pose proof (get_session_context_other (session_key req) k st Hne) as G.
  destruct (get_session_context (session_key req) st) as [sc st1].
  destruct (Graph.process_request _ _ _) as [result ctx'].
  cbn [snd]. rewrite find_put_other by exact Hne. exact G.
Qed.

Lemma chat_other_sessions_witness :
  find_session "s2" (snd (chat_with_agents env_ok
                            [("s2", session_with [johnson_slot]); ("s1", session_with [chen_slot])]
                            (request_in "s1" "book with Chen")))
  = Some (session_with [johnson_slot]).
Proof.
  apply (chat_other_sessions env_ok
           [("s2", session_with [johnson_slot]); ("s1", session_with [chen_slot])]
           (request_in "s1" "book with Chen") "s2").
  apply String.eqb_neq. vm_compute. reflexivity.
Defined.

(** X4: in a store whose keys are distinct, [clear_session] answers
    "Session <id> cleared" when the session exists and "Session not found"
    otherwise; afterwards the session is gone, every other session is
    unchanged, the keys are still distinct, and the next turn in that
    session starts from a fresh session dict. *)
Theorem clear_session_forgets sid st :
  NoDup (map fst st) ->
  let '(msg, st') := clear_session sid st in
  msg = match find_session sid st with
        | Some _ => "Session " ++ sid ++ " cleared"
        | None => "Session not found"
        end
  /\ find_session sid st' = None
  /\ (forall k, k <> sid -> find_session k st' = find_session k st)
  /\ NoDup (map fst st')
  /\ fst (get_session_context sid st') = initial_session.
Proof.
  intros H. unfold clear_session.
  destruct (find_session sid st) as [c|] eqn:Ef.
  - assert (Hr : find_session sid (remove_session sid st) = None) by (apply find_remove_same, H).
    split; [reflexivity|]. split; [exact Hr|].
    split; [intros k Hk; apply find_remove_other, Hk|].
    split; [apply nodup_remove, H|].
    unfold get_session_context. rewrite Hr. reflexivity.
  - split; [reflexivity|]. split; [exact Ef|]. split; [reflexivity|]. split; [exact H|].
    unfold get_session_context. rewrite Ef. reflexivity.
Qed.

Lemma clear_session_forgets_witness :
  NoDup (map fst store_with_chen)
  /\ fst (clear_session "s1" store_with_chen) = "Session s1 cleared"
  /\ find_session "s1" (snd (clear_session "s1" store_with_chen)) = None.
Proof.
  assert (H : NoDup (map fst store_with_chen))
    by (apply NoDup_cons; [intros []|apply NoDup_nil]).
  pose proof (clear_session_forgets "s1" store_with_chen H) as G.
  destruct (clear_session "s1" store_with_chen) as [msg st'].
  destruct G as [G1 [G2 _]]. split; [exact H|]. split; [|exact G2].
  rewrite G1. vm_compute. reflexivity.
Defined.

(** X5: a chat turn keeps the store's session ids distinct. *)
Theorem chat_keeps_keys_distinct env st req :
  NoDup (map fst st) -> NoDup (map fst (snd (chat_with_agents env st req))).
Proof.
  intros H. unfold chat_with_agents.
  assert (H1 : NoDup (map fst (snd (get_session_context (session_key req) st)))).
  { unfold get_session_context. destruct (find_session _ st); [exact H|]. apply nodup_put, H. }
  destruct (get_session_context (session_key req) st) as [sc st1].
  destruct (Graph.process_request _ _ _) as [result ctx'].
  apply nodup_put, H1.
Qed.

Lemma chat_keeps_keys_distinct_witness :
  NoDup (map fst (snd (chat_with_agents env_ok store_with_chen (request_in "s2" "hello")))).
Proof.
  apply chat_keeps_keys_distinct.
  apply NoDup_cons; [intros []|apply NoDup_nil].
Defined.

End SessionStore.

(** ** Turn-level invariants of [process_request] *)

Lemma security_fields env req s : exists s1 lvl,
  security_check env req s = (s1, Ok tt)
  /\ security_status s1 = Some lvl
  /\ st_agent_responses s1 = app (st_agent_responses s) [fst (security_reply env req)]
  /\ st_requires_emergency s1 = st_requires_emergency s
  /\ appointment_data s1 = appointment_data s
  /\ conversation_context s1 = conversation_context s
  /\ (lvl = Jailbreak.BLOCK <->
      (exists t, llm env Security = LlmOk t)
      /\ 8 <= Jailbreak.risk_score (Jailbreak.analyze_threats (req_message req))).
Proof.
  unfold security_check, security_reply, invoke, modify.
  destruct (llm env Security) as [t|r].
  - unfold Jailbreak.process_response, Jailbreak.determine_safety_level.
    remember (Jailbreak.analyze_threats (req_message req)) as ta.
    cbv beta iota zeta.
    do 2 eexists; split; [reflexivity|].
    cbn [security_status st_agent_responses st_requires_emergency appointment_data
         conversation_context append_response fst].
    repeat (split; [reflexivity|]).
    destruct (Jailbreak.risk_score ta >=? 8) eqn:E.
    + apply Z.geb_le in E. split; [intros _; split; [exists t; reflexivity|lia]|reflexivity].
    + rewrite Z.geb_leb in E; apply Z.leb_gt in E. split; [destruct (_ || _)%bool; discriminate|intros [_ H]; lia].
  - cbv beta iota zeta. do 2 eexists; split; [reflexivity|].
    cbn [security_status st_agent_responses st_requires_emergency appointment_data
         conversation_context append_response fst].
    repeat (split; [reflexivity|]).
    split; [discriminate|intros [[t Ht] _]; discriminate].
Qed.

Lemma intake_fields env req s : exists s2,
  initial_assistance env req s = (s2, Ok tt)
  /\ st_agent_responses s2 = app (st_agent_responses s) [fst (intake_reply env req)]
  /\ st_requires_emergency s2 = st_requires_emergency s
  /\ appointment_data s2 = appointment_data s
  /\ conversation_context s2
     = update_with_assistance (conversation_context s) (snd (intake_reply env req)).
Proof.
  unfold initial_assistance, modify. destruct (intake_reply env req) as [r o].
  eexists; repeat split.
Qed.

Lemma booking_fields env req s : exists s' r,
  appointment_booking env req s = (s', Ok tt)
  /\ st_agent_responses s' = app (st_agent_responses s) [r]
  /\ st_requires_emergency s' = st_requires_emergency s.
Proof.
  unfold appointment_booking. rewrite !gets_bind.
  destruct (invoke _ _ _) as [r o]. do 2 eexists. repeat split.
Qed.

Lemma comorbidity_fields env req s : exists s' r,
  comorbidity_analysis env req s = (s', Ok tt)
  /\ st_agent_responses s' = app (st_agent_responses s) [r]
  /\ st_requires_emergency s' = st_requires_emergency s
  /\ appointment_data s' = appointment_data s.
Proof.
  unfold comorbidity_analysis. rewrite !gets_bind.
  destruct (invoke _ _ _) as [r o]. do 2 eexists. repeat split.
Qed.

Lemma triage_fields env req s : exists s' r,
  triage_assessment env req s = (s', Ok tt)
  /\ st_agent_responses s' = app (st_agent_responses s) [r]
  /\ appointment_data s' = appointment_data s.
Proof.
  unfold triage_assessment. rewrite !gets_bind.
  destruct (invoke _ _ _) as [r o]. do 2 eexists. repeat split.
Qed.

Lemma emergency_fields s : exists s',
  emergency_route s = (s', Ok tt)
  /\ st_agent_responses s' = app (st_agent_responses s) [emergency_entry]
  /\ st_requires_emergency s' = true
  /\ appointment_data s' = appointment_data s
  /\ st_next_steps s' = emergency_next_steps.
Proof. eexists. repeat split. Qed.

Lemma book_and_respond_fields env req s : exists s',
  book_and_respond env req s = (s', Ok (create_response req s'))
  /\ (exists tl, st_agent_responses s' = app (st_agent_responses s) tl)
  /\ st_requires_emergency s' = st_requires_emergency s.
Proof.
  unfold book_and_respond.
  destruct (booking_fields env req s) as [s1 [r [E1 [R1 F1]]]].
  rewrite (bind_ok _ _ _ _ _ E1).
  destruct (finalize_fields s1) as [s2 [E2 [R2 [_ [_ [_ [F2 _]]]]]]].
  rewrite (bind_ok _ _ _ _ _ E2).
  exists s2. split; [reflexivity|]. split; [exists [r]; rewrite R2, R1; reflexivity|].
  rewrite F2, F1. reflexivity.
Qed.

(** What every path after intake ends with: the response is built from the
    final state, the agent responses only grew, an emergency flag comes with
    the emergency route's entry and steps and no booking data, and a turn
    intake calls non-medical keeps the flag down. *)
Lemma after_intake_fields env req s :
  st_requires_emergency s = false -> appointment_data s = no_appointment_data ->
  exists s', after_intake env req s = (s', Ok (create_response req s'))
  /\ (exists tl, st_agent_responses s' = app (st_agent_responses s) tl)
  /\ (st_requires_emergency s' = true ->
      appointment_data s' = no_appointment_data /\ st_next_steps s' = emergency_next_steps
      /\ exists pre, st_agent_responses s' = app pre [emergency_entry])
  /\ (is_non_medical_request s = true -> st_requires_emergency s' = false).
Proof.
  intros Hf Ha. unfold after_intake. rewrite gets_bind.
  destruct (is_non_medical_request s) eqn:Hn.
  { destruct (finalize_fields s) as [s1 [E [R [A [_ [_ [F _]]]]]]].
    rewrite (bind_ok _ _ _ _ _ E). exists s1. split; [reflexivity|].
    split; [exists []; rewrite R, app_nil_r; reflexivity|].
    split; [congruence|]. intros _. congruence. }
  rewrite gets_bind. destruct (is_booking_request_with_context s).
  { destruct (book_and_respond_fields env req s) as [s1 [E [R F]]].
    rewrite E. exists s1. split; [reflexivity|]. split; [exact R|].
    split; [congruence|discriminate]. }
  rewrite gets_bind. destruct (should_route_to_emergency s).
  { destruct (emergency_fields s) as [s1 [E [R [F [A N]]]]].
    rewrite (bind_ok _ _ _ _ _ E). exists s1. split; [reflexivity|].
    split; [eexists; exact R|]. split; [|discriminate].
    intros _. split; [congruence|]. split; [exact N|]. eexists; exact R. }
  unfold triage_and_book. rewrite gets_bind.
  destruct (_ || _)%bool.
  2: { destruct (book_and_respond_fields env req s) as [s1 [E [R F]]].
       rewrite E. exists s1. split; [reflexivity|]. split; [exact R|].
       split; [congruence|discriminate]. }
  destruct (triage_fields env req s) as [s3 [r3 [E3 [R3 A3]]]].
  rewrite (bind_ok _ _ _ _ _ E3), gets_bind.
  destruct (st_requires_emergency s3) eqn:F3.
  { destruct (emergency_fields s3) as [s1 [E [R [F [A N]]]]].
    rewrite (bind_ok _ _ _ _ _ E). exists s1. split; [reflexivity|].
    split; [exists (app [r3] [emergency_entry]); rewrite R, R3, app_assoc; reflexivity|].
    split; [|discriminate].
    intros _. split; [congruence|]. split; [exact N|]. eexists; exact R. }
  rewrite gets_bind.
  assert (Hc : exists s4 tl4, (if needs_comorbidity_analysis s3 then comorbidity_analysis env req
                               else mret tt) s3 = (s4, Ok tt)
                              /\ st_agent_responses s4 = app (st_agent_responses s3) tl4
                              /\ st_requires_emergency s4 = false).
  { destruct (needs_comorbidity_analysis s3).
    - destruct (comorbidity_fields env req s3) as [s4 [r4 [E4 [R4 [F4 _]]]]].
      exists s4, [r4]. split; [exact E4|]. split; [exact R4|congruence].
    - exists s3, []. split; [reflexivity|]. split; [rewrite app_nil_r; reflexivity|exact F3]. }
  destruct Hc as [s4 [tl4 [E4 [R4 F4]]]].
  rewrite (bind_ok _ _ _ _ _ E4).
  destruct (book_and_respond_fields env req s4) as [s1 [E [[tl R] F]]].
  rewrite E. exists s1. split; [reflexivity|].
  split; [exists (app [r3] (app tl4 tl)); rewrite R, R4, R3, <- !app_assoc; reflexivity|].
  split; [congruence|discriminate].
Qed.

(** The two ways a turn that is not a slot resolution goes: blocked after the
    security stage, or through intake and [after_intake]. *)
Lemma nonslot_paths env req sess :
  is_booking_from_previous_slots req sess = false ->
  exists s1 lvl, security_status s1 = Some lvl
  /\ st_agent_responses s1 = [fst (security_reply env req)]
  /\ st_requires_emergency s1 = false
  /\ appointment_data s1 = no_appointment_data
  /\ conversation_context s1 = conversation_context (initial_state sess)
  /\ (lvl = Jailbreak.BLOCK <->
      (exists t, llm env Security = LlmOk t)
      /\ 8 <= Jailbreak.risk_score (Jailbreak.analyze_threats (req_message req)))
  /\ process_body env req sess (initial_state sess)
     = match lvl with
       | Jailbreak.BLOCK => (s1, Ok (create_blocked_response req s1))
       | _ => mbind (initial_assistance env req) (fun _ => after_intake env req) s1
       end.
Proof.
  intros H. unfold process_body. rewrite H.
  destruct (security_fields env req (initial_state sess)) as [s1 [lvl [E [S [R [F [A [C B]]]]]]]].
  exists s1, lvl. rewrite R, F, A, C. split; [exact S|].
  repeat (split; [reflexivity|]). split; [exact B|].
  rewrite (bind_ok _ _ _ _ _ E), gets_bind, S. destruct lvl; reflexivity.
Qed.

(** X6: a turn that is not a slot resolution never ends in the generic error
    response: [process_body] returns normally, the response carries the
    request's session id, and its first agent response is the security
    agent's reply. *)
Theorem nonslot_turn_responds env req sess :
  is_booking_from_previous_slots req sess = false ->
  let resp := fst (process_request env req sess) in
  (exists s, process_body env req sess (initial_state sess) = (s, Ok resp))
  /\ r_session_id resp = session_id req
  /\ exists tl, agent_responses resp = fst (security_reply env req) :: tl.
Proof.
  intros H resp. subst resp.
  destruct (nonslot_paths env req sess H) as [s1 [lvl [_ [R [F [A [_ [_ E]]]]]]]].
  unfold process_request. rewrite E.
  destruct lvl.
  1, 2: destruct (intake_fields env req s1) as [s2 [E2 [R2 [F2 [A2 _]]]]];
        rewrite (bind_ok _ _ _ _ _ E2);
        destruct (after_intake_fields env req s2 ltac:(congruence) ltac:(congruence))
          as [s' [E' [[tl R'] _]]];
        rewrite E'; cbn [fst];
        (split; [eexists; reflexivity|]); (split; [reflexivity|]);
        exists (app [fst (intake_reply env req)] tl); cbn [create_response agent_responses];
        rewrite R', R2, R; reflexivity.
  cbn [fst]. split; [eexists; reflexivity|]. split; [reflexivity|].
  exists []. cbn [create_blocked_response agent_responses]. rewrite R. reflexivity.
Qed.

Lemma nonslot_turn_responds_witness :
  is_booking_from_previous_slots (request "I have a headache") None = false
  /\ r_session_id (fst (process_request env_fail (request "I have a headache") None))
     = session_id (request "I have a headache").
Proof.
  assert (H : is_booking_from_previous_slots (request "I have a headache") None = false)
    by (vm_compute; reflexivity).
  split; [exact H|].
  destruct (nonslot_turn_responds env_fail (request "I have a headache") None H) as [_ [G _]].
  exact G.
Defined.

(** Slot resolution never raises the emergency flag. *)
Lemma slot_booking_calm env req slots r :
  handle_slot_booking env req slots = Ok r -> requires_emergency r = false.
Proof.
  unfold handle_slot_booking.
  destruct (select_slot (Str.lower (req_message req)) slots) as [slot|].
  - destruct (getitem "date" slot); cbn; [|discriminate].
    destruct (getitem "time" slot); cbn; [|discriminate].
    destruct (getitem "doctor" slot); cbn; [|discriminate].
    destruct (getitem "specialty" slot); cbn; [|discriminate].
    intros H. injection H as <-. reflexivity.
  - destruct (clarification_lines 1 slots); cbn; discriminate.
Qed.

(** X7: a response that requires emergency care lists no slots and no
    booking, carries the four emergency next steps, and its last agent
    response is the "Emergency Protocol" entry. *)
Theorem emergency_response_shape env req sess :
  requires_emergency (fst (process_request env req sess)) = true ->
  let resp := fst (process_request env req sess) in
  available_slots resp = [] /\ booking resp = None
  /\ next_steps resp = emergency_next_steps
  /\ exists pre, agent_responses resp = app pre [emergency_entry].
Proof.
  intros Hem resp. subst resp. revert Hem.
  destruct (is_booking_from_previous_slots req sess) eqn:Hs.
  { rewrite (slot_path_request env req sess Hs).
    destruct (handle_slot_booking env req (sess_slots sess)) as [r|e] eqn:Eh;
      cbn [fst]; [|discriminate].
    rewrite (slot_booking_calm env req _ r Eh). discriminate. }
  destruct (nonslot_paths env req sess Hs) as [s1 [lvl [_ [R [F [A [_ [_ E]]]]]]]].
  unfold process_request. rewrite E.
  destruct lvl; [| |discriminate].
  1, 2: destruct (intake_fields env req s1) as [s2 [E2 [R2 [F2 [A2 _]]]]];
        rewrite (bind_ok _ _ _ _ _ E2);
        destruct (after_intake_fields env req s2 ltac:(congruence) ltac:(congruence))
          as [s' [E' [_ [G _]]]];
        rewrite E'; cbn [fst create_response requires_emergency available_slots booking
                         next_steps agent_responses];
        intros Hem; destruct (G Hem) as [G1 [G2 G3]]; rewrite G1, G2;
        repeat (split; [reflexivity|]); exact G3.
Qed.

Lemma emergency_response_shape_witness :
  requires_emergency (fst (process_request env_ok
                             (request "I have severe chest pain and can't breathe") None)) = true
  /\ available_slots (fst (process_request env_ok
                             (request "I have severe chest pain and can't breathe") None)) = [].
Proof.
  assert (H : requires_emergency (fst (process_request env_ok
                (request "I have severe chest pain and can't breathe") None)) = true)
    by (vm_compute; reflexivity).
  split; [exact H|].
  destruct (emergency_response_shape env_ok (request "I have severe chest pain and can't breathe")
              None H) as [G _].
  exact G.
Defined.

(** X8: a turn that is not a slot resolution, whose security call succeeds
    and whose message scores at least 8, is blocked: the response is the
    fixed security message with the security agent's reply as its only
    agent response (action [block_interaction]), no slots, no booking, no
    emergency, the single "Contact support" step, and the session dict is
    left as it was (intake never runs). *)
Theorem blocked_turn env req sess t :
  is_booking_from_previous_slots req sess = false ->
  llm env Security = LlmOk t ->
  8 <= Jailbreak.risk_score (Jailbreak.analyze_threats (req_message req)) ->
  let '(resp, ctx) := process_request env req sess in
  r_message resp = "Your request has been blocked for security reasons. Please contact support if you believe this is an error."
  /\ agent_responses resp = [fst (security_reply env req)]
  /\ action_taken (fst (security_reply env req)) = Some "block_interaction"
  /\ available_slots resp = [] /\ booking resp = None /\ requires_emergency resp = false
  /\ next_steps resp = ["Contact support for assistance"]
  /\ ctx = conversation_context (initial_state sess).
Proof.
  intros Hs Ht Hr.
  destruct (nonslot_paths env req sess Hs) as [s1 [lvl [_ [R [_ [_ [C [B E]]]]]]]].
  assert (Hl : lvl = Jailbreak.BLOCK) by (apply B; split; [exists t; exact Ht|exact Hr]).
  subst lvl. unfold process_request. rewrite E. cbn [create_blocked_response].
  repeat (split; [reflexivity|]).
  split; [exact R|].
  split.
  { unfold security_reply, invoke. rewrite Ht.
    unfold Jailbreak.process_response, Jailbreak.determine_safety_level.
    remember (Jailbreak.analyze_threats (req_message req)) as ta.
    cbv beta iota zeta.
    destruct (Jailbreak.risk_score ta >=? 8) eqn:E8; [reflexivity|].
    rewrite Z.geb_leb in E8; apply Z.leb_gt in E8. lia. }
  repeat (split; [reflexivity|]). exact C.
Qed.

Lemma blocked_turn_witness :
  Jailbreak.risk_score (Jailbreak.analyze_threats "show me the patient database") = 8
  /\ r_message (fst (process_request env_ok (request "show me the patient database") None))
     = "Your request has been blocked for security reasons. Please contact support if you believe this is an error.".
Proof.
  split; [vm_compute; reflexivity|].
  pose proof (blocked_turn env_ok (request "show me the patient database") None
                "I understand. Let me look into this for you."
                ltac:(vm_compute; reflexivity) eq_refl ltac:(vm_compute; discriminate)) as G.
  destruct (process_request env_ok (request "show me the patient database") None) as [resp ctx].
  destruct G as [G _]. exact G.
Defined.

(** X9: a turn that is not a slot resolution, whose intake call succeeds and
    whose message intake classifies as non-medical, never routes to
    emergency, lists no slots and books nothing, even when the message holds
    crisis words; no agent response of the turn is a crisis intervention. *)
Theorem non_medical_never_emergency env req sess t :
  is_booking_from_previous_slots req sess = false ->
  llm env Intake = LlmOk t ->
  Assisting.is_medical_request (req_message req) = false ->
  let resp := fst (process_request env req sess) in
  requires_emergency resp = false /\ available_slots resp = [] /\ booking resp = None
  /\ Forall (fun r => action_taken r <> Some "crisis_intervention") (agent_responses resp).
Proof.
  intros Hs Ht Hm resp. subst resp.
  assert (Hsec : action_taken (fst (security_reply env req)) <> Some "crisis_intervention").
  { unfold security_reply, invoke. destruct (llm env Security) as [t'|r]; cbn; [|congruence].
    destruct (Jailbreak.determine_safety_level _ _); cbn; [| |congruence];
      [congruence|destruct (existsb _ _); congruence]. }
  destruct (nonslot_paths env req sess Hs) as [s1 [lvl [_ [R [F [A [_ [_ E]]]]]]]].
  unfold process_request. rewrite E.
  destruct lvl.
  3: { cbn. split; [reflexivity|]. split; [reflexivity|]. split; [reflexivity|].
       rewrite R. constructor; [exact Hsec|constructor]. }
  1, 2: destruct (intake_fields env req s1) as [s2 [E2 [R2 [F2 [A2 C2]]]]];
        rewrite (bind_ok _ _ _ _ _ E2);
        destruct (after_intake_fields env req s2 ltac:(congruence) ltac:(congruence))
          as [s' [E' [_ [_ G]]]];
        assert (Hi : intake_reply env req
                     = ({| agent_name := Assisting.name;
                           message := Assisting.generate_polite_redirect
                                        (Assisting.classify_non_medical_request (req_message req));
                           action_taken := Some "non_medical_redirect" |},
                        Done (Assisting.NonMedical
                                (Assisting.classify_non_medical_request (req_message req)))))
          by (unfold intake_reply, invoke; rewrite Ht; unfold Assisting.process_response;
              rewrite Hm; reflexivity);
        assert (Hn : is_non_medical_request s2 = true)
          by (unfold is_non_medical_request; rewrite C2, Hi; reflexivity);
        assert (Hfin : after_intake env req s2
                       = mbind finalize_response (fun _ => gets (create_response req)) s2)
          by (unfold after_intake; rewrite gets_bind, Hn; reflexivity);
        destruct (finalize_fields s2) as [s3 [E3 [R3 [A3 [_ [_ [F3 _]]]]]]];
        rewrite Hfin, (bind_ok _ _ _ _ _ E3); cbn [fst create_response gets
          requires_emergency available_slots booking agent_responses];
        rewrite F3, A3, A2, A, F2, F, R3, R2, R, Hi;
        (split; [reflexivity|]); (split; [reflexivity|]); (split; [reflexivity|]);
        constructor; [exact Hsec|constructor; [cbn; congruence|constructor]].
Qed.

Lemma non_medical_never_emergency_witness :
  Assisting.detect_crisis_indicators "life isn't worth it" = ["suicidal_ideation"]
  /\ requires_emergency (fst (process_request env_ok (request "life isn't worth it") None)) = false.
Proof.
  split; [vm_compute; reflexivity|].
  destruct (non_medical_never_emergency env_ok (request "life isn't worth it") None
              "I understand. Let me look into this for you."
              ltac:(vm_compute; reflexivity) eq_refl ltac:(vm_compute; reflexivity)) as [G _].
  exact G.
Defined.

(** ** The security classifier *)

Lemma sum_ge_member (l : list Z) x :
  Forall (fun y => 0 <= y) l -> In x l -> x <= fold_right Z.add 0 l.
Proof.
  induction 1 as [|y l Hy Hl IH]; cbn; [intros []|].
  intros [<-|Hin]; [|specialize (IH Hin)].
  - assert (0 <= fold_right Z.add 0 l).
    { clear -Hl. induction Hl; cbn; lia. }
    lia.
  - lia.
Qed.

Lemma threat_score_sum msg :
  Jailbreak.risk_score (Jailbreak.analyze_threats msg)
  = fold_right Z.add 0
      (flat_map (fun cp => map (fun pat => if Re.search_pieces pat (Str.lower msg)
                                           then Jailbreak.get_threat_severity (fst cp) else 0)
                               (snd cp)) Jailbreak.threat_patterns).
Proof. unfold Jailbreak.analyze_threats. rewrite analyze_categories_score. reflexivity. Qed.

(** X10: one match of a data-extraction or medical-fraud pattern in the
    lower-cased message is enough to block: the level is [BLOCK], the action
    [block_interaction], whatever the completion text. *)
Theorem single_severe_pattern_blocks t message c pats pat :
  In (c, pats) Jailbreak.threat_patterns ->
  c = Jailbreak.data_extraction \/ c = Jailbreak.medical_fraud ->
  In pat pats ->
  Re.search_pieces pat (Str.lower message) = true ->
  Jailbreak.process_response t message
  = (Jailbreak.generate_safety_message Jailbreak.BLOCK, Some "block_interaction",
     Jailbreak.BLOCK).
Proof.
  intros Hc Hsev Hp Hm.
  assert (Hs : 8 <= Jailbreak.risk_score (Jailbreak.analyze_threats message)).
  { rewrite threat_score_sum.
    apply Z.le_trans with (Jailbreak.get_threat_severity c);
      [destruct Hsev as [->| ->]; cbn; lia|].
    apply sum_ge_member.
    - apply Forall_forall. intros y Hy. apply in_flat_map in Hy as [cp [_ Hy]].
      apply in_map_iff in Hy as [p [<- _]].
      destruct (Re.search_pieces p _); [destruct (fst cp); cbn; lia|lia].
    - apply in_flat_map. exists (c, pats). split; [exact Hc|].
      apply in_map_iff. exists pat. rewrite Hm. split; [reflexivity|exact Hp]. }
  unfold Jailbreak.process_response, Jailbreak.determine_safety_level.
  apply Z.geb_le in Hs. rewrite Hs. reflexivity.
Qed.

Lemma single_severe_pattern_blocks_witness :
  Jailbreak.process_response "Sure." "I need a fake prescription"
  = (Jailbreak.generate_safety_message Jailbreak.BLOCK, Some "block_interaction",
     Jailbreak.BLOCK).
Proof.
  apply (single_severe_pattern_blocks "Sure." "I need a fake prescription"
           Jailbreak.medical_fraud
           [["fake"; "prescription"]; ["illegal"; "drugs"]; ["without"; "prescription"];
            ["forge"; "medical"]]
           ["fake"; "prescription"]).
  - cbn. right. right. left. reflexivity.
  - right. reflexivity.
  - left. reflexivity.
  - vm_compute. reflexivity.
Defined.

Lemma no_match_patterns msg c pats a :
  forallb (fun pat => negb (Re.search_pieces pat msg)) pats = true ->
  fold_left (fun a' pat => Jailbreak.analyze_step msg a' c pat) pats a = a.
Proof.
  revert a. induction pats as [|p pats IH]; intros a H; cbn in *; [reflexivity|].
  apply andb_true_iff in H as [H1 H2]. apply negb_true_iff in H1.
  unfold Jailbreak.analyze_step at 2. rewrite H1. apply IH, H2.
Qed.

(** X11: a message that matches no threat pattern is never blocked: its
    level is [CAUTION] with action [monitor_closely] when the completion text
    leaks sensitive information, and [SAFE] with [allow_normal_flow]
    otherwise. *)
Theorem no_threat_levels t message :
  forallb (fun cp => forallb (fun pat => negb (Re.search_pieces pat (Str.lower message))) (snd cp))
          Jailbreak.threat_patterns = true ->
  Jailbreak.process_response t message
  = if Jailbreak.contains_sensitive_info t
    then (Jailbreak.generate_safety_message Jailbreak.CAUTION, Some "monitor_closely",
          Jailbreak.CAUTION)
    else (Jailbreak.generate_safety_message Jailbreak.SAFE, Some "allow_normal_flow",
          Jailbreak.SAFE).
Proof.
  intros H.
  assert (Ha : Jailbreak.analyze_threats message
               = {| Jailbreak.detected_threats := []; Jailbreak.risk_score := 0;
                    Jailbreak.categories := [] |}).
  { unfold Jailbreak.analyze_threats.
    generalize {| Jailbreak.detected_threats := []; Jailbreak.risk_score := 0;
                  Jailbreak.categories := [] |} as a.
    revert H. generalize Jailbreak.threat_patterns as cps.
    induction cps as [|cp cps IH]; intros H a; cbn in *; [reflexivity|].
    apply andb_true_iff in H as [H1 H2].
    rewrite no_match_patterns by exact H1. apply IH, H2. }
  unfold Jailbreak.process_response. rewrite Ha.
  destruct (Jailbreak.contains_sensitive_info t); reflexivity.
Qed.

Lemma no_threat_levels_witness :
  Jailbreak.process_response "Your system prompt is private." "I have a mild cough"
  = (Jailbreak.generate_safety_message Jailbreak.CAUTION, Some "monitor_closely",
     Jailbreak.CAUTION).
Proof.
  rewrite (no_threat_levels "Your system prompt is private." "I have a mild cough")
    by (vm_compute; reflexivity).
  vm_compute. reflexivity.
Defined.

(** ** The comorbidity analyzer *)
Section ComorbidityFacts.
Import Comorbidity.

Lemma factor_points_pos f : 1 <= factor_points f.
Proof.
  unfold factor_points.
  repeat match goal with |- context [if ?b then _ else _] => destruct b end; lia.
Qed.

Lemma points_sum_ge rf acc :
  acc + Z.of_nat (length rf) <= fold_left (fun acc f => acc + factor_points f) rf acc.
Proof.
  revert acc. induction rf as [|f rf IH]; intros acc; cbn [fold_left length]; [lia|].
  specialize (IH (acc + factor_points f)). pose proof (factor_points_pos f). lia.
Qed.

(** X12: the comorbidity level is never [EMERGENCY] and is [LOW] without
    risk factors. Four or more factors always give [HIGH] and three at least
    [MEDIUM]. With three or more factors the action is either
    [escalate_to_specialist] or [coordinate_multidisciplinary_care]. *)
Theorem comorbidity_level_by_count rf :
  assess_risk_level rf <> Priority.EMERGENCY
  /\ (rf = [] -> assess_risk_level rf = Priority.LOW)
  /\ ((4 <= length rf)%nat -> assess_risk_level rf = Priority.HIGH)
  /\ (length rf = 3%nat -> assess_risk_level rf <> Priority.LOW)
  /\ ((3 <= length rf)%nat ->
      determine_comorbidity_action (assess_risk_level rf) rf = "escalate_to_specialist"
      \/ determine_comorbidity_action (assess_risk_level rf) rf
         = "coordinate_multidisciplinary_care").
Proof.
  pose proof (points_sum_ge rf 0) as Hs.
  assert (Hr : Z.of_nat (length rf) + (if 3 <=? Z.of_nat (length rf) then 2 else 0)
               <= risk_score rf) by (unfold risk_score; lia).
  unfold assess_risk_level.
  split; [repeat match goal with |- context [if ?b then _ else _] => destruct b end;
          discriminate|].
  split; [intros ->; reflexivity|].
  split.
  { intros H4. destruct (3 <=? Z.of_nat (length rf)) eqn:E; [|apply Z.leb_gt in E; lia].
    destruct (6 <=? risk_score rf) eqn:E6; [reflexivity|apply Z.leb_gt in E6; lia]. }
  split.
  { intros H3. rewrite H3 in Hr. cbn in Hr.
    destruct (6 <=? risk_score rf); [discriminate|].
    destruct (3 <=? risk_score rf) eqn:E3; [discriminate|apply Z.leb_gt in E3; lia]. }
  intros H3. unfold determine_comorbidity_action.
  destruct (6 <=? risk_score rf); [left; reflexivity|right].
  assert (E : Nat.leb 3 (length rf) = true) by (apply Nat.leb_le; exact H3).
  destruct (3 <=? risk_score rf); [|destruct (1 <=? risk_score rf)]; rewrite E; reflexivity.
Qed.

(** X13: drug-interaction warnings come only from warfarin with a
    diabetes-related factor and from insulin with a kidney-related factor:
    the list is the warfarin warning (if "warfarin" is in the message and a
    factor mentions diabetes) followed by the insulin warning (if "insulin"
    is in the message and a factor mentions kidney), and nothing else. *)
Theorem drug_interactions_closed_form message rf :
  check_drug_interactions message rf
  = app (if Str.contains "warfarin" (Str.lower message) && any_factor_has "diabetes" rf then
           [{| ia_drug := "warfarin";
               ia_risk := "Blood sugar medications may affect warfarin effectiveness";
               ia_recommendation := "Monitor INR levels closely" |}]
         else [])
        (if Str.contains "insulin" (Str.lower message) && any_factor_has "kidney" rf then
           [{| ia_drug := "insulin";
               ia_risk := "Kidney disease may affect insulin clearance";
               ia_recommendation := "Adjust insulin dosing with physician guidance" |}]
         else []).
Proof.
  unfold check_drug_interactions, high_interaction_drugs. cbn [filter].
  destruct (Str.contains "warfarin" (Str.lower message)), (Str.contains "blood thinner" (Str.lower message)),
    (Str.contains "insulin" (Str.lower message)), (Str.contains "metformin" (Str.lower message)),
    (Str.contains "lithium" (Str.lower message)), (Str.contains "digoxin" (Str.lower message)),
    (Str.contains "phenytoin" (Str.lower message)), (Str.contains "theophylline" (Str.lower message));
  cbn [flat_map andb app];
  destruct (any_factor_has "diabetes" rf), (any_factor_has "kidney" rf); reflexivity.
Qed.

Lemma in_dedup x l : In x l -> In x (dedup l).
Proof.
  induction l as [|y l IH]; cbn; [intros []|].
  intros [<-|Hin]; [left; reflexivity|].
  destruct (String.eqb y x) eqn:E; [left; apply String.eqb_eq, E|].
  right. apply filter_In. split; [apply IH, Hin|]. rewrite E. reflexivity.
Qed.

Lemma any_factor_has_in w f rf : In f rf -> Str.contains w f = true -> any_factor_has w rf = true.
Proof. intros Hin Hc. apply existsb_exists. exists f. split; assumption. Qed.

Lemma hits_in (l : list string) (g : string -> string) k m :
  In k l -> Str.contains k m = true -> In (g k) (map g (filter (fun c => Str.contains c m) l)).
Proof. intros Hk Hc. apply in_map, filter_In. split; assumption. Qed.

(** X14: a cardiovascular keyword in the message always brings a Cardiology
    referral and blood-pressure monitoring, and a respiratory keyword a
    Pulmonology referral and oxygen-saturation monitoring, whatever the
    medical history. *)
Theorem keyword_referrals message mh k :
  Str.contains k (Str.lower message) = true ->
  let rf := extract_risk_factors message mh in
  (In k cardiovascular_risks ->
     In "Cardiology" (get_specialist_referrals rf)
     /\ In "Blood pressure" (get_monitoring_requirements rf))
  /\ (In k respiratory_risks ->
     In "Pulmonology" (get_specialist_referrals rf)
     /\ In "Oxygen saturation" (get_monitoring_requirements rf)).
Proof.
  intros Hc rf. split; intros Hk.
  - assert (Ha : any_factor_has "cardiovascular" rf = true).
    { apply (any_factor_has_in _ ("cardiovascular (" ++ k ++ ")")); [|reflexivity].
      apply in_dedup. do 3 (apply in_or_app; right). apply in_or_app; left.
      apply (hits_in cardiovascular_risks (fun c => "cardiovascular (" ++ c ++ ")")); assumption. }
    unfold get_specialist_referrals, get_monitoring_requirements. rewrite Ha.
    split; left; reflexivity.
  - assert (Ha : any_factor_has "respiratory" rf = true).
    { apply (any_factor_has_in _ ("respiratory (" ++ k ++ ")")); [|reflexivity].
      apply in_dedup. do 4 (apply in_or_app; right). apply in_or_app; left.
      apply (hits_in respiratory_risks (fun c => "respiratory (" ++ c ++ ")")); assumption. }
    unfold get_specialist_referrals, get_monitoring_requirements. rewrite Ha.
    split; apply in_or_app; right; left; reflexivity.
Qed.

Lemma keyword_referrals_witness :
  In "Pulmonology"
     (get_specialist_referrals (extract_risk_factors "I use an inhaler for my asthma" [])).
Proof.
  destruct (keyword_referrals "I use an inhaler for my asthma" [] "inhaler"
              ltac:(vm_compute; reflexivity)) as [_ H].
  destruct (H ltac:(cbn; tauto)) as [G _]. exact G.
Defined.

End ComorbidityFacts.

(** ** The slot engine *)
Section SlotEngine.
Import Booker.

Lemma in_firstn_l {A} n (l : list A) x : In x (firstn n l) -> In x l.
Proof. intros H. rewrite <- (firstn_skipn n l). apply in_or_app. left. exact H. Qed.

Lemma found_candidate today rq s :
  In s (find_available_slots today rq) -> In s (candidate_slots today rq).
Proof.
  intros H. apply (Permutation_in _ (sort_slots_perm _)). apply (in_firstn_l 10). exact H.
Qed.

Lemma in_slots_over_days s base n ds keep gen :
  In s (slots_over_days base n ds keep gen) ->
  exists i d, (i < n)%nat /\ In d ds /\ keep i d = true /\ In s (gen (base + Z.of_nat i) d).
Proof.
  unfold slots_over_days. intros H.
  apply in_flat_map in H as [i [Hi H]]. apply in_flat_map in H as [d [Hd H]].
  destruct (keep i d) eqn:Ek; [|destruct H].
  apply in_seq in Hi. exists i, d. repeat split; auto. lia.
Qed.

Lemma in_day_slots s day d sp em :
  In s (generate_slots_for_day day d sp em) ->
  date s = Cal.strftime_ymd day /\ In (time s) (if em then emergency_times else regular_times)
  /\ doctor s = d /\ specialty s = Str.title (Str.replace "_" " " sp) /\ available s = true.
Proof.
  unfold generate_slots_for_day. intros H. apply in_map_iff in H as [t [<- Ht]].
  cbn. repeat split; auto.
Qed.

Lemma slot_shape_gen today rq s :
  In s (find_available_slots today rq) ->
  available s = true
  /\ In (doctor s) (roster (rq_specialty rq))
  /\ specialty s = Str.title (Str.replace "_" " " (rq_specialty rq))
  /\ exists i, date s = Cal.strftime_ymd (today + Z.of_nat i)
     /\ match rq_priority rq with
        | Priority.EMERGENCY =>
            In (time s) emergency_times
            /\ (i = 0%nat \/ (i = 1%nat /\ available_24_7 (doctor s) = true))
        | Priority.HIGH => In (time s) regular_times /\ (i < 3)%nat
        | Priority.MEDIUM =>
            In (time s) regular_times /\ (i < 7)%nat /\ Cal.weekday (today + Z.of_nat i) < 5
        | Priority.LOW =>
            In (time s) regular_times /\ (i < 14)%nat /\ Cal.weekday (today + Z.of_nat i) < 5
        end.
Proof.
  intros H. apply found_candidate, candidate_incl in H. unfold generated_slots in H.
  destruct (rq_priority rq);
    apply in_slots_over_days in H as [i [d [Hi [Hd [Hk Hs]]]]];
    apply in_day_slots in Hs as [D [T [Doc [Sp Av]]]]; subst d;
    (split; [exact Av|]); (split; [exact Hd|]); (split; [exact Sp|]);
    exists i; (split; [exact D|]); cbv beta iota in T, Hk.
  - split; [exact T|]. split; [exact Hi|]. apply Z.ltb_lt, Hk.
  - split; [exact T|]. split; [exact Hi|]. apply Z.ltb_lt, Hk.
  - split; [exact T|exact Hi].
  - split; [exact T|].
    destruct i as [|[|i]]; [left; reflexivity| |lia].
    right. split; [reflexivity|]. rewrite orb_false_r in Hk. exact Hk.
Qed.

(** X15: every slot [find_available_slots] offers is available, is with a
    doctor of the specialty's roster (the general-practice roster when the
    specialty has none), is labelled with the title-cased specialty, and
    falls on the i-th day from today: at an emergency time on day 0, or on
    day 1 with a 24/7 doctor, for [EMERGENCY]; at a regular time within 3
    days for [HIGH]; at a regular time on a weekday within 7 days for
    [MEDIUM] and within 14 days for [LOW]. *)
Theorem offered_slot_shape today rq s :
  In s (find_available_slots today rq) ->
  available s = true
  /\ In (doctor s) (roster (rq_specialty rq))
  /\ specialty s = Str.title (Str.replace "_" " " (rq_specialty rq))
  /\ exists i, date s = Cal.strftime_ymd (today + Z.of_nat i)
     /\ match rq_priority rq with
        | Priority.EMERGENCY =>
            In (time s) emergency_times
            /\ (i = 0%nat \/ (i = 1%nat /\ available_24_7 (doctor s) = true))
        | Priority.HIGH => In (time s) regular_times /\ (i < 3)%nat
        | Priority.MEDIUM =>
            In (time s) regular_times /\ (i < 7)%nat /\ Cal.weekday (today + Z.of_nat i) < 5
        | Priority.LOW =>
            In (time s) regular_times /\ (i < 14)%nat /\ Cal.weekday (today + Z.of_nat i) < 5
        end.
Proof. exact (slot_shape_gen today rq s). Qed.

Lemma offered_slot_shape_witness :
  let s := {| date := Cal.strftime_ymd 20000; time := "1:00 PM"; doctor := "Dr. Sarah Johnson";
              specialty := "General Practice"; available := true |} in
  In s (find_available_slots 20000 low_gp_requirements)
  /\ In (doctor s) (roster (rq_specialty low_gp_requirements)).
Proof.
  intros s.
  assert (H : In s (find_available_slots 20000 low_gp_requirements))
    by (vm_compute; repeat (first [left; reflexivity|right])).
  split; [exact H|].
  exact (proj1 (proj2 (offered_slot_shape 20000 low_gp_requirements s H))).
Defined.

Lemma find_none_existsb {A} (f : A -> bool) l : existsb f l = false -> find f l = None.
Proof.
  induction l as [|x l IH]; cbn; [reflexivity|].
  destruct (f x); [discriminate|exact IH].
Qed.

Lemma roster_unlisted sp :
  has_roster sp = false ->
  roster sp = ["Dr. Sarah Johnson"; "Dr. Michael Chen"; "Dr. Emily Rodriguez"].
Proof. intros H. unfold roster. rewrite (find_none_existsb _ _ H). reflexivity. Qed.

Lemma triage_specialty_range syms m :
  In (Triage.determine_specialty syms m)
     ["cardiology"; "pulmonology"; "dermatology"; "orthopedics"; "neurology";
      "ophthalmology"; "otolaryngology"; "general_practice"].
Proof.
  unfold Triage.determine_specialty.
  destruct (find _ Triage.specialty_mapping) as [[k v]|] eqn:E.
  - apply find_some in E as [Hin _]. cbn in Hin.
    repeat (destruct Hin as [Hin|Hin]; [injection Hin as _ <-; cbn; tauto|]). destruct Hin.
  - repeat match goal with |- context [if ?b then _ else _] => destruct b end; cbn; tauto.
Qed.

(** X16: the specialty triage names has no doctor roster in the booker
    exactly when it is dermatology, orthopedics, ophthalmology or
    otolaryngology; for those, every offered slot is with one of the three
    general-practice doctors while its specialty label still reads the
    requested specialty, title-cased. *)
Theorem unrostered_triage_specialty syms m :
  let sp := Triage.determine_specialty syms m in
  (has_roster sp = false
   <-> In sp ["dermatology"; "orthopedics"; "ophthalmology"; "otolaryngology"])
  /\ (has_roster sp = false ->
      forall today rq s, rq_specialty rq = sp -> In s (find_available_slots today rq) ->
      In (doctor s) ["Dr. Sarah Johnson"; "Dr. Michael Chen"; "Dr. Emily Rodriguez"]
      /\ specialty s = Str.title sp).
Proof.
  intros sp.
  assert (Hr : In sp ["cardiology"; "pulmonology"; "dermatology"; "orthopedics"; "neurology";
                      "ophthalmology"; "otolaryngology"; "general_practice"])
    by apply triage_specialty_range.
  assert (Hiff : has_roster sp = false
                 <-> In sp ["dermatology"; "orthopedics"; "ophthalmology"; "otolaryngology"]).
  { clearbody sp. cbn in Hr.
    repeat (destruct Hr as [<-|Hr]; [vm_compute; firstorder (try discriminate; try congruence)|]).
    destruct Hr. }
  split; [exact Hiff|].
  intros Hn today rq s Hsp Hs.
  destruct (slot_shape_gen today rq s Hs) as [_ [Hd [Hl _]]].
  rewrite Hsp, (roster_unlisted _ Hn) in Hd. split; [exact Hd|].
  rewrite Hl, Hsp. apply Hiff in Hn. clearbody sp.
  cbn in Hn. repeat (destruct Hn as [<-|Hn]; [vm_compute; reflexivity|]). destruct Hn.
Qed.

Lemma filter_none {A} (f : A -> bool) l : (forall x, In x l -> f x = false) -> filter f l = [].
Proof.
  induction l as [|x l IH]; intros H; cbn; [reflexivity|].
  rewrite (H x (or_introl eq_refl)). apply IH. intros y Hy. apply H. right. exact Hy.
Qed.

Lemma generated_times base sp pr s :
  In s (generated_slots base sp pr) -> In (time s) (app emergency_times regular_times).
Proof.
  unfold generated_slots. intros H.
  destruct pr; apply in_slots_over_days in H as [i [d [_ [_ [_ Hs]]]]];
    apply in_day_slots in Hs as [_ [T _]]; cbv beta iota in T;
    apply in_or_app; [right|right|right|left]; exact T.
Qed.

Lemma dated_times today rq s :
  In s (match rq_preferred_date rq with
        | Some p => filter_by_date_preference today
                      (generated_slots today (rq_specialty rq) (rq_priority rq)) p
        | None => generated_slots today (rq_specialty rq) (rq_priority rq)
        end) ->
  In (time s) (app emergency_times regular_times).
Proof.
  intros H. apply (generated_times today (rq_specialty rq) (rq_priority rq)).
  destruct (rq_preferred_date rq); [apply date_preference_incl in H|]; exact H.
Qed.

(** X17: a time preference of "evening" always leaves no slot (no generated
    time is at 5 PM or later); with "afternoon" every offered slot is at
    1:00, 2:00, 2:30, 3:00 or 4:00 PM; with "morning" every offered time
    is an AM time. *)
Theorem time_preference_outcome today rq :
  (rq_preferred_time rq = Some "evening" -> find_available_slots today rq = [])
  /\ (rq_preferred_time rq = Some "afternoon" ->
      forall s, In s (find_available_slots today rq) ->
      In (time s) ["1:00 PM"; "2:00 PM"; "2:30 PM"; "3:00 PM"; "4:00 PM"])
  /\ (rq_preferred_time rq = Some "morning" ->
      forall s, In s (find_available_slots today rq) -> Str.contains "AM" (time s) = true).
Proof.
  split; [|split].
  - intros Hp. unfold find_available_slots.
    replace (candidate_slots today rq) with (@nil AppointmentSlot); [reflexivity|].
    symmetry. unfold candidate_slots. rewrite Hp. cbv zeta.
    unfold filter_by_time_preference. cbn [String.eqb Ascii.eqb Bool.eqb andb].
    apply filter_none. intros x Hx. apply dated_times in Hx.
    generalize dependent (time x). intros t Ht. cbn in Ht.
    repeat (destruct Ht as [<-|Ht]; [vm_compute; reflexivity|]). destruct Ht.
  - intros Hp s Hs. apply found_candidate in Hs. unfold candidate_slots in Hs.
    rewrite Hp in Hs. cbv zeta in Hs.
    unfold filter_by_time_preference in Hs. cbn [String.eqb Ascii.eqb Bool.eqb andb] in Hs.
    apply filter_In in Hs as [Hs Hf]. apply dated_times in Hs.
    generalize dependent (time s). intros t Ht Hf. cbn in Ht.
    repeat (destruct Ht as [<-|Ht];
            [first [vm_compute in Hf; discriminate Hf | cbn; tauto]|]).
    destruct Ht.
  - intros Hp s Hs. apply found_candidate in Hs. unfold candidate_slots in Hs.
    rewrite Hp in Hs. cbv zeta in Hs.
    unfold filter_by_time_preference in Hs. cbn [String.eqb Ascii.eqb Bool.eqb andb] in Hs.
    apply filter_In in Hs as [_ Hf]. exact Hf.
Qed.

(** X18: a request whose message says "emergency", "urgent" or "asap", or
    whose symptom analysis flags urgency, gets [EMERGENCY] priority, and then
    every offered slot is at an emergency time, today, or tomorrow with a
    24/7 doctor. *)
Theorem urgent_request_slots today m sa uuid :
  Str.any_in ["emergency"; "urgent"; "asap"] (Str.lower m) = true
  \/ (exists a, sa = Some a /\ urgency a = true) ->
  let rq := extract_booking_requirements m sa uuid in
  rq_priority rq = Priority.EMERGENCY
  /\ forall s, In s (find_available_slots today rq) ->
     In (time s) emergency_times
     /\ (date s = Cal.strftime_ymd today
         \/ (date s = Cal.strftime_ymd (today + 1) /\ available_24_7 (doctor s) = true)).
Proof.
  intros H rq.
  assert (Hp : rq_priority rq = Priority.EMERGENCY).
  { subst rq. unfold extract_booking_requirements.
    destruct (Str.any_in ["emergency"; "urgent"; "asap"] (Str.lower m)) eqn:Ea.
    - destruct sa as [a|]; [destruct (urgency a)|]; reflexivity.
    - destruct H as [H|[a [-> Hu]]]; [discriminate|]. rewrite Hu.
      cbv beta iota zeta.
      repeat match goal with |- context [if ?b then _ else _] => destruct b end; reflexivity. }
  split; [exact Hp|].
  intros s Hs. destruct (slot_shape_gen today rq s Hs) as [_ [_ [_ [i [Hd Hm]]]]].
  rewrite Hp in Hm. destruct Hm as [Ht [->|[-> Ha]]]; (split; [exact Ht|]).
  - left. rewrite Hd. f_equal. lia.
  - right. split; [rewrite Hd; reflexivity|exact Ha].
Qed.

Lemma urgent_request_slots_witness :
  rq_priority (extract_booking_requirements "I need an urgent appointment" None "3f2a9c1b")
  = Priority.EMERGENCY.
Proof.
  apply (urgent_request_slots 20000 "I need an urgent appointment" None "3f2a9c1b").
  left. vm_compute. reflexivity.
Defined.

Lemma weekday_shift base i :
  Cal.weekday (base + Z.of_nat i) = (Cal.weekday base + Z.of_nat i) mod 7.
Proof. unfold Cal.weekday. rewrite Zplus_mod_idemp_l. f_equal. lia. Qed.

Lemma day_slots_length day d sp em :
  length (generate_slots_for_day day d sp em) = if em then 10%nat else 7%nat.
Proof. unfold generate_slots_for_day. rewrite length_map. destruct em; reflexivity. Qed.

Lemma weekday_days_length base n ds sp :
  length (slots_over_days base n ds (fun i _ => Cal.weekday (base + Z.of_nat i) <? 5)
            (fun day d => generate_slots_for_day day d sp false))
  = list_sum (map (fun i => if (Cal.weekday base + Z.of_nat i) mod 7 <? 5
                            then (length ds * 7)%nat else 0%nat) (seq 0 n)).
Proof.
  unfold slots_over_days. rewrite length_flat_map. f_equal. apply map_ext. intros i.
  rewrite weekday_shift. destruct ((Cal.weekday base + Z.of_nat i) mod 7 <? 5).
  - apply flat_map_constant_length. intros d _. apply day_slots_length.
  - rewrite (flat_map_constant_length (c := 0%nat)); [lia|]. reflexivity.
Qed.

Lemma roster_nonempty sp : (1 <= length (roster sp))%nat.
Proof.
  unfold roster. destruct (find _ available_doctors) as [[k ds]|] eqn:E; [|cbn; lia].
  apply find_some in E as [Hin _]. cbn in Hin.
  repeat (destruct Hin as [Hin|Hin]; [injection Hin as _ <-; cbn; lia|]). destruct Hin.
Qed.

Lemma flat_map_length_ge {A B} (f : A -> list B) l x :
  In x l -> (length (f x) <= length (flat_map f l))%nat.
Proof.
  intros Hx. induction l as [|y l IH]; [destruct Hx|].
  cbn [flat_map]. rewrite length_app.
  destruct Hx as [->|Hx]; [lia|]. specialize (IH Hx). lia.
Qed.

Lemma generated_length_ge base sp pr : (10 <= length (generated_slots base sp pr))%nat.
Proof.
  pose proof (roster_nonempty sp) as Hn.
  assert (Hb : 0 <= Cal.weekday base < 7) by (unfold Cal.weekday; apply Z.mod_pos_bound; lia).
  unfold generated_slots. destruct pr.
  - rewrite weekday_days_length.
    assert (Hc : Cal.weekday base = 0 \/ Cal.weekday base = 1 \/ Cal.weekday base = 2
                 \/ Cal.weekday base = 3 \/ Cal.weekday base = 4 \/ Cal.weekday base = 5
                 \/ Cal.weekday base = 6) by lia.
    repeat destruct Hc as [Hc|Hc]; rewrite Hc; cbn -[Nat.mul]; lia.
  - rewrite weekday_days_length.
    assert (Hc : Cal.weekday base = 0 \/ Cal.weekday base = 1 \/ Cal.weekday base = 2
                 \/ Cal.weekday base = 3 \/ Cal.weekday base = 4 \/ Cal.weekday base = 5
                 \/ Cal.weekday base = 6) by lia.
    repeat destruct Hc as [Hc|Hc]; rewrite Hc; cbn -[Nat.mul]; lia.
  - unfold slots_over_days.
    rewrite (flat_map_constant_length (c := (length (roster sp) * 7)%nat)).
    + cbn [length seq]. lia.
    + intros i _. apply flat_map_constant_length. intros d _. apply day_slots_length.
  - unfold slots_over_days.
    destruct (roster sp) as [|d ds] eqn:Er; [cbn in Hn; lia|].
    eapply Nat.le_trans;
      [|apply (flat_map_length_ge _ _ 0%nat); apply in_seq; lia].
    eapply Nat.le_trans;
      [|apply (flat_map_length_ge _ _ d); left; reflexivity].
    cbn [Nat.eqb orb]. rewrite orb_true_r, day_slots_length. lia.
Qed.

(** X19: without a date or a time preference the booker always offers
    exactly 10 slots (the cap), whatever the date, the priority and the
    specialty. *)
Theorem ten_slots_without_preferences today rq :
  rq_preferred_date rq = None -> rq_preferred_time rq = None ->
  length (find_available_slots today rq) = 10%nat.
Proof.
  intros Hd Ht. unfold find_available_slots, candidate_slots. rewrite Hd, Ht. cbv zeta.
  rewrite length_firstn, (Permutation_length (sort_slots_perm _)).
  pose proof (generated_length_ge today (rq_specialty rq) (rq_priority rq)). lia.
Qed.

Lemma ten_slots_without_preferences_witness :
  length (find_available_slots 20000 low_gp_requirements) = 10%nat.
Proof. apply ten_slots_without_preferences; reflexivity. Defined.

End SlotEngine.

Section TriageIntake.

Lemma dedup_incl x l : In x (dedup l) -> In x l.
Proof.
  induction l as [|y l IH]; cbn; [tauto|].
  intros [<-|H]; [left; reflexivity|].
  apply filter_In in H as [H _]. right. exact (IH H).
Qed.

Lemma dedup_nodup l : NoDup (dedup l).
Proof.
  induction l as [|y l IH]; cbn; [constructor|].
  constructor.
  - intros H. apply filter_In in H as [_ H].
    rewrite String.eqb_refl in H. discriminate.
  - apply NoDup_filter. exact IH.
Qed.

(** X21: the symptoms triage extracts hold no duplicate, and are exactly
    the symptom keywords found in the lower-cased message together with the
    symptoms of the context's [extracted_info]. *)
Theorem extracted_symptoms_set m ctx :
  NoDup (Triage.extract_symptoms m ctx)
  /\ forall x, In x (Triage.extract_symptoms m ctx) <->
     (In x Triage.symptom_keywords /\ Str.contains x (Str.lower m) = true)
     \/ (exists ei, extracted_info ctx = Some ei /\ In x (ei_symptoms ei)).
Proof.
  unfold Triage.extract_symptoms. split; [apply dedup_nodup|]. intros x. split.
  - intros H. apply dedup_incl, in_app_or in H as [H|H]; [left; apply filter_In in H; exact H|right].
    destruct (extracted_info ctx) as [ei|]; [exists ei; split; [reflexivity|exact H]|destruct H].
  - intros H. apply in_dedup, in_or_app.
    destruct H as [H|[ei [E H]]]; [left; apply filter_In; exact H|right; rewrite E; exact H].
Qed.

(** X22: triage escalates to emergency exactly when its priority is
    [EMERGENCY] or its emergency indicators fire, and its urgency flag is
    that indicator; a message naming an emergency symptom always escalates;
    the specialty it reports is always one of eight. *)
Theorem triage_outcome t m ctx :
  let '(msg, act, (sa, em)) := Triage.process_response t m ctx in
  urgency sa = em
  /\ (act = Some "escalate_to_emergency" <-> severity sa = Priority.EMERGENCY \/ em = true)
  /\ (Str.any_in Triage.emergency_symptoms (Str.lower m) = true ->
      act = Some "escalate_to_emergency")
  /\ exists sp, specialty_required sa = Some sp
     /\ In sp ["cardiology"; "pulmonology"; "dermatology"; "orthopedics"; "neurology";
               "ophthalmology"; "otolaryngology"; "general_practice"].
Proof.
  unfold Triage.process_response. cbn beta iota zeta.
  split; [reflexivity|]. split; [|split].
  - unfold Triage.determine_triage_action.
    destruct (Triage.assess_priority m), (Triage.check_emergency_indicators m); cbn;
      intuition (try discriminate; try congruence).
  - intros H. unfold Triage.assess_priority. cbv zeta. rewrite H. reflexivity.
  - eexists. split; [reflexivity|apply triage_specialty_range].
Qed.

(** X23: the intake agent answers [non_medical_redirect] exactly when the
    message is not medical, and [crisis_intervention] exactly when it is
    medical and holds crisis words; otherwise it escalates to emergency
    exactly when the completion text holds an emergency phrase. *)
Theorem intake_action t m :
  let '(msg, act, d) := Assisting.process_response t m in
  (act = Some "non_medical_redirect" <-> Assisting.is_medical_request m = false)
  /\ (act = Some "crisis_intervention"
      <-> Assisting.is_medical_request m = true /\ Assisting.detect_crisis_indicators m <> [])
  /\ (Assisting.is_medical_request m = true -> Assisting.detect_crisis_indicators m = [] ->
      (act = Some "escalate_to_emergency" <-> Assisting.detect_emergency_keywords t = true)).
Proof.
  unfold Assisting.process_response.
  destruct (Assisting.is_medical_request m) eqn:Em; cbn [negb].
  - destruct (Assisting.detect_crisis_indicators m) as [|c cs] eqn:Ec.
    + cbv zeta. unfold Assisting.determine_action.
      destruct (Assisting.detect_emergency_keywords t);
        [|destruct (ei_symptoms _); [destruct (Str.contains _ _)|]];
        intuition (try discriminate; try congruence).
    + intuition (try discriminate; try congruence).
  - intuition (try discriminate; try congruence).
Qed.

End TriageIntake.
